(** * Route optimisation post-processing: a shallow embedding

    This development embeds the post-solve reconstruction code of the
    route-optimisation service (lib/aux.js, config.js) and the request
    guard of its HTTP handler (index.js), and states the properties of the
    specification over that embedding.

    Conventions of the embedding.
    - A JavaScript string is a [string] whose characters are the code units
      U+0000..U+00FF.
    - A JavaScript number that the code obtains from [parseInt] or from
      integer arithmetic is [JS.NaN] or [JS.Num z] with [z : Z]; the two
      zeros are identified and no rounding to 53 bits is modelled, so the
      embedding is exact for integers of magnitude below 2^53.
    - Distances (metres) are exact integers; coordinates are rationals and
      are only ever copied.
    - The object returned by [getCumulativeDistances] is only ever indexed by
      numbers; since distinct numbers give distinct property keys, it is a
      finite map keyed by the number itself.
    - A thrown exception is the [Throw] case of [JS.Result].
    - Fields that the solver client always delivers (visit start times,
      load demands, the visit and transition arrays) are total record
      fields; fields that the code itself tests for absence are options. *)

From Stdlib Require Import ZArith QArith String Ascii List Lia.
From stdpp Require Import gmap strings list pretty.

Local Open Scope Z_scope.

(** ** JavaScript primitives used by the code *)

Module JS.

(** Numbers, as far as this code produces them. *)
Inductive Number : Type :=
| NaN
| Num (z : Z).

#[global] Instance Number_eq_dec : EqDecision Number.
Proof. solve_decision. Defined.

Definition Number_to_option (n : Number) : option Z :=
  match n with NaN => None | Num z => Some z end.

Definition Number_of_option (o : option Z) : Number :=
  match o with None => NaN | Some z => Num z end.

#[global] Instance Number_countable : Countable Number.
Proof.
  apply (inj_countable' Number_to_option Number_of_option).
  intros []; reflexivity.
Defined.

(** [a + b] on numbers. *)
Definition add (a b : Number) : Number :=
  match a, b with
  | Num x, Num y => Num (x + y)
  | _, _ => NaN
  end.

(** [a * b] on numbers. *)
Definition mul (a b : Number) : Number :=
  match a, b with
  | Num x, Num y => Num (x * y)
  | _, _ => NaN
  end.

(** [a === b] on numbers: NaN differs from everything, itself included. *)
Definition strict_eq (a b : Number) : bool :=
  match a, b with
  | Num x, Num y => x =? y
  | _, _ => false
  end.

(** [a > 0]. *)
Definition gt0 (a : Number) : bool :=
  match a with
  | Num x => 0 <? x
  | NaN => false
  end.

(** Exceptions. [TypeError] is what a property read on [undefined]
    raises; [Error msg] is [new Error(msg)]. *)
Inductive Exception : Type :=
| Error (msg : string)
| TypeError.

Inductive Result (A : Type) : Type :=
| Ok (a : A)
| Throw (e : Exception).
#[global] Arguments Ok {A} a.
#[global] Arguments Throw {A} e.

Definition bind {A B} (r : Result A) (k : A -> Result B) : Result B :=
  match r with
  | Ok a => k a
  | Throw e => Throw e
  end.

Definition is_Ok {A} (r : Result A) : Prop :=
  match r with Ok _ => True | Throw _ => False end.

(** [arr.map((x, i) => f(i, x))] where the callback may throw: elements
    are visited left to right and the first exception aborts the map. *)
Fixpoint imapM_from {A B} (f : nat -> A -> Result B) (i : nat) (l : list A)
  : Result (list B) :=
  match l with
  | [] => Ok []
  | x :: l' =>
      bind (f i x) (fun y =>
      bind (imapM_from f (S i) l') (fun ys => Ok (y :: ys)))
  end.

Definition imapM {A B} (f : nat -> A -> Result B) (l : list A) : Result (list B) :=
  imapM_from f 0%nat l.

(** White space and line terminators below U+0100: TAB, LF, VT, FF, CR,
    SP and NBSP. *)
Definition isWhiteSpace (c : ascii) : bool :=
  let n := N_of_ascii c in
  ((9 <=? n) && (n <=? 13) || (n =? 32) || (n =? 160))%N.

Fixpoint trimStart (s : string) : string :=
  match s with
  | String c s' => if isWhiteSpace c then trimStart s' else s
  | EmptyString => EmptyString
  end.

Fixpoint trimEnd (s : string) : string :=
  match s with
  | EmptyString => EmptyString
  | String c s' =>
      match trimEnd s' with
      | EmptyString => if isWhiteSpace c then EmptyString else String c EmptyString
      | t => String c t
      end
  end.

(** [s.trim()]. *)
Definition trim (s : string) : string := trimEnd (trimStart s).

Fixpoint dropChars (n : nat) (s : string) : string :=
  match n, s with
  | O, _ => s
  | S n', String _ s' => dropChars n' s'
  | S _, EmptyString => EmptyString
  end.

(** [s.includes(pat)]. *)
Fixpoint includes (s pat : string) : bool :=
  if String.prefix pat s then true
  else match s with
       | EmptyString => false
       | String _ s' => includes s' pat
       end.

(** [s.replace(pat, rep)] for a string pattern and a replacement without
    dollar patterns: the first occurrence only. *)
Fixpoint replace (s pat rep : string) : string :=
  if String.prefix pat s then rep +:+ dropChars (String.length pat) s
  else match s with
       | EmptyString => EmptyString
       | String c s' => String c (replace s' pat rep)
       end.

(** Value of a character as a digit in bases up to 36. *)
Definition digitValue (c : ascii) : option Z :=
  let n := Z.of_N (N_of_ascii c) in
  if (48 <=? n) && (n <=? 57) then Some (n - 48)
  else if (97 <=? n) && (n <=? 122) then Some (n - 87)
  else if (65 <=? n) && (n <=? 90) then Some (n - 55)
  else None.

Definition radixDigit (R : Z) (c : ascii) : option Z :=
  match digitValue c with
  | Some d => if d <? R then Some d else None
  | None => None
  end.

(** Value of the longest prefix of radix-[R] digits; [acc] is the value
    read so far, [None] while no digit has been read. *)
Fixpoint digits (R : Z) (s : string) (acc : option Z) : option Z :=
  match s with
  | String c s' =>
      match radixDigit R c with
      | Some d => digits R s' (Some (R * default 0 acc + d))
      | None => acc
      end
  | EmptyString => acc
  end.

Definition stripSign (s : string) : Z * string :=
  match s with
  | String "-"%char r => (-1, r)
  | String "+"%char r => (1, r)
  | _ => (1, s)
  end.

Definition stripHexPrefix (s : string) : Z * string :=
  match s with
  | String "0"%char (String "x"%char r) => (16, r)
  | String "0"%char (String "X"%char r) => (16, r)
  | _ => (10, s)
  end.

(** [parseInt(s)] with no radix argument. *)
Definition parseInt (input : string) : Number :=
  let '(sign, s1) := stripSign (trimStart input) in
  let '(R, s2) := stripHexPrefix s1 in
  match digits R s2 None with
  | None => NaN
  | Some m => Num (sign * m)
  end.

(** [Math.round(n / 60)] for the number [n]: the nearest integer, halves
    upwards. *)
Definition roundDiv60 (n : Number) : Number :=
  match n with
  | Num z => Num ((z + 30) / 60)
  | NaN => NaN
  end.

Definition twoDigits (n : Z) : string :=
  if n <? 10 then "0" +:+ pretty n else pretty n.

(** [(n / 60).toFixed(2)] for the number [n]. The quotient is never half
    way between two hundredths, so rounding is to the nearest one. *)
Definition div60_toFixed2 (n : Number) : string :=
  match n with
  | NaN => "NaN"
  | Num z =>
      let h := (10 * Z.abs z + 3) / 6 in
      (if z <? 0 then "-" else "") +:+ pretty (h / 100) +:+ "." +:+ twoDigits (h mod 100)
  end.

End JS.

Import JS.

(** ** Configuration constants (config.js) *)

Module Config.
Definition MAX_ROUTE_TIME_IN_MINUTES : Z := 90.
Definition STOP_TIME_IN_MINUTES : Z := 3.
Definition VEHICLE_CAPACITY : Z := 7.
Definition BOOKING_TOKEN : string := "Booking".
End Config.

(** ** Data model: what the code reads of bookings and of solver output *)

(** [{ seconds }]: a timestamp or a duration; the client delivers the
    64-bit field as a string. *)
Record Time := { seconds : string }.

Record LatLng := { latitude : Q; longitude : Q }.

Record VisitRequest := { arrivalLocation : LatLng }.

Record Load := { amount : string }.

Record LoadDemands := { passengers : Load }.

Record Polyline := { points : string }.

Module Booking.
Record t := {
  label : string;
  pickups : list VisitRequest;
  deliveries : list VisitRequest
}.
End Booking.

Module Visit.
Record t := {
  shipmentLabel : string;
  isPickup : bool;
  startTime : Time;
  loadDemands : LoadDemands
}.
End Visit.

Module Transition.
Record t := {
  startTime : Time;
  totalDuration : Time;
  travelDistanceMeters : Z
}.
End Transition.

Module Metrics.
Record t := {
  travelDuration : Time;
  visitDuration : Time;
  totalDuration : Time;
  travelDistanceMeters : Z
}.
End Metrics.

Module Route.
Record t := {
  visits : list Visit.t;
  transitions : list Transition.t;
  vehicleLabel : string;
  metrics : option Metrics.t;
  routePolyline : option Polyline
}.
End Route.

Module Response.
Record t := { routes : list Route.t }.
End Response.

(** ** Output shapes *)

(** The object returned by [getReferenceBooking]. *)
Module Reference.
Record t := {
  ref_booking : Booking.t;
  ref_booking_origin_coordinates : LatLng;
  ref_booking_destination_coordinates : LatLng
}.
End Reference.

(** A value of the object returned by [getCumulativeDistances]. *)
Module DistanceInfo.
Record t := { visitIndex : nat; distanceMeters : Z }.
End DistanceInfo.

Record Point := { lat : Q; lng : Q }.

Module VisitDetail.
Record t := {
  route_number : Z;
  visit_index : Z;
  booking_id : Number;
  origin : Point;
  destination : Point;
  distance : Z;
  travel_time : Number;
  pax_count : Number
}.
End VisitDetail.

Module RouteDetail.
Record t := {
  vehicle : string;
  visits : list VisitDetail.t;
  polyline : option string
}.
End RouteDetail.

Module Stats.
Record t := {
  total_travel_time_minutes : string;
  total_stops_time_minutes : string;
  total_route_time_minutes : string;
  total_route_distance_mts : Z;
  max_route_time_minutes : Z
}.
End Stats.

Module RouteSummary.
Record t := {
  route_number : Z;
  total_stops : nat;
  total_pickups : nat;
  total_dropoffs : nat;
  vehicle_label : string;
  total_passengers : Number;
  vehicle_capacity : Z;
  stats : Stats.t
}.
End RouteSummary.

Module Summary.
Record t := {
  total_routes : nat;
  routes : list RouteSummary.t
}.
End Summary.

(** A record of the flat legacy response. *)
Module Legacy.
Record t := {
  num_ruta : Z;
  num_viaje : Z;
  posicion_en_ruta : Z;
  cod_cliente : Number;
  lat : Q;
  lng : Q;
  distancia : Z;
  tiempo_viaje : Number
}.
End Legacy.

(** The object returned by [createVisitsAPIResponse]; [responde] is absent
    until a route assigns it. *)
Module ApiResponse.
Record t := {
  status : string;
  responde : option (list Legacy.t)
}.
End ApiResponse.

(** ** Array iteration *)

(** [arr.forEach((x, i) => ...)] whose callback updates captured state
    [s]: the state after the elements from position [i] on. *)
Fixpoint forEach_from {A St : Type} (f : St -> nat -> A -> St) (i : nat) (l : list A) (s : St) : St :=
  match l with
  | [] => s
  | x :: l' => forEach_from f (S i) l' (f s i x)
  end.

Definition forEach {A St : Type} (f : St -> nat -> A -> St) (l : list A) (s : St) : St :=
  forEach_from f 0%nat l s.

(** The same when the callback may throw: the exception leaves the loop. *)
Fixpoint forEachM_from {A St : Type} (f : St -> nat -> A -> Result St) (i : nat) (l : list A) (s : St)
  : Result St :=
  match l with
  | [] => Ok s
  | x :: l' => bind (f s i x) (forEachM_from f (S i) l')
  end.

Definition forEachM {A St : Type} (f : St -> nat -> A -> Result St) (l : list A) (s : St) : Result St :=
  forEachM_from f 0%nat l s.

(** ** lib/aux.js *)

Definition getBookingIDFromShipment (visit : option Visit.t) : Number :=
  match visit with
  | None => Num (-1)
  | Some visit =>
      if includes (Visit.shipmentLabel visit) Config.BOOKING_TOKEN
      then parseInt (trim (replace (Visit.shipmentLabel visit) Config.BOOKING_TOKEN ""))
      else parseInt (trim (Visit.shipmentLabel visit))
  end.

(** [arr[0].arrivalLocation]: reading a property of [undefined] throws. *)
Definition firstArrivalLocation (reqs : list VisitRequest) : Result LatLng :=
  match reqs with
  | r :: _ => Ok (arrivalLocation r)
  | [] => Throw TypeError
  end.

Definition getReferenceBooking (bookings : list Booking.t) (visit : Visit.t)
  : Result Reference.t :=
  match head (List.filter (fun b => String.eqb (Booking.label b) (Visit.shipmentLabel visit)) bookings) with
  | None =>
      Throw (Error ("No booking found with label: " +:+ Visit.shipmentLabel visit))
  | Some ref_booking =>
      bind (firstArrivalLocation (Booking.pickups ref_booking)) (fun o =>
      bind (firstArrivalLocation (Booking.deliveries ref_booking)) (fun d =>
      Ok {| Reference.ref_booking := ref_booking;
            Reference.ref_booking_origin_coordinates :=
              {| latitude := latitude o; longitude := longitude o |};
            Reference.ref_booking_destination_coordinates :=
              {| latitude := latitude d; longitude := longitude d |} |}))
  end.

(** The filter callback of [getCumulativeDistances]: the transition's start
    time plus its total duration is the visit's start time. *)
Definition arrivesAt (visit : Visit.t) (t : Transition.t) : bool :=
  strict_eq
    (add (parseInt (seconds (Transition.startTime t)))
         (parseInt (seconds (Transition.totalDuration t))))
    (parseInt (seconds (Visit.startTime visit))).

(** The body of the loop of [getCumulativeDistances] on the state
    [(cumulativeDistance, distancesByVisit)]. *)
Definition distanceStep (transitions : list Transition.t)
    (st : Z * gmap Number DistanceInfo.t) (index : nat) (visit : Visit.t)
  : Z * gmap Number DistanceInfo.t :=
  match head (List.filter (arrivesAt visit) transitions) with
  | Some transition =>
      let cumulativeDistance := fst st + Transition.travelDistanceMeters transition in
      (cumulativeDistance,
       <[getBookingIDFromShipment (Some visit) :=
           {| DistanceInfo.visitIndex := index;
              DistanceInfo.distanceMeters := cumulativeDistance |}]> (snd st))
  | None => st
  end.

Definition getCumulativeDistances (dropoff_visits : list Visit.t)
    (transitions : list Transition.t) : gmap Number DistanceInfo.t :=
  snd (forEach (distanceStep transitions) dropoff_visits (0, ∅)).

Definition getVisitTravelTime (visit : option Visit.t) : Number :=
  match visit with
  | None => Num (-1)
  | Some visit => roundDiv60 (parseInt (seconds (Visit.startTime visit)))
  end.

Definition getPassengersAlongRoute (route : option Route.t) : Number :=
  match route with
  | None => Num 0
  | Some route =>
      fold_left add
        (List.filter gt0
           (map (fun visit => parseInt (amount (passengers (Visit.loadDemands visit))))
                (Route.visits route)))
        (Num 0)
  end.

(** [cumulativeDistance?.distanceMeters || 0]. *)
Definition distanceOrZero (cumulativeDistance : option DistanceInfo.t) : Z :=
  match cumulativeDistance with
  | Some d => if DistanceInfo.distanceMeters d =? 0 then 0 else DistanceInfo.distanceMeters d
  | None => 0
  end.

Definition dropoffs (route : Route.t) : list Visit.t :=
  List.filter (fun v => negb (Visit.isPickup v)) (Route.visits route).

Definition pickupVisits (route : Route.t) : list Visit.t :=
  List.filter (fun v => Visit.isPickup v) (Route.visits route).

Section Views.

(** The conversion of a string to a number that [*] applies to its
    operand; no property below depends on what it yields. *)
Variable StringToNumber : string -> Number.

Definition getPassengersVisit (visit : Visit.t) (pickup : bool) : Number :=
  mul (StringToNumber (amount (passengers (Visit.loadDemands visit))))
      (Num (if pickup then 1 else -1)).

(** The callback of the inner [map] of [getVisitsDetail]. *)
Definition visitDetail (bookings : list Booking.t)
    (cumulativeDistances : gmap Number DistanceInfo.t)
    (index : nat) (pickup : bool) (visit_index : nat) (visit : Visit.t)
  : Result VisitDetail.t :=
  bind (getReferenceBooking bookings visit) (fun r =>
  let ref_booking_origin_coordinates := Reference.ref_booking_origin_coordinates r in
  let ref_booking_destination_coordinates := Reference.ref_booking_destination_coordinates r in
  let bookingId := getBookingIDFromShipment (Some visit) in
  let cumulativeDistance := cumulativeDistances !! bookingId in
  Ok {| VisitDetail.route_number := Z.of_nat index + 1;
        VisitDetail.visit_index := Z.of_nat visit_index;
        VisitDetail.booking_id := bookingId;
        VisitDetail.origin :=
          {| lat := latitude ref_booking_origin_coordinates;
             lng := longitude ref_booking_origin_coordinates |};
        VisitDetail.destination :=
          {| lat := latitude ref_booking_destination_coordinates;
             lng := longitude ref_booking_destination_coordinates |};
        VisitDetail.distance := distanceOrZero cumulativeDistance;
        VisitDetail.travel_time := getVisitTravelTime (Some visit);
        VisitDetail.pax_count := getPassengersVisit visit pickup |}).

(** The callback of the outer [map] of [getVisitsDetail]. *)
Definition routeDetail (bookings : list Booking.t) (pickup : bool)
    (index : nat) (route : Route.t) : Result RouteDetail.t :=
  let pickup_visits := pickupVisits route in
  let dropoff_visits := dropoffs route in
  let _visits := if pickup then pickup_visits else dropoff_visits in
  let cumulativeDistances :=
    getCumulativeDistances dropoff_visits (Route.transitions route) in
  bind (imapM (visitDetail bookings cumulativeDistances index pickup) _visits) (fun vs =>
  Ok {| RouteDetail.vehicle := Route.vehicleLabel route;
        RouteDetail.visits := vs;
        RouteDetail.polyline :=
          match Route.routePolyline route with
          | Some p => Some (points p)
          | None => None
          end |}).

Definition getVisitsDetail (bookings : list Booking.t) (routes : list Route.t)
    (pickup : bool) : Result (list RouteDetail.t) :=
  imapM (routeDetail bookings pickup) routes.

End Views.

(** The body of the loop of [buildOptimizationSummary] on [output.routes]. *)
Definition summaryStep (out : list RouteSummary.t) (index : nat) (route : Route.t)
  : list RouteSummary.t :=
  match Route.metrics route with
  | None => out
  | Some metrics =>
      out ++
      [{| RouteSummary.route_number := Z.of_nat index + 1;
          RouteSummary.total_stops := length (dropoffs route);
          RouteSummary.total_pickups := length (pickupVisits route);
          RouteSummary.total_dropoffs := length (dropoffs route);
          RouteSummary.vehicle_label := Route.vehicleLabel route;
          RouteSummary.total_passengers := getPassengersAlongRoute (Some route);
          RouteSummary.vehicle_capacity := Config.VEHICLE_CAPACITY;
          RouteSummary.stats :=
            {| Stats.total_travel_time_minutes :=
                 div60_toFixed2 (parseInt (seconds (Metrics.travelDuration metrics)));
               Stats.total_stops_time_minutes :=
                 div60_toFixed2 (parseInt (seconds (Metrics.visitDuration metrics)));
               Stats.total_route_time_minutes :=
                 div60_toFixed2 (parseInt (seconds (Metrics.totalDuration metrics)));
               Stats.total_route_distance_mts := Metrics.travelDistanceMeters metrics;
               Stats.max_route_time_minutes := Config.MAX_ROUTE_TIME_IN_MINUTES |} |}]
  end.

Definition buildOptimizationSummary (response : Response.t) : Summary.t :=
  let routes := Response.routes response in
  {| Summary.total_routes := length routes;
     Summary.routes := forEach summaryStep routes [] |}.

(** The start element of a route in the flat response, before the first
    visit's coordinates are copied into it. *)
Definition startElement0 (index : nat) : Legacy.t :=
  {| Legacy.num_ruta := Z.of_nat index + 1;
     Legacy.num_viaje := Z.of_nat index + 1;
     Legacy.posicion_en_ruta := -1;
     Legacy.cod_cliente := Num 0;
     Legacy.lat := 0%Q;
     Legacy.lng := 0%Q;
     Legacy.distancia := 0;
     Legacy.tiempo_viaje := Num 0 |}.

(** The update of the start element from the first drop-off visit. *)
Definition startElementFor (bookings : list Booking.t) (index : nat)
    (dropoff_visits : list Visit.t) : Result Legacy.t :=
  match dropoff_visits with
  | firstVisit :: _ =>
      bind (getReferenceBooking bookings firstVisit) (fun r =>
      let ref_booking_origin_coordinates := Reference.ref_booking_origin_coordinates r in
      Ok {| Legacy.num_ruta := Legacy.num_ruta (startElement0 index);
            Legacy.num_viaje := Legacy.num_viaje (startElement0 index);
            Legacy.posicion_en_ruta := Legacy.posicion_en_ruta (startElement0 index);
            Legacy.cod_cliente := Legacy.cod_cliente (startElement0 index);
            Legacy.lat := latitude ref_booking_origin_coordinates;
            Legacy.lng := longitude ref_booking_origin_coordinates;
            Legacy.distancia := Legacy.distancia (startElement0 index);
            Legacy.tiempo_viaje := Legacy.tiempo_viaje (startElement0 index) |})
  | [] => Ok (startElement0 index)
  end.

(** The callback of the [map] of [createVisitsAPIResponse]. *)
Definition legacyVisit (bookings : list Booking.t)
    (cumulativeDistances : gmap Number DistanceInfo.t)
    (index : nat) (visit_index : nat) (visit : Visit.t) : Result Legacy.t :=
  bind (getReferenceBooking bookings visit) (fun r =>
  let ref_booking_destination_coordinates := Reference.ref_booking_destination_coordinates r in
  let bookingId := getBookingIDFromShipment (Some visit) in
  let cumulativeDistance := cumulativeDistances !! bookingId in
  Ok {| Legacy.num_ruta := Z.of_nat index + 1;
        Legacy.num_viaje := Z.of_nat index + 1;
        Legacy.posicion_en_ruta := Z.of_nat visit_index;
        Legacy.cod_cliente := bookingId;
        Legacy.lat := latitude ref_booking_destination_coordinates;
        Legacy.lng := longitude ref_booking_destination_coordinates;
        Legacy.distancia := distanceOrZero cumulativeDistance;
        Legacy.tiempo_viaje := getVisitTravelTime (Some visit) |}).

(** The record list that one pass of the loop of
    [createVisitsAPIResponse] builds for a route. *)
Definition routeRecords (bookings : list Booking.t) (index : nat) (route : Route.t)
  : Result (list Legacy.t) :=
  let dropoff_visits := dropoffs route in
  let cumulativeDistances :=
    getCumulativeDistances dropoff_visits (Route.transitions route) in
  bind (startElementFor bookings index dropoff_visits) (fun startElement =>
  bind (imapM (legacyVisit bookings cumulativeDistances index) dropoff_visits)
       (fun visitDetails => Ok (startElement :: visitDetails))).

(** The body of the loop: [results.responde = [startElement, ...visitDetails]]. *)
Definition responseStep (bookings : list Booking.t) (results : ApiResponse.t)
    (index : nat) (route : Route.t) : Result ApiResponse.t :=
  bind (routeRecords bookings index route) (fun records =>
  Ok {| ApiResponse.status := ApiResponse.status results;
        ApiResponse.responde := Some records |}).

Definition createVisitsAPIResponse (bookings : list Booking.t) (routes : list Route.t)
  : Result ApiResponse.t :=
  forEachM (responseStep bookings) routes
    {| ApiResponse.status := "Ok"; ApiResponse.responde := None |}.

(** ** The request guard of the HTTP handler (index.js) *)

Module Handler.

(** A JSON value, as the body parser delivers it; [VUndefined] is an
    absent body or property. An object lists each property once. *)
#[warnings="-register-all"] Inductive Value : Type :=
| VUndefined
| VNull
| VBool (b : bool)
| VNumber (n : Number)
| VString (s : string)
| VArray (items : list Value)
| VObject (props : list (string * Value)).

(** [!!v]. *)
Definition truthy (v : Value) : bool :=
  match v with
  | VUndefined | VNull => false
  | VBool b => b
  | VNumber NaN => false
  | VNumber (Num z) => negb (z =? 0)
  | VString s => negb (String.eqb s "")
  | VArray _ | VObject _ => true
  end.

Definition isArray (v : Value) : bool :=
  match v with
  | VArray _ => true
  | _ => false
  end.

Fixpoint lookupProp (name : string) (props : list (string * Value)) : Value :=
  match props with
  | [] => VUndefined
  | (k, v) :: rest => if String.eqb k name then v else lookupProp name rest
  end.

(** [v.name] for a truthy [v] and a name that no prototype defines. *)
Definition get (v : Value) (name : string) : Value :=
  match v with
  | VObject props => lookupProp name props
  | _ => VUndefined
  end.

(** [v.length === 0] for an array [v]. *)
Definition lengthIsZero (v : Value) : bool :=
  match v with
  | VArray [] => true
  | _ => false
  end.

Record Request := { body : Value }.

Record HttpResponse := { statusCode : Z; payload : Value }.

(** What the handler does that is visible outside it. *)
Inductive Event : Type :=
| Log (msg : string)
| SolverCall (model : Value)
| Send (r : HttpResponse).

Definition isSolverCall (e : Event) : bool :=
  match e with
  | SolverCall _ => true
  | _ => false
  end.

Definition badRequest (msg : string) : Event :=
  Send {| statusCode := 400; payload := VObject [("error", VString msg)] |}.

Section Handler.

(** The rest of the [try] block and its [catch]: the transformation of
    the request, [optimizeRoute] (the one place that calls the solver)
    and the 200 or 500 response. *)
Variable optimizeAndRespond : Value -> list Event.

Definition optimizeRouteFunction (req : Request) : list Event :=
  Log "Received optimization request" ::
  if negb (truthy (body req)) then
    [badRequest "Request body is required"]
  else if negb (truthy (get (body req) "bookings"))
          || negb (isArray (get (body req) "bookings"))
          || lengthIsZero (get (body req) "bookings") then
    [badRequest "At least one booking is required"]
  else if negb (truthy (get (body req) "vehicles"))
          || negb (isArray (get (body req) "vehicles"))
          || lengthIsZero (get (body req) "vehicles") then
    [badRequest "At least one vehicle is required"]
  else optimizeAndRespond (body req).

End Handler.

End Handler.

(** ** Sample data for the examples *)

Definition visitOf (label : string) (pickup : bool) (start amt : string) : Visit.t :=
  {| Visit.shipmentLabel := label;
     Visit.isPickup := pickup;
     Visit.startTime := {| seconds := start |};
     Visit.loadDemands := {| passengers := {| amount := amt |} |} |}.

Definition transitionOf (start duration : string) (meters : Z) : Transition.t :=
  {| Transition.startTime := {| seconds := start |};
     Transition.totalDuration := {| seconds := duration |};
     Transition.travelDistanceMeters := meters |}.

Definition placeOf (la lo : Q) : VisitRequest :=
  {| arrivalLocation := {| latitude := la; longitude := lo |} |}.

Definition bookingOf (label : string) (from to : VisitRequest) : Booking.t :=
  {| Booking.label := label; Booking.pickups := [from]; Booking.deliveries := [to] |}.

Definition routeOf (vs : list Visit.t) (ts : list Transition.t) (m : option Metrics.t)
  : Route.t :=
  {| Route.visits := vs;
     Route.transitions := ts;
     Route.vehicleLabel := "V001";
     Route.metrics := m;
     Route.routePolyline := None |}.

Definition metricsOf (travel stop total : string) (meters : Z) : Metrics.t :=
  {| Metrics.travelDuration := {| seconds := travel |};
     Metrics.visitDuration := {| seconds := stop |};
     Metrics.totalDuration := {| seconds := total |};
     Metrics.travelDistanceMeters := meters |}.

(** ** Predicates of the specification *)

Definition isDecimalDigit (c : ascii) : bool :=
  let n := Z.of_N (N_of_ascii c) in (48 <=? n) && (n <=? 57).

Definition startsWithDigit (s : string) : bool :=
  match s with
  | String c _ => isDecimalDigit c
  | EmptyString => false
  end.

(** A label has a leading integer when, after leading white space and one
    optional sign, a decimal digit follows. *)
Definition hasLeadingInteger (s : string) : bool :=
  startsWithDigit (snd (stripSign (trimStart s))).

(** The shipment label with the optional booking token stripped. *)
Definition labelRemainder (visit : Visit.t) : string :=
  if includes (Visit.shipmentLabel visit) Config.BOOKING_TOKEN
  then replace (Visit.shipmentLabel visit) Config.BOOKING_TOKEN ""
  else Visit.shipmentLabel visit.

(** A booking matches a visit when its label is the visit's shipment label. *)
Definition matches (visit : Visit.t) (b : Booking.t) : Prop :=
  Booking.label b = Visit.shipmentLabel visit.

(** The distance that the reconstructor's result attributes to the stop
    at position [i] of the drop-off list: that of the entry recorded with
    this visit index, 0 when there is none. *)
Definition stopDistance (m : gmap Number DistanceInfo.t) (i : nat) : Z :=
  match List.find (fun kv => Nat.eqb (DistanceInfo.visitIndex (snd kv)) i) (map_to_list m) with
  | Some kv => DistanceInfo.distanceMeters (snd kv)
  | None => 0
  end.

(** The invariant of the loop of [getCumulativeDistances] before the visit
    at position [i]: the running total bounds every recorded distance, and
    recorded distances grow with the visit index. *)
Definition distancesInv (i : nat) (st : Z * gmap Number DistanceInfo.t) : Prop :=
  0 <= fst st /\
  (forall k e, snd st !! k = Some e ->
     (DistanceInfo.visitIndex e < i)%nat /\
     0 <= DistanceInfo.distanceMeters e <= fst st) /\
  (forall k1 k2 e1 e2,
     snd st !! k1 = Some e1 -> snd st !! k2 = Some e2 ->
     (DistanceInfo.visitIndex e1 <= DistanceInfo.visitIndex e2)%nat ->
     DistanceInfo.distanceMeters e1 <= DistanceInfo.distanceMeters e2).

(** Every drop-off visit of every route resolves to a booking. *)
Definition allResolve (bookings : list Booking.t) (routes : list Route.t) : Prop :=
  forall route visit,
    route ∈ routes -> visit ∈ dropoffs route ->
    is_Ok (getReferenceBooking bookings visit).

Definition hasMetrics (route : Route.t) : bool :=
  match Route.metrics route with
  | Some _ => true
  | None => false
  end.

(** The signed passenger amounts of a route's visits, in route order. *)
Definition deltas (route : Route.t) : list Number :=
  map (fun visit => parseInt (amount (passengers (Visit.loadDemands visit))))
      (Route.visits route).

(** Starting from [load], the running load stays within [0, capacity]
    after every visit (and every amount is a number). *)
Fixpoint loadWithin (capacity : Z) (load : Z) (ds : list Number) : bool :=
  match ds with
  | [] => true
  | Num d :: rest =>
      (0 <=? load + d) && (load + d <=? capacity) && loadWithin capacity (load + d) rest
  | NaN :: _ => false
  end.

(** Well-formed solver output for a vehicle of the given capacity. *)
Definition wellFormed (capacity : Z) (route : Route.t) : bool :=
  loadWithin capacity 0 (deltas route).

Definition isNegative (d : Number) : bool :=
  match d with
  | Num z => z <? 0
  | NaN => false
  end.

(** No positive amount comes after a negative one: every pickup of the
    route precedes every drop-off. *)
Fixpoint pickupsFirst (ds : list Number) : bool :=
  match ds with
  | [] => true
  | d :: rest =>
      if isNegative d then forallb (fun x => negb (gt0 x)) rest
      else pickupsFirst rest
  end.

(** ** Further predicates and measures used by the properties *)

(** The sum of the positive amounts of a list of deltas. *)
Definition positiveSum (ds : list Number) : Z :=
  fold_right (fun d acc =>
                match d with
                | Num z => if 0 <? z then z + acc else acc
                | NaN => acc
                end) 0 ds.

(** The distance of the leg that arrives at a visit: that of the first
    transition arriving at it, 0 when there is none. *)
Definition legDistance (transitions : list Transition.t) (visit : Visit.t) : Z :=
  match head (List.filter (arrivesAt visit) transitions) with
  | Some t => Transition.travelDistanceMeters t
  | None => 0
  end.

(** The sum of the leg distances of a list of visits. *)
Definition travelled (transitions : list Transition.t) (visits : list Visit.t) : Z :=
  fold_right (fun v acc => legDistance transitions v + acc) 0 visits.

(** The visits that the detailed view lists for a route. *)
Definition selectedVisits (pickup : bool) (route : Route.t) : list Visit.t :=
  if pickup then pickupVisits route else dropoffs route.

(** ** Request transformation (index.js, transformRequestData)

    The request is read as the documented structure: identifiers and place
    names are strings, counts and parameters are numbers, coordinates are
    pairs of rationals; a property that may be left out is an option. A
    coordinate of the result is absent where the code reads it from
    [undefined]. *)

Module Transform.

Module Location.
Record t := { latitude : option Q; longitude : option Q }.
End Location.

Module Parameters.
Record t := {
  STOP_TIME_IN_MINUTES : option Number;
  MAX_ROUTE_TIME_IN_MINUTES : option Number
}.
End Parameters.

Module BookingIn.
Record t := {
  job_id : option string;
  pax_count : Number;
  origin : option string;
  origin_coordinates : option LatLng;
  destination : option LatLng
}.
End BookingIn.

Module VehicleIn.
Record t := {
  vehicle_number : option string;
  start_location : option string;
  start_coordinates : option LatLng;
  vehicle_capacity : option Number
}.
End VehicleIn.

Module RequestData.
Record t := {
  bookings : list BookingIn.t;
  vehicles : list VehicleIn.t;
  parameters : option Parameters.t
}.
End RequestData.

(** A pickup or a delivery of a shipment; [duration] is [duration.seconds]. *)
Module Stop.
Record t := { arrivalLocation : Location.t; duration : option Number }.
End Stop.

(** [amount] is [loadDemands.passengers.amount]. *)
Module Shipment.
Record t := {
  label : string;
  pickups : list Stop.t;
  deliveries : list Stop.t;
  amount : Number
}.
End Shipment.

(** [maxDuration] is [routeDurationLimit.maxDuration.seconds] and [maxLoad]
    is [loadLimits.passengers.maxLoad]. *)
Module ModelVehicle.
Record t := {
  label : string;
  travelMode : string;
  costPerHour : Z;
  costPerKilometer : Z;
  startLocation : Location.t;
  maxDuration : Number;
  maxLoad : Number
}.
End ModelVehicle.

(** [x || d] for an optional number [x]: 0 and NaN are falsy. *)
Definition numberOr (x : option Number) (d : Z) : Number :=
  match x with
  | Some (Num z) => if z =? 0 then Num d else Num z
  | Some NaN | None => Num d
  end.

(** [x || d] for an optional string [x]: the empty string is falsy. *)
Definition stringOr (x : option string) (d : string) : string :=
  match x with
  | Some s => if String.eqb s "" then d else s
  | None => d
  end.

(** The table [originLocations], which is also [startLocations]. *)
Definition knownLocations : list (string * LatLng) :=
  [("AMB Terminal 1",
    {| latitude := (-33.39733755598884)%Q; longitude := (-70.79438713103244)%Q |});
   ("AMB Terminal 2",
    {| latitude := (-33.39312201984877)%Q; longitude := (-70.79180431908104)%Q |})].

(** The property names that an object literal inherits; each is bound to a
    function or an object, a truthy value without coordinates. *)
Definition inheritedNames : list string :=
  ["constructor"; "__defineGetter__"; "__defineSetter__"; "hasOwnProperty";
   "__lookupGetter__"; "__lookupSetter__"; "isPrototypeOf"; "propertyIsEnumerable";
   "toString"; "valueOf"; "__proto__"; "toLocaleString"].

Fixpoint assoc {A : Type} (name : string) (table : list (string * A)) : option A :=
  match table with
  | [] => None
  | (k, v) :: rest => if String.eqb k name then Some v else assoc name rest
  end.

Definition located (c : LatLng) : Location.t :=
  {| Location.latitude := Some (latitude c); Location.longitude := Some (longitude c) |}.

Definition unlocated : Location.t :=
  {| Location.latitude := None; Location.longitude := None |}.

(** [table[name] || { latitude: coordinates?.latitude, longitude:
    coordinates?.longitude }], then its two coordinates. *)
Definition resolveLocation (name : option string) (coordinates : option LatLng)
  : Location.t :=
  let fallback :=
    match coordinates with
    | Some c => located c
    | None => unlocated
    end in
  match name with
  | Some n =>
      match assoc n knownLocations with
      | Some c => located c
      | None => if existsb (String.eqb n) inheritedNames then unlocated else fallback
      end
  | None => fallback
  end.

(** The callback of the [map] over the bookings. *)
Definition transformBooking (stopTimeInMinutes : Number) (index : nat) (booking : BookingIn.t)
  : Result Shipment.t :=
  let originLocation :=
    resolveLocation (BookingIn.origin booking) (BookingIn.origin_coordinates booking) in
  match BookingIn.destination booking with
  | None => Throw TypeError
  | Some destination =>
      Ok {| Shipment.label :=
              stringOr (BookingIn.job_id booking)
                       ("Booking " +:+ pretty (Z.of_nat index + 1));
            Shipment.pickups :=
              [{| Stop.arrivalLocation :=
                    {| Location.latitude := Location.latitude originLocation;
                       Location.longitude := Location.longitude originLocation |};
                  Stop.duration := None |}];
            Shipment.deliveries :=
              [{| Stop.arrivalLocation := located destination;
                  Stop.duration := Some (mul stopTimeInMinutes (Num 60)) |}];
            Shipment.amount := BookingIn.pax_count booking |}
  end.

(** The callback of the [map] over the vehicles. *)
Definition transformVehicle (maxRouteTimeInMinutes : Number) (index : nat)
    (vehicle : VehicleIn.t) : ModelVehicle.t :=
  let startLocation :=
    resolveLocation (VehicleIn.start_location vehicle) (VehicleIn.start_coordinates vehicle) in
  {| ModelVehicle.label :=
       stringOr (VehicleIn.vehicle_number vehicle)
                ("Vehicle " +:+ pretty (Z.of_nat index + 1));
     ModelVehicle.travelMode := "DRIVING";
     ModelVehicle.costPerHour := 40;
     ModelVehicle.costPerKilometer := 10;
     ModelVehicle.startLocation :=
       {| Location.latitude := Location.latitude startLocation;
          Location.longitude := Location.longitude startLocation |};
     ModelVehicle.maxDuration := mul maxRouteTimeInMinutes (Num 60);
     ModelVehicle.maxLoad := numberOr (VehicleIn.vehicle_capacity vehicle) 7 |}.

Definition transformRequestData (requestData : RequestData.t)
  : Result (list Shipment.t * list ModelVehicle.t) :=
  let stopTimeInMinutes :=
    numberOr (match RequestData.parameters requestData with
              | Some p => Parameters.STOP_TIME_IN_MINUTES p
              | None => None
              end) 2 in
  let maxRouteTimeInMinutes :=
    numberOr (match RequestData.parameters requestData with
              | Some p => Parameters.MAX_ROUTE_TIME_IN_MINUTES p
              | None => None
              end) 90 in
  bind (imapM (transformBooking stopTimeInMinutes) (RequestData.bookings requestData))
       (fun bookings =>
  let vehicles :=
    imap (transformVehicle maxRouteTimeInMinutes) (RequestData.vehicles requestData) in
  Ok (bookings, vehicles)).

End Transform.

(** ** The solver call (optimization.js) and the time format (lib/utils.js) *)

Module ApiConfig.

Record RetryConfig := {
  initialRetryDelayMillis : Z;
  retryDelayMultiplier : Q;
  maxRetryDelayMillis : Z;
  maxAttempts : Z
}.

Definition timeoutInMs : Z := 60000.

Definition retryConfig : RetryConfig :=
  {| initialRetryDelayMillis := 100;
     retryDelayMultiplier := 1.3%Q;
     maxRetryDelayMillis := 60000;
     maxAttempts := 5 |}.

Definition populateTransitionPolylines : bool := true.
Definition populatePolylines : bool := true.
Definition considerRoadTraffic : bool := false.

End ApiConfig.

Module Optimization.

Record Credentials := {
  projectId : string;
  client_email : string;
  private_key : string
}.

Record Client := { credentials : Credentials; apiEndpoint : string }.

(** [s.replace(/\\n/g, '\n')]: every backslash followed by the letter n,
    found from left to right, becomes a line feed. *)
Fixpoint unescapeNewlines (s : string) : string :=
  match s with
  | String "\"%char (String "n"%char rest) => String "010"%char (unescapeNewlines rest)
  | String c rest => String c (unescapeNewlines rest)
  | EmptyString => EmptyString
  end.

(** [process.env[name]] when it is truthy: set and not empty. *)
Definition envValue (env : gmap string string) (name : string) : option string :=
  match env !! name with
  | Some v => if String.eqb v "" then None else Some v
  | None => None
  end.

Definition notSet (name : string) : Exception :=
  Error (name +:+ " environment variable is not set. Please set it before running the application.").

Definition createOptimizationClient (env : gmap string string) : Result Client :=
  match envValue env "GOOGLE_PROJECT_ID" with
  | None => Throw (notSet "GOOGLE_PROJECT_ID")
  | Some projectId =>
      match envValue env "GOOGLE_CLIENT_EMAIL" with
      | None => Throw (notSet "GOOGLE_CLIENT_EMAIL")
      | Some clientEmail =>
          match envValue env "GOOGLE_PRIVATE_KEY" with
          | None => Throw (notSet "GOOGLE_PRIVATE_KEY")
          | Some privateKey =>
              Ok {| credentials :=
                      {| projectId := projectId;
                         client_email := clientEmail;
                         private_key := unescapeNewlines privateKey |};
                    apiEndpoint := "routeoptimization.googleapis.com" |}
          end
      end
  end.

(** A [Date] is its time value: milliseconds since the epoch, NaN for an
    invalid date. [new Date(t)] keeps [t] within the range of dates. *)
Definition newDate (t : Number) : Number :=
  match t with
  | Num ms => if Z.abs ms <=? 8640000000000000 then Num ms else NaN
  | NaN => NaN
  end.

Record Timestamp := { seconds : Number }.

(** [dateToGoogleFormat]: [Math.floor(date.getTime() / 1000)]. *)
Definition dateToGoogleFormat (date : Number) : Timestamp :=
  {| seconds := match date with
                | Num ms => Num (ms / 1000)
                | NaN => NaN
                end |}.

Module Options.
Record t := {
  startDate : option Number;
  endDate : option Number;
  considerRoadTraffic : option bool;
  includePickups : option bool
}.
End Options.

Record CallOptions := { timeout : Z; retry : ApiConfig.RetryConfig }.

Module Output.
Record t := {
  response : Response.t;
  routes : list Route.t;
  visits_detail : list RouteDetail.t;
  visits_api_response : ApiResponse.t;
  summary : Summary.t
}.
End Output.

Module ApiOutput.
Record t := {
  response : Response.t;
  visits_detail : list RouteDetail.t
}.
End ApiOutput.

Section Solver.

(** The shipments and vehicles go to the solver as they are; [asBooking]
    is what lib/aux.js reads of a shipment. *)
Variables Shipment Vehicle : Type.
Variable asBooking : Shipment -> Booking.t.
Variable StringToNumber : string -> Number.

Record Model := {
  shipments : list Shipment;
  vehicles : list Vehicle;
  globalStartTime : option Timestamp;
  globalEndTime : option Timestamp
}.

Record Request := {
  parent : string;
  model : Model;
  populateTransitionPolylines : bool;
  populatePolylines : bool;
  considerRoadTraffic : bool
}.

(** The solver: the answer of [client.optimizeTours] to a request, after
    the client's own retries. *)
Variable optimizeTours : Client -> Request -> CallOptions -> Result Response.t.

Inductive Effect : Type :=
| OptimizeTours (client : Client) (request : Request) (options : CallOptions)
| ConsoleError (context : string) (e : Exception).

Definition isOptimizeTours (e : Effect) : bool :=
  match e with
  | OptimizeTours _ _ _ => true
  | ConsoleError _ _ => false
  end.

Definition callOptions : CallOptions :=
  {| timeout := ApiConfig.timeoutInMs; retry := ApiConfig.retryConfig |}.

(** [`projects/${process.env.GOOGLE_PROJECT_ID}`]. *)
Definition parentOf (env : gmap string string) : string :=
  "projects/" +:+ default "undefined" (env !! "GOOGLE_PROJECT_ID").

(** The [try] block around the solver call and the views, with its
    [catch], which logs and throws again. *)
Definition attempt {A : Type} (context : string) (client : Client) (request : Request)
    (views : Response.t -> Result A) : list Effect * Result A :=
  match bind (optimizeTours client request callOptions) views with
  | Ok a => ([OptimizeTours client request callOptions], Ok a)
  | Throw e =>
      ([OptimizeTours client request callOptions; ConsoleError context e], Throw e)
  end.

Definition pickupFlag (options : Options.t) : bool :=
  default false (Options.includePickups options).

Definition optimizeRoute (env : gmap string string) (now : Z)
    (bookings : list Shipment) (vehicles : list Vehicle) (options : Options.t)
  : list Effect * Result Output.t :=
  match createOptimizationClient env with
  | Throw e => ([], Throw e)
  | Ok client =>
      let startDate := default (Num now) (Options.startDate options) in
      let endDate :=
        default (newDate (add startDate (Num (24 * 60 * 60 * 1000))))
                (Options.endDate options) in
      let request :=
        {| parent := parentOf env;
           model := {| shipments := bookings;
                       vehicles := vehicles;
                       globalStartTime := Some (dateToGoogleFormat startDate);
                       globalEndTime := Some (dateToGoogleFormat endDate) |};
           populateTransitionPolylines := ApiConfig.populateTransitionPolylines;
           populatePolylines := ApiConfig.populatePolylines;
           considerRoadTraffic :=
             default ApiConfig.considerRoadTraffic (Options.considerRoadTraffic options) |} in
      attempt "Error in route optimization:" client request (fun response =>
        bind (getVisitsDetail StringToNumber (map asBooking bookings)
                (Response.routes response) (pickupFlag options)) (fun visits_detail =>
        bind (createVisitsAPIResponse (map asBooking bookings) (Response.routes response))
             (fun visits_api_response =>
        Ok {| Output.response := response;
              Output.routes := Response.routes response;
              Output.visits_detail := visits_detail;
              Output.visits_api_response := visits_api_response;
              Output.summary := buildOptimizationSummary response |})))
  end.

Definition optimizeRouteWithModel (env : gmap string string) (model : Model)
    (options : Options.t) : list Effect * Result Output.t :=
  match createOptimizationClient env with
  | Throw e => ([], Throw e)
  | Ok client =>
      let request :=
        {| parent := parentOf env;
           model := model;
           populateTransitionPolylines := ApiConfig.populateTransitionPolylines;
           populatePolylines := ApiConfig.populatePolylines;
           considerRoadTraffic :=
             default ApiConfig.considerRoadTraffic (Options.considerRoadTraffic options) |} in
      attempt "Error in route optimization with model:" client request (fun response =>
        bind (getVisitsDetail StringToNumber (map asBooking (shipments model))
                (Response.routes response) (pickupFlag options)) (fun visits_detail =>
        bind (createVisitsAPIResponse (map asBooking (shipments model))
                (Response.routes response))
             (fun visits_api_response =>
        Ok {| Output.response := response;
              Output.routes := Response.routes response;
              Output.visits_detail := visits_detail;
              Output.visits_api_response := visits_api_response;
              Output.summary := buildOptimizationSummary response |})))
  end.

Definition optimizeRoutesAPI (env : gmap string string) (now : Z)
    (bookings : list Shipment) (vehicles : list Vehicle) (options : Options.t)
  : list Effect * Result ApiOutput.t :=
  match createOptimizationClient env with
  | Throw e => ([], Throw e)
  | Ok client =>
      let startDate := default (Num now) (Options.startDate options) in
      let endDate :=
        default (newDate (add startDate (Num (24 * 60 * 60 * 1000))))
                (Options.endDate options) in
      let request :=
        {| parent := parentOf env;
           model := {| shipments := bookings;
                       vehicles := vehicles;
                       globalStartTime := Some (dateToGoogleFormat startDate);
                       globalEndTime := Some (dateToGoogleFormat endDate) |};
           populateTransitionPolylines := false;
           populatePolylines := true;
           considerRoadTraffic := default true (Options.considerRoadTraffic options) |} in
      attempt "Error in API route optimization:" client request (fun response =>
        bind (getVisitsDetail StringToNumber (map asBooking bookings)
                (Response.routes response) (pickupFlag options)) (fun visits_detail =>
        Ok {| ApiOutput.response := response;
              ApiOutput.visits_detail := visits_detail |}))
  end.

End Solver.

Arguments shipments {Shipment Vehicle} _.
Arguments vehicles {Shipment Vehicle} _.
Arguments globalStartTime {Shipment Vehicle} _.
Arguments globalEndTime {Shipment Vehicle} _.
Arguments parent {Shipment Vehicle} _.
Arguments model {Shipment Vehicle} _.
Arguments populateTransitionPolylines {Shipment Vehicle} _.
Arguments populatePolylines {Shipment Vehicle} _.
Arguments considerRoadTraffic {Shipment Vehicle} _.
Arguments OptimizeTours {Shipment Vehicle} _ _ _.
Arguments ConsoleError {Shipment Vehicle} _ _.
Arguments isOptimizeTours {Shipment Vehicle} _.

End Optimization.

(** Every character of a string satisfies [p]. *)
Fixpoint allChars (p : ascii -> bool) (s : string) : bool :=
  match s with
  | EmptyString => true
  | String c r => p c && allChars p r
  end.

Definition isMinusOrDigit (c : ascii) : bool :=
  isDecimalDigit c || Ascii.eqb c "-".

(** The stop time and route time parameters of a request, when given. *)
Definition stopParameter (req : Transform.RequestData.t) : option Number :=
  match Transform.RequestData.parameters req with
  | Some p => Transform.Parameters.STOP_TIME_IN_MINUTES p
  | None => None
  end.

Definition routeParameter (req : Transform.RequestData.t) : option Number :=
  match Transform.RequestData.parameters req with
  | Some p => Transform.Parameters.MAX_ROUTE_TIME_IN_MINUTES p
  | None => None
  end.


(** An optional string that is left out or empty. *)
Definition blank (x : option string) : Prop :=
  x = None \/ x = Some EmptyString.

(** An environment variable is set when it is defined and not empty. *)
Definition isSet (env : gmap string string) (name : string) : Prop :=
  exists v, env !! name = Some v /\ v <> EmptyString.

(** The string starts with the letter n. *)
Definition startsWith_n (s : string) : bool :=
  match s with
  | String c _ => Ascii.eqb c "n"
  | EmptyString => false
  end.

(** How a run of one of the three entry points of optimization.js behaves
    towards the solver and the console: without credentials it does
    nothing and raises the credential error; with credentials it calls the
    solver exactly once, and a failure after that point is logged once,
    under the entry point's own heading, and raised again unchanged. *)
Definition disciplined {Shipment Vehicle A : Type}
    (clientResult : Result Optimization.Client) (heading : string)
    (run : list (Optimization.Effect Shipment Vehicle) * Result A) : Prop :=
  match clientResult with
  | Throw e => run = ([], Throw e)
  | Ok client =>
      exists request,
        (is_Ok (snd run) ->
         fst run = [Optimization.OptimizeTours client request Optimization.callOptions]) /\
        (forall e, snd run = Throw e ->
                   fst run = [Optimization.OptimizeTours client request Optimization.callOptions;
                              Optimization.ConsoleError heading e])
  end.

(** ** Grouping (lib/utils.js, groupBy)

    The accumulator is an object literal used as a map from property names
    to arrays; an item is filed under the property name that [item[key]]
    converts to. *)

Module Utils.

Section GroupBy.
Context {A : Type}.

(** The property name for [item[key]]. *)
Variable groupKeyOf : A -> string.

(** A name that the empty object literal inherits: reading it gives a
    function or an object, which is truthy and has no [push]. *)
Definition inherited (name : string) : bool :=
  existsb (String.eqb name) Transform.inheritedNames.

(** The callback of the [reduce]:
    [result[groupKey] = result[groupKey] || []; result[groupKey].push(item)]. *)
Definition groupStep (result : gmap string (list A)) (item : A)
  : Result (gmap string (list A)) :=
  let groupKey := groupKeyOf item in
  match result !! groupKey with
  | Some group => Ok (<[groupKey := group ++ [item]]> result)
  | None =>
      if inherited groupKey then Throw TypeError
      else Ok (<[groupKey := [item]]> result)
  end.

(** [array.reduce(f, acc)] where the callback may throw. *)
Fixpoint reduceM {St : Type} (f : St -> A -> Result St) (array : list A) (acc : St)
  : Result St :=
  match array with
  | [] => Ok acc
  | item :: rest => bind (f acc item) (reduceM f rest)
  end.

Definition groupBy (array : list A) : Result (gmap string (list A)) :=
  reduceM groupStep array ∅.

(** The items filed under [name], in the order of the array. *)
Definition itemsOf (name : string) (array : list A) : list A :=
  List.filter (fun item => String.eqb (groupKeyOf item) name) array.

End GroupBy.

End Utils.

(** ** Facts about the primitives *)

Lemma bind_Ok_inv {A B : Type} (r : Result A) (k : A -> Result B) (b : B) :
  bind r k = Ok b -> exists a, r = Ok a /\ k a = Ok b.
Proof. destruct r as [a|e]; simpl; [eauto | discriminate]. Qed.

Lemma is_Ok_bind {A B : Type} (r : Result A) (k : A -> Result B) :
  is_Ok r -> (forall a, r = Ok a -> is_Ok (k a)) -> is_Ok (bind r k).
Proof. destruct r as [a|e]; simpl; [auto | tauto]. Qed.

Lemma is_Ok_exists {A : Type} (r : Result A) : is_Ok r -> exists a, r = Ok a.
Proof. destruct r; simpl; [eauto | tauto]. Qed.

Section ResultFacts.
Context {A B : Type}.

Lemma imapM_from_lookup (f : nat -> A -> Result B) (l : list A) :
  forall (i : nat) (out : list B),
    imapM_from f i l = Ok out ->
    length out = length l /\
    forall (j : nat) (x : A), l !! j = Some x ->
      exists y, out !! j = Some y /\ f (i + j)%nat x = Ok y.
Proof.
  induction l as [|x0 l IH]; intros i out H; simpl in H.
  - injection H as <-. split; [reflexivity | intros j x Hj; discriminate].
  - apply bind_Ok_inv in H as (y & Hy & H).
    apply bind_Ok_inv in H as (ys & Hys & H).
    injection H as <-.
    destruct (IH _ _ Hys) as [Hlen Hlk].
    split; [simpl; congruence |].
    intros [|j] x Hj; simpl in Hj.
    + injection Hj as <-. exists y. rewrite Nat.add_0_r. auto.
    + destruct (Hlk j x Hj) as (y' & Hy' & Hf).
      exists y'. split; [exact Hy' |].
      replace (i + S j)%nat with (S i + j)%nat by lia. exact Hf.
Qed.

Lemma imapM_from_is_Ok (f : nat -> A -> Result B) (l : list A) :
  forall i : nat,
    (forall (j : nat) (x : A), l !! j = Some x -> is_Ok (f (i + j)%nat x)) ->
    is_Ok (imapM_from f i l).
Proof.
  induction l as [|x0 l IH]; intros i H; simpl; [exact I |].
  apply is_Ok_bind.
  - specialize (H 0%nat x0 eq_refl). rewrite Nat.add_0_r in H. exact H.
  - intros y _. apply is_Ok_bind; [| intros; exact I].
    apply IH. intros j x Hj.
    replace (S i + j)%nat with (i + S j)%nat by lia.
    apply (H (S j)). exact Hj.
Qed.

End ResultFacts.

Lemma forEach_from_app {A St : Type} (f : St -> nat -> A -> St) (l1 l2 : list A) :
  forall (i : nat) (s : St),
    forEach_from f i (l1 ++ l2) s =
    forEach_from f (i + length l1) l2 (forEach_from f i l1 s).
Proof.
  induction l1 as [|x l1 IH]; intros i s; simpl.
  - rewrite Nat.add_0_r. reflexivity.
  - rewrite IH. f_equal. lia.
Qed.

Lemma forEachM_from_app {A St : Type} (f : St -> nat -> A -> Result St) (l1 l2 : list A) :
  forall (i : nat) (s : St),
    forEachM_from f i (l1 ++ l2) s =
    bind (forEachM_from f i l1 s) (forEachM_from f (i + length l1) l2).
Proof.
  induction l1 as [|x l1 IH]; intros i s; simpl.
  - rewrite Nat.add_0_r. reflexivity.
  - destruct (f s i x) as [s'|e]; simpl; [| reflexivity].
    rewrite IH. f_equal. f_equal. lia.
Qed.

Lemma trimStart_head (s : string) (c : ascii) (r : string) :
  trimStart s = String c r -> isWhiteSpace c = false.
Proof.
  induction s as [|a s IH]; simpl; [discriminate |].
  destruct (isWhiteSpace a) eqn:Ha; [exact IH |].
  intros H. injection H as <- <-. exact Ha.
Qed.

Lemma trimStart_fixed (c : ascii) (r : string) :
  isWhiteSpace c = false -> trimStart (String c r) = String c r.
Proof. intros H. simpl. rewrite H. reflexivity. Qed.

Lemma trimEnd_cons (c : ascii) (s : string) :
  (isWhiteSpace c = true /\ trimEnd (String c s) = EmptyString) \/
  trimEnd (String c s) = String c (trimEnd s).
Proof.
  simpl. destruct (trimEnd s) as [|a t]; [| right; reflexivity].
  destruct (isWhiteSpace c); [left | right]; auto.
Qed.

Lemma startsWithDigit_trimEnd (s : string) :
  startsWithDigit s = false -> startsWithDigit (trimEnd s) = false.
Proof.
  destruct s as [|c s]; [reflexivity |].
  intros H. destruct (trimEnd_cons c s) as [[_ ->] | ->]; [reflexivity | exact H].
Qed.

Lemma radixDigit_10_None (c : ascii) :
  isDecimalDigit c = false -> radixDigit 10 c = None.
Proof.
  unfold isDecimalDigit, radixDigit, digitValue. cbv zeta.
  intros ->.
  repeat match goal with
         | |- context [if ?b then _ else _] => destruct b eqn:?
         end; try reflexivity; lia.
Qed.

Lemma stripHexPrefix_no_digit (s : string) :
  startsWithDigit s = false -> stripHexPrefix s = (10, s).
Proof.
  destruct s as [|c s]; [reflexivity |].
  simpl. intros H.
  destruct (Ascii.eqb c "0") eqn:E.
  - apply Ascii.eqb_eq in E. subst c. discriminate H.
  - unfold stripHexPrefix.
    destruct c as [[] [] [] [] [] [] [] []]; try reflexivity; discriminate E.
Qed.

Lemma digits_no_digit (s : string) :
  startsWithDigit s = false -> digits 10 s None = None.
Proof.
  destruct s as [|c s]; [reflexivity |].
  simpl. intros H. rewrite (radixDigit_10_None _ H). reflexivity.
Qed.

Lemma parseInt_after_sign (s : string) :
  startsWithDigit (snd (stripSign s)) = false ->
  (forall c r, s = String c r -> isWhiteSpace c = false) ->
  parseInt s = NaN.
Proof.
  intros H Hws. unfold parseInt.
  assert (trimStart s = s) as ->.
  { destruct s as [|c r]; [reflexivity |]. apply trimStart_fixed. eauto. }
  destruct (stripSign s) as [sign s1]. simpl in H.
  rewrite (stripHexPrefix_no_digit _ H), (digits_no_digit _ H). reflexivity.
Qed.

Lemma stripSign_trimEnd (c : ascii) (r : string) :
  startsWithDigit (snd (stripSign (String c r))) = false ->
  startsWithDigit (snd (stripSign (String c (trimEnd r)))) = false.
Proof.
  unfold stripSign.
  destruct (Ascii.eqb c "-") eqn:E1; [apply Ascii.eqb_eq in E1; subst c |].
  { simpl. apply startsWithDigit_trimEnd. }
  destruct (Ascii.eqb c "+") eqn:E2; [apply Ascii.eqb_eq in E2; subst c |].
  { simpl. apply startsWithDigit_trimEnd. }
  destruct c as [[] [] [] [] [] [] [] []]; try (intros H; exact H);
    first [discriminate E1 | discriminate E2].
Qed.

(** A string without a leading integer does not parse, trimmed or not. *)
Lemma parseInt_trim_NaN (s : string) :
  hasLeadingInteger s = false -> parseInt (trim s) = NaN.
Proof.
  unfold hasLeadingInteger, trim. intros H.
  destruct (trimStart s) as [|c r] eqn:E; [reflexivity |].
  pose proof (trimStart_head _ _ _ E) as Hc.
  destruct (trimEnd_cons c r) as [[Hc' _] | ->]; [congruence |].
  apply parseInt_after_sign.
  - apply stripSign_trimEnd. exact H.
  - intros c' r' Heq. injection Heq as <- <-. exact Hc.
Qed.

Section HeadFilter.
Context {A : Type} (p : A -> bool).

Lemma head_filter_None (l : list A) :
  head (List.filter p l) = None <-> Forall (fun x => p x = false) l.
Proof.
  induction l as [|x l IH]; simpl.
  - split; [constructor | reflexivity].
  - destruct (p x) eqn:E; simpl.
    + split; [discriminate |]. intros H. inversion H; congruence.
    + rewrite IH. split; [constructor; assumption |]. intros H. inversion H; assumption.
Qed.

Lemma head_filter_first (pre post : list A) (b : A) :
  Forall (fun x => p x = false) pre -> p b = true ->
  head (List.filter p (pre ++ b :: post)) = Some b.
Proof.
  induction 1 as [|x pre Hx _ IH]; intros Hb; simpl.
  - rewrite Hb. reflexivity.
  - rewrite Hx. auto.
Qed.

Lemma head_filter_Some (l : list A) (b : A) :
  head (List.filter p l) = Some b ->
  exists pre post, l = pre ++ b :: post /\
                   Forall (fun x => p x = false) pre /\ p b = true.
Proof.
  induction l as [|x l IH]; simpl; [discriminate |].
  destruct (p x) eqn:E; simpl.
  - intros H. injection H as <-. exists [], l. auto.
  - intros H. destruct (IH H) as (pre & post & -> & Hpre & Hb).
    exists (x :: pre), post. auto.
Qed.

End HeadFilter.

Lemma matches_eqb (visit : Visit.t) (b : Booking.t) :
  String.eqb (Booking.label b) (Visit.shipmentLabel visit) = true <-> matches visit b.
Proof. apply String.eqb_eq. Qed.

Lemma not_matches_eqb (visit : Visit.t) (bookings : list Booking.t) :
  Forall (fun b => ~ matches visit b) bookings <->
  Forall (fun b => String.eqb (Booking.label b) (Visit.shipmentLabel visit) = false) bookings.
Proof.
  apply Forall_iff. intros b. unfold matches. symmetry. apply String.eqb_neq.
Qed.

(** ** The booking/visit matcher *)

(** C1, as stated, fails: with two bookings of the same label the matcher
    does not raise, it returns the first of them. *)
Lemma getReferenceBooking_ambiguous_returns_first :
  let b1 := bookingOf "Booking 7" (placeOf 1 2) (placeOf 3 4) in
  let b2 := bookingOf "Booking 7" (placeOf 5 6) (placeOf 7 8) in
  let visit := visitOf "Booking 7" false "0" "-1" in
  matches visit b1 /\ matches visit b2 /\ b1 <> b2 /\
  exists r, getReferenceBooking [b1; b2] visit = Ok r /\ Reference.ref_booking r = b1.
Proof.
  cbv zeta. repeat split; try discriminate.
  eexists. split; reflexivity.
Qed.

(** C1, amended: the matcher returns the first booking, in array order,
    whose label equals the visit's shipment label (the unique one when
    there is exactly one), with the coordinates of its first pickup and
    first delivery; it raises the error naming the label exactly when no
    booking has that label. *)
Theorem getReferenceBooking_first_match (bookings : list Booking.t) (visit : Visit.t) :
  (Forall (fun b => ~ matches visit b) bookings ->
   getReferenceBooking bookings visit =
   Throw (Error ("No booking found with label: " +:+ Visit.shipmentLabel visit)))
  /\
  (forall pre b post o os d ds,
      bookings = pre ++ b :: post ->
      Forall (fun b' => ~ matches visit b') pre ->
      matches visit b ->
      Booking.pickups b = o :: os ->
      Booking.deliveries b = d :: ds ->
      exists r,
        getReferenceBooking bookings visit = Ok r /\
        Reference.ref_booking r = b /\
        latitude (Reference.ref_booking_origin_coordinates r) = latitude (arrivalLocation o) /\
        longitude (Reference.ref_booking_origin_coordinates r) = longitude (arrivalLocation o) /\
        latitude (Reference.ref_booking_destination_coordinates r) = latitude (arrivalLocation d) /\
        longitude (Reference.ref_booking_destination_coordinates r) = longitude (arrivalLocation d))
  /\
  (forall b,
      b ∈ bookings ->
      matches visit b ->
      (forall b', b' ∈ bookings -> matches visit b' -> b' = b) ->
      Booking.pickups b <> [] ->
      Booking.deliveries b <> [] ->
      exists r, getReferenceBooking bookings visit = Ok r /\ Reference.ref_booking r = b)
  /\
  ((exists msg, getReferenceBooking bookings visit = Throw (Error msg)) <->
   Forall (fun b => ~ matches visit b) bookings).
Proof.
  assert (Hfirst : forall pre b post o os d ds,
      bookings = pre ++ b :: post ->
      Forall (fun b' => ~ matches visit b') pre ->
      matches visit b ->
      Booking.pickups b = o :: os ->
      Booking.deliveries b = d :: ds ->
      getReferenceBooking bookings visit =
      Ok {| Reference.ref_booking := b;
            Reference.ref_booking_origin_coordinates :=
              {| latitude := latitude (arrivalLocation o);
                 longitude := longitude (arrivalLocation o) |};
            Reference.ref_booking_destination_coordinates :=
              {| latitude := latitude (arrivalLocation d);
                 longitude := longitude (arrivalLocation d) |} |}).
  { intros pre b post o os d ds -> Hpre Hb Ho Hd.
    unfold getReferenceBooking.
    rewrite (head_filter_first _ pre post b).
    - rewrite Ho, Hd. reflexivity.
    - apply not_matches_eqb. exact Hpre.
    - apply matches_eqb. exact Hb. }
  assert (Hnone : Forall (fun b => ~ matches visit b) bookings ->
      getReferenceBooking bookings visit =
      Throw (Error ("No booking found with label: " +:+ Visit.shipmentLabel visit))).
  { intros H. unfold getReferenceBooking.
    apply not_matches_eqb, head_filter_None in H. rewrite H. reflexivity. }
  split; [exact Hnone |]. split; [| split].
  - intros pre b post o os d ds Hl Hpre Hb Ho Hd.
    eexists. split; [eapply Hfirst; eassumption |]. simpl. auto.
  - intros b Hin Hb Huniq Ho Hd.
    unfold getReferenceBooking.
    destruct (head (List.filter _ bookings)) as [b0|] eqn:E.
    + apply head_filter_Some in E as (pre & post & Hl & _ & Hb0).
      apply matches_eqb in Hb0.
      assert (b0 = b) as ->.
      { apply Huniq; [| exact Hb0]. rewrite Hl. apply elem_of_app. right. apply elem_of_cons. left. reflexivity. }
      destruct (Booking.pickups b) as [|o os]; [congruence |].
      destruct (Booking.deliveries b) as [|d ds]; [congruence |].
      simpl. eexists. split; reflexivity.
    + apply head_filter_None in E. apply not_matches_eqb in E.
      rewrite Forall_forall in E. exfalso. exact (E b Hin Hb).
  - split; [| intros H; rewrite (Hnone H); eauto].
    intros [msg Hmsg]. unfold getReferenceBooking in Hmsg.
    destruct (head (List.filter _ bookings)) as [b0|] eqn:E.
    + destruct (Booking.pickups b0); [discriminate |].
      destruct (Booking.deliveries b0); discriminate.
    + apply not_matches_eqb, head_filter_None. exact E.
Qed.

Lemma getReferenceBooking_first_match_witness :
  let b1 := bookingOf "Booking 7" (placeOf 1 2) (placeOf 3 4) in
  let b2 := bookingOf "Booking 8" (placeOf 5 6) (placeOf 7 8) in
  let visit := visitOf "Booking 8" false "0" "-1" in
  exists r, getReferenceBooking [b1; b2] visit = Ok r /\ Reference.ref_booking r = b2.
Proof.
  cbv zeta.
  destruct (getReferenceBooking_first_match
              [bookingOf "Booking 7" (placeOf 1 2) (placeOf 3 4);
               bookingOf "Booking 8" (placeOf 5 6) (placeOf 7 8)]
              (visitOf "Booking 8" false "0" "-1")) as (_ & H & _).
  destruct (H [bookingOf "Booking 7" (placeOf 1 2) (placeOf 3 4)]
              (bookingOf "Booking 8" (placeOf 5 6) (placeOf 7 8)) []
              (placeOf 5 6) [] (placeOf 7 8) [])
    as (r & Hr & Hb & _).
  - reflexivity.
  - constructor; [| constructor]. unfold matches. simpl. discriminate.
  - reflexivity.
  - reflexivity.
  - reflexivity.
  - exists r. split; assumption.
Defined.

(** ** Booking id extraction *)

Lemma getBookingIDFromShipment_remainder (visit : Visit.t) :
  getBookingIDFromShipment (Some visit) = parseInt (trim (labelRemainder visit)).
Proof.
  unfold getBookingIDFromShipment, labelRemainder.
  destruct (includes _ _); reflexivity.
Qed.

(** C3, as stated, fails: a present visit labelled "Booking-1" yields -1,
    so -1 is not returned only for an absent visit. *)
Lemma getBookingIDFromShipment_present_minus_one :
  getBookingIDFromShipment (Some (visitOf "Booking-1" false "0" "-1")) = Num (-1) /\
  ~ (forall visit, getBookingIDFromShipment visit = Num (-1) -> visit = None).
Proof.
  split; [reflexivity |].
  intros H. specialize (H (Some (visitOf "Booking-1" false "0" "-1")) eq_refl).
  discriminate H.
Qed.

(** C3, amended: the labels "Booking 42" and "42" both give 42; an absent
    visit gives -1; a label whose remainder has no leading integer gives
    NaN, so a present visit gives -1 only when its label parses, to -1. *)
Theorem getBookingIDFromShipment_spec :
  (forall visit, Visit.shipmentLabel visit = "Booking 42" ->
                 getBookingIDFromShipment (Some visit) = Num 42) /\
  (forall visit, Visit.shipmentLabel visit = "42" ->
                 getBookingIDFromShipment (Some visit) = Num 42) /\
  getBookingIDFromShipment None = Num (-1) /\
  (forall visit, hasLeadingInteger (labelRemainder visit) = false ->
                 getBookingIDFromShipment (Some visit) = NaN) /\
  (forall visit, getBookingIDFromShipment (Some visit) = Num (-1) ->
                 hasLeadingInteger (labelRemainder visit) = true /\
                 parseInt (trim (labelRemainder visit)) = Num (-1)).
Proof.
  split; [| split; [| split; [| split]]].
  - intros visit H. unfold getBookingIDFromShipment. rewrite H. reflexivity.
  - intros visit H. unfold getBookingIDFromShipment. rewrite H. reflexivity.
  - reflexivity.
  - intros visit H. rewrite getBookingIDFromShipment_remainder.
    apply parseInt_trim_NaN. exact H.
  - intros visit H. rewrite getBookingIDFromShipment_remainder in H.
    split; [| exact H].
    destruct (hasLeadingInteger (labelRemainder visit)) eqn:E; [reflexivity |].
    rewrite (parseInt_trim_NaN _ E) in H. discriminate H.
Qed.

Lemma getBookingIDFromShipment_spec_witness :
  getBookingIDFromShipment (Some (visitOf "Booking 42" false "120" "-2")) = Num 42 /\
  getBookingIDFromShipment (Some (visitOf "42" false "120" "-2")) = Num 42 /\
  getBookingIDFromShipment (Some (visitOf "Booking X" false "120" "-2")) = NaN /\
  hasLeadingInteger (labelRemainder (visitOf "Booking-1" false "0" "-1")) = true.
Proof.
  destruct getBookingIDFromShipment_spec as (H1 & H2 & _ & H4 & H5).
  split; [apply H1; reflexivity |].
  split; [apply H2; reflexivity |].
  split; [apply H4; reflexivity |].
  apply (H5 (visitOf "Booking-1" false "0" "-1")). reflexivity.
Defined.

(** C9, as stated, fails in its last clause: a present visit labelled "-1"
    (no token) yields -1. *)
Lemma getBookingIDFromShipment_bare_minus_one :
  includes "-1" Config.BOOKING_TOKEN = false /\
  getBookingIDFromShipment (Some (visitOf "-1" true "0" "1")) = Num (-1) /\
  ~ (forall visit, getBookingIDFromShipment visit = Num (-1) -> visit = None).
Proof.
  split; [reflexivity |]. split; [reflexivity |].
  intros H. specialize (H (Some (visitOf "-1" true "0" "1")) eq_refl).
  discriminate H.
Qed.

(** C9, amended: a present visit whose label neither contains the token
    nor has a leading integer yields NaN, not -1, and no exception (the
    function is total); an absent visit yields -1; and -1 is produced only
    for an absent visit or for a label whose remainder has a leading
    integer and parses to -1. *)
Theorem getBookingIDFromShipment_unparsable :
  (forall visit : Visit.t,
      includes (Visit.shipmentLabel visit) Config.BOOKING_TOKEN = false ->
      hasLeadingInteger (Visit.shipmentLabel visit) = false ->
      getBookingIDFromShipment (Some visit) = NaN /\
      getBookingIDFromShipment (Some visit) <> Num (-1)) /\
  getBookingIDFromShipment None = Num (-1) /\
  (forall visit : option Visit.t,
      getBookingIDFromShipment visit = Num (-1) ->
      visit = None \/
      exists v, visit = Some v /\
                hasLeadingInteger (labelRemainder v) = true /\
                parseInt (trim (labelRemainder v)) = Num (-1)).
Proof.
  split; [| split; [reflexivity |]].
  - intros visit Htok Hint.
    assert (getBookingIDFromShipment (Some visit) = NaN) as ->.
    { unfold getBookingIDFromShipment. rewrite Htok.
      apply parseInt_trim_NaN. exact Hint. }
    split; [reflexivity | discriminate].
  - intros [v|] H; [right | left; reflexivity].
    exists v. split; [reflexivity |].
    rewrite getBookingIDFromShipment_remainder in H.
    split; [| exact H].
    destruct (hasLeadingInteger (labelRemainder v)) eqn:E; [reflexivity |].
    rewrite (parseInt_trim_NaN _ E) in H. discriminate H.
Qed.

Lemma getBookingIDFromShipment_unparsable_witness :
  getBookingIDFromShipment (Some (visitOf "AMB-17" false "120" "-2")) = NaN /\
  hasLeadingInteger (labelRemainder (visitOf "-1" true "0" "1")) = true.
Proof.
  destruct getBookingIDFromShipment_unparsable as (Hnan & _ & Hminus).
  split.
  - apply (Hnan (visitOf "AMB-17" false "120" "-2")); reflexivity.
  - destruct (Hminus (Some (visitOf "-1" true "0" "1")) eq_refl) as [H | (v & Hv & H & _)].
    + discriminate H.
    + injection Hv as <-. exact H.
Defined.

(** ** The cumulative distance reconstructor *)

Section Distances.
Variable transitions : list Transition.t.

Lemma distanceStep_unmatched st index visit :
  List.filter (arrivesAt visit) transitions = [] ->
  distanceStep transitions st index visit = st.
Proof. unfold distanceStep. intros ->. reflexivity. Qed.

Lemma distanceStep_inv st index visit :
  Forall (fun t => 0 <= Transition.travelDistanceMeters t) transitions ->
  distancesInv index st ->
  distancesInv (S index) (distanceStep transitions st index visit).
Proof.
  intros Hnn (Hc & Hbound & Hmono). unfold distanceStep.
  destruct (head (List.filter (arrivesAt visit) transitions)) as [t|] eqn:E.
  - assert (0 <= Transition.travelDistanceMeters t) as Ht.
    { apply head_filter_Some in E as (pre & post & Hl & _).
      rewrite Forall_forall in Hnn. apply Hnn. rewrite Hl.
      apply elem_of_app. right. apply elem_of_cons. left. reflexivity. }
    destruct st as [c m]. unfold distancesInv. simpl in *.
    split; [lia |]. split.
    + intros k e. rewrite lookup_insert. case_decide.
      * intros H'. injection H' as <-. simpl. lia.
      * intros H'. destruct (Hbound _ _ H'). lia.
    + intros k1 k2 e1 e2. rewrite !lookup_insert.
      repeat case_decide; intros H1 H2 Hle.
      * injection H1 as <-. injection H2 as <-. simpl. lia.
      * injection H1 as <-. destruct (Hbound _ _ H2). simpl in Hle. lia.
      * injection H2 as <-. destruct (Hbound _ _ H1). simpl. lia.
      * eapply Hmono; eassumption.
  - split; [exact Hc |]. split; [| exact Hmono].
    intros k e H'. destruct (Hbound _ _ H'). lia.
Qed.

Lemma distances_loop_inv dropoff_visits :
  Forall (fun t => 0 <= Transition.travelDistanceMeters t) transitions ->
  forall i st,
    distancesInv i st ->
    distancesInv (i + length dropoff_visits)
                 (forEach_from (distanceStep transitions) i dropoff_visits st).
Proof.
  intros Hnn. induction dropoff_visits as [|v vs IH]; intros i st Hinv; simpl.
  - rewrite Nat.add_0_r. exact Hinv.
  - replace (i + S (length vs))%nat with (S i + length vs)%nat by lia.
    apply IH. apply distanceStep_inv; assumption.
Qed.

(** Entries recorded from position [i] on carry an index of at least [i]. *)
Lemma distances_loop_index_from dropoff_visits (lo : nat) :
  forall i st,
    (lo <= i)%nat ->
    (forall k e, snd st !! k = Some e -> (lo <= DistanceInfo.visitIndex e)%nat) ->
    forall k e,
      snd (forEach_from (distanceStep transitions) i dropoff_visits st) !! k = Some e ->
      (lo <= DistanceInfo.visitIndex e)%nat.
Proof.
  induction dropoff_visits as [|v vs IH]; intros i st Hi Hst; simpl; [exact Hst |].
  apply IH; [lia |].
  intros k e. unfold distanceStep.
  destruct (head (List.filter (arrivesAt v) transitions)); [| apply Hst].
  simpl. rewrite lookup_insert. case_decide; [| apply Hst].
  intros H'. injection H' as <-. simpl. exact Hi.
Qed.

(** A key stays absent while no visit carrying it has a matching
    transition. *)
Lemma distances_loop_lookup_None dropoff_visits (k : Number) :
  forall i st,
    snd st !! k = None ->
    (forall v, v ∈ dropoff_visits -> getBookingIDFromShipment (Some v) = k ->
               List.filter (arrivesAt v) transitions = []) ->
    snd (forEach_from (distanceStep transitions) i dropoff_visits st) !! k = None.
Proof.
  induction dropoff_visits as [|v vs IH]; intros i st Hst Hvs; simpl; [exact Hst |].
  apply IH.
  - unfold distanceStep.
    destruct (head (List.filter (arrivesAt v) transitions)) as [t|] eqn:E; [| exact Hst].
    simpl. rewrite lookup_insert_ne; [exact Hst |].
    intros Hk. rewrite (Hvs v) in E; [discriminate E | | exact Hk].
    apply elem_of_cons. left. reflexivity.
  - intros v' Hin. apply Hvs. apply elem_of_cons. right. exact Hin.
Qed.

(** Every recorded entry stems from the drop-off visit at its visit index:
the key is that visit's derived booking id and a transition arrives at
the visit. [all] is the whole drop-off list, [dropoff_visits] its part
from position [i] on. *)
Lemma distances_loop_entries (all dropoff_visits : list Visit.t) :
  forall i st,
    (forall j v, dropoff_visits !! j = Some v -> all !! (i + j)%nat = Some v) ->
    (forall k e, snd st !! k = Some e ->
       exists v, all !! DistanceInfo.visitIndex e = Some v /\
                 getBookingIDFromShipment (Some v) = k /\
                 List.filter (arrivesAt v) transitions <> []) ->
    forall k e,
      snd (forEach_from (distanceStep transitions) i dropoff_visits st) !! k = Some e ->
      exists v, all !! DistanceInfo.visitIndex e = Some v /\
                getBookingIDFromShipment (Some v) = k /\
                List.filter (arrivesAt v) transitions <> [].
Proof.
  induction dropoff_visits as [|v vs IH]; intros i st Hall Hst; simpl; [exact Hst |].
  apply IH.
  - intros j v' Hj. replace (S i + j)%nat with (i + S j)%nat by lia.
    apply Hall. exact Hj.
  - intros k e. unfold distanceStep.
    destruct (head (List.filter (arrivesAt v) transitions)) as [t|] eqn:E; [| apply Hst].
    simpl. rewrite lookup_insert. case_decide; [| apply Hst].
    intros H'. injection H' as <-. simpl. exists v. split; [| split].
    + specialize (Hall 0%nat v eq_refl). rewrite Nat.add_0_r in Hall. exact Hall.
    + assumption.
    + intros Hnil. rewrite Hnil in E. discriminate E.
Qed.

End Distances.

Lemma distancesInv_init : distancesInv 0 (0, ∅).
Proof.
  split; [simpl; lia |]. split.
  - intros k e H. simpl in H. rewrite lookup_empty in H. discriminate H.
  - intros k1 k2 e1 e2 H. simpl in H. rewrite lookup_empty in H. discriminate H.
Qed.

Lemma stopDistance_no_entry (m : gmap Number DistanceInfo.t) (i : nat) :
  (forall k e, m !! k = Some e -> DistanceInfo.visitIndex e <> i) ->
  stopDistance m i = 0.
Proof.
  intros H. unfold stopDistance.
  destruct (List.find _ (map_to_list m)) as [[k e]|] eqn:E; [| reflexivity].
  apply find_some in E as [Hin Heq]. simpl in Heq.
  apply Nat.eqb_eq in Heq.
  apply list_elem_of_In, elem_of_map_to_list in Hin.
  exfalso. exact (H k e Hin Heq).
Qed.

(** C2: when every transition has a non-negative travel distance, the
    distances recorded by [getCumulativeDistances] are non-negative and
    non-decreasing in the recorded visit index, that is over successive
    drop-off visits in solver order; each recorded entry belongs to the
    drop-off visit at its visit index, under that visit's derived booking id,
    and a transition arrives at that visit; and when no transition arrives
    at the first drop-off visit, no distance is recorded for it: its
    distance is 0. *)
Theorem getCumulativeDistances_monotone
    (dropoff_visits : list Visit.t) (transitions : list Transition.t) :
  Forall (fun t => 0 <= Transition.travelDistanceMeters t) transitions ->
  (forall k1 k2 e1 e2,
      getCumulativeDistances dropoff_visits transitions !! k1 = Some e1 ->
      getCumulativeDistances dropoff_visits transitions !! k2 = Some e2 ->
      (DistanceInfo.visitIndex e1 <= DistanceInfo.visitIndex e2)%nat ->
      0 <= DistanceInfo.distanceMeters e1 <= DistanceInfo.distanceMeters e2)
  /\
  (forall k e,
      getCumulativeDistances dropoff_visits transitions !! k = Some e ->
      exists visit,
        dropoff_visits !! DistanceInfo.visitIndex e = Some visit /\
        getBookingIDFromShipment (Some visit) = k /\
        List.filter (arrivesAt visit) transitions <> [])
  /\
  (forall first rest,
      dropoff_visits = first :: rest ->
      List.filter (arrivesAt first) transitions = [] ->
      stopDistance (getCumulativeDistances dropoff_visits transitions) 0 = 0 /\
      forall k e, getCumulativeDistances dropoff_visits transitions !! k = Some e ->
                  DistanceInfo.visitIndex e <> 0%nat).
Proof.
  intros Hnn. unfold getCumulativeDistances, forEach. split; [| split].
  - pose proof (distances_loop_inv transitions dropoff_visits Hnn 0 (0, ∅) distancesInv_init)
      as (_ & Hbound & Hmono).
    intros k1 k2 e1 e2 H1 H2 Hle. split.
    + destruct (Hbound _ _ H1). lia.
    + eapply Hmono; eassumption.
  - apply distances_loop_entries.
    + intros j v Hj. exact Hj.
    + intros k e H. simpl in H. rewrite lookup_empty in H. discriminate H.
  - intros first rest -> Hfirst.
    assert (Hidx : forall k e,
               snd (forEach_from (distanceStep transitions) 0 (first :: rest) (0, ∅)) !! k = Some e ->
               (1 <= DistanceInfo.visitIndex e)%nat).
    { simpl. rewrite (distanceStep_unmatched _ _ _ _ Hfirst).
      apply distances_loop_index_from; [lia |].
      intros k e H. simpl in H. rewrite lookup_empty in H. discriminate H. }
    split.
    + apply stopDistance_no_entry. intros k e H. specialize (Hidx k e H). lia.
    + intros k e H. specialize (Hidx k e H). lia.
Qed.

Lemma getCumulativeDistances_monotone_witness :
  let visits := [visitOf "Booking 1" false "100" "-2";
                 visitOf "Booking 2" false "400" "-1";
                 visitOf "Booking 3" false "900" "-3"] in
  let transitions := [transitionOf "150" "250" 1200; transitionOf "450" "450" 800] in
  stopDistance (getCumulativeDistances visits transitions) 0 = 0 /\
  getCumulativeDistances visits transitions !! Num 2 =
    Some {| DistanceInfo.visitIndex := 1; DistanceInfo.distanceMeters := 1200 |} /\
  getCumulativeDistances visits transitions !! Num 3 =
    Some {| DistanceInfo.visitIndex := 2; DistanceInfo.distanceMeters := 2000 |} /\
  0 <= 1200 <= 2000.
Proof.
  cbv zeta.
  destruct (getCumulativeDistances_monotone
              [visitOf "Booking 1" false "100" "-2";
               visitOf "Booking 2" false "400" "-1";
               visitOf "Booking 3" false "900" "-3"]
              [transitionOf "150" "250" 1200; transitionOf "450" "450" 800])
    as (Hmono & _ & Hfirst).
  { repeat constructor; simpl; lia. }
  assert (H2 : getCumulativeDistances
                 [visitOf "Booking 1" false "100" "-2";
                  visitOf "Booking 2" false "400" "-1";
                  visitOf "Booking 3" false "900" "-3"]
                 [transitionOf "150" "250" 1200; transitionOf "450" "450" 800] !! Num 2 =
               Some {| DistanceInfo.visitIndex := 1; DistanceInfo.distanceMeters := 1200 |})
    by (vm_compute; reflexivity).
  assert (H3 : getCumulativeDistances
                 [visitOf "Booking 1" false "100" "-2";
                  visitOf "Booking 2" false "400" "-1";
                  visitOf "Booking 3" false "900" "-3"]
                 [transitionOf "150" "250" 1200; transitionOf "450" "450" 800] !! Num 3 =
               Some {| DistanceInfo.visitIndex := 2; DistanceInfo.distanceMeters := 2000 |})
    by (vm_compute; reflexivity).
  split; [apply (Hfirst _ _ eq_refl); reflexivity |].
  split; [exact H2 |]. split; [exact H3 |].
  apply (Hmono _ _ _ _ H2 H3). simpl. lia.
Defined.

(** ** The views over the reconstructed distances *)

Lemma forEachM_from_is_Ok {A St : Type} (f : St -> nat -> A -> Result St) (l : list A) :
  forall (i : nat) (s : St),
    (forall s' j x, l !! j = Some x -> is_Ok (f s' (i + j)%nat x)) ->
    is_Ok (forEachM_from f i l s).
Proof.
  induction l as [|x l IH]; intros i s H; simpl; [exact I |].
  apply is_Ok_bind.
  - specialize (H s 0%nat x eq_refl). rewrite Nat.add_0_r in H. exact H.
  - intros s' _. apply IH. intros s'' j y Hj.
    replace (S i + j)%nat with (i + S j)%nat by lia. apply (H s'' (S j)). exact Hj.
Qed.

Section ViewFacts.
Variable StringToNumber : string -> Number.
Variable bookings : list Booking.t.

Lemma visitDetail_fields m index pickup j visit d :
  visitDetail StringToNumber bookings m index pickup j visit = Ok d ->
  VisitDetail.distance d = distanceOrZero (m !! getBookingIDFromShipment (Some visit)) /\
  VisitDetail.booking_id d = getBookingIDFromShipment (Some visit) /\
  VisitDetail.visit_index d = Z.of_nat j /\
  VisitDetail.route_number d = Z.of_nat index + 1.
Proof.
  unfold visitDetail. intros H.
  apply bind_Ok_inv in H as (r & _ & H). injection H as <-. simpl. auto.
Qed.

Lemma legacyVisit_fields m index j visit rec :
  legacyVisit bookings m index j visit = Ok rec ->
  Legacy.distancia rec = distanceOrZero (m !! getBookingIDFromShipment (Some visit)) /\
  Legacy.cod_cliente rec = getBookingIDFromShipment (Some visit) /\
  Legacy.posicion_en_ruta rec = Z.of_nat j /\
  Legacy.num_ruta rec = Z.of_nat index + 1.
Proof.
  unfold legacyVisit. intros H.
  apply bind_Ok_inv in H as (r & _ & H). injection H as <-. simpl. auto.
Qed.

Lemma visitDetail_is_Ok m index pickup j visit :
  is_Ok (getReferenceBooking bookings visit) ->
  is_Ok (visitDetail StringToNumber bookings m index pickup j visit).
Proof. intros H. apply is_Ok_bind; [exact H | intros; exact I]. Qed.

Lemma legacyVisit_is_Ok m index j visit :
  is_Ok (getReferenceBooking bookings visit) ->
  is_Ok (legacyVisit bookings m index j visit).
Proof. intros H. apply is_Ok_bind; [exact H | intros; exact I]. Qed.

Lemma routeDetail_is_Ok index route :
  (forall visit, visit ∈ dropoffs route ->
                 is_Ok (getReferenceBooking bookings visit)) ->
  is_Ok (routeDetail StringToNumber bookings false index route).
Proof.
  intros H. unfold routeDetail. apply is_Ok_bind; [| intros; exact I].
  apply imapM_from_is_Ok. intros j x Hj. apply visitDetail_is_Ok, H.
  eapply list_elem_of_lookup_2. exact Hj.
Qed.

Lemma routeRecords_is_Ok index route :
  (forall visit, visit ∈ dropoffs route ->
                 is_Ok (getReferenceBooking bookings visit)) ->
  is_Ok (routeRecords bookings index route).
Proof.
  intros H. unfold routeRecords. apply is_Ok_bind.
  - unfold startElementFor. destruct (dropoffs route) as [|v vs]; [exact I |].
    apply is_Ok_bind; [| intros; exact I]. apply H. apply elem_of_cons. left. reflexivity.
  - intros st _. apply is_Ok_bind; [| intros; exact I].
    apply imapM_from_is_Ok. intros j x Hj. apply legacyVisit_is_Ok, H.
    eapply list_elem_of_lookup_2. exact Hj.
Qed.

Lemma getVisitsDetail_is_Ok routes :
  allResolve bookings routes ->
  is_Ok (getVisitsDetail StringToNumber bookings routes false).
Proof.
  intros H. apply imapM_from_is_Ok. intros j route Hj.
  apply routeDetail_is_Ok. intros visit. apply H.
  eapply list_elem_of_lookup_2. exact Hj.
Qed.

Lemma createVisitsAPIResponse_is_Ok routes :
  allResolve bookings routes ->
  is_Ok (createVisitsAPIResponse bookings routes).
Proof.
  intros H. apply forEachM_from_is_Ok. intros s' j route Hj.
  unfold responseStep. apply is_Ok_bind; [| intros; exact I].
  apply routeRecords_is_Ok. intros visit. apply H.
  eapply list_elem_of_lookup_2. exact Hj.
Qed.

(** The detailed view holds, for the drop-off at position [i] of the
    route at position [ri], the record that [visitDetail] builds. *)
Lemma getVisitsDetail_lookup routes details ri route i visit :
  getVisitsDetail StringToNumber bookings routes false = Ok details ->
  routes !! ri = Some route ->
  dropoffs route !! i = Some visit ->
  exists rd d,
    details !! ri = Some rd /\
    RouteDetail.visits rd !! i = Some d /\
    visitDetail StringToNumber bookings
      (getCumulativeDistances (dropoffs route) (Route.transitions route))
      ri false i visit = Ok d.
Proof.
  intros Hd Hr Hv.
  apply imapM_from_lookup in Hd as [_ Hd].
  destruct (Hd _ _ Hr) as (rd & Hrd & Hroute). simpl in Hroute.
  unfold routeDetail in Hroute.
  apply bind_Ok_inv in Hroute as (vs & Hvs & Hroute). injection Hroute as <-.
  apply imapM_from_lookup in Hvs as [_ Hvs].
  destruct (Hvs _ _ Hv) as (d & Hdv & Hf). simpl in Hf.
  exists {| RouteDetail.vehicle := Route.vehicleLabel route;
            RouteDetail.visits := vs;
            RouteDetail.polyline :=
              match Route.routePolyline route with
              | Some p => Some (points p)
              | None => None
              end |}, d.
  auto.
Qed.

Lemma responseStep_status i routes :
  forall s res,
    forEachM_from (responseStep bookings) i routes s = Ok res ->
    ApiResponse.status res = ApiResponse.status s.
Proof.
  revert i. induction routes as [|r routes IH]; intros i s res H; simpl in H.
  - injection H as <-. reflexivity.
  - apply bind_Ok_inv in H as (s1 & Hs1 & H).
    rewrite (IH _ _ _ H).
    unfold responseStep in Hs1. apply bind_Ok_inv in Hs1 as (recs & _ & Hs1).
    injection Hs1 as <-. reflexivity.
Qed.

(** The flat view of a non-empty route list holds the records of the
    last route, and of no other. *)
Lemma createVisitsAPIResponse_snoc pre route res :
  createVisitsAPIResponse bookings (pre ++ [route]) = Ok res ->
  exists records,
    routeRecords bookings (length pre) route = Ok records /\
    res = {| ApiResponse.status := "Ok"; ApiResponse.responde := Some records |}.
Proof.
  unfold createVisitsAPIResponse, forEachM. rewrite forEachM_from_app. intros H.
  apply bind_Ok_inv in H as (s1 & Hs1 & H).
  apply responseStep_status in Hs1. simpl in Hs1, H.
  apply bind_Ok_inv in H as (s2 & Hs2 & H). injection H as <-.
  unfold responseStep in Hs2. apply bind_Ok_inv in Hs2 as (records & Hrec & Hs2).
  injection Hs2 as <-. exists records. rewrite Hs1. auto.
Qed.

Lemma routeRecords_inv index route records :
  routeRecords bookings index route = Ok records ->
  exists start visitDetails,
    records = start :: visitDetails /\
    startElementFor bookings index (dropoffs route) = Ok start /\
    imapM (legacyVisit bookings
             (getCumulativeDistances (dropoffs route) (Route.transitions route)) index)
          (dropoffs route) = Ok visitDetails.
Proof.
  unfold routeRecords. intros H.
  apply bind_Ok_inv in H as (start & Hstart & H).
  apply bind_Ok_inv in H as (vs & Hvs & H). injection H as <-.
  exists start, vs. auto.
Qed.

End ViewFacts.

(** C4, as stated, fails: the entries are keyed by the derived booking id,
    so a drop-off without a matching transition still finds an entry under
    its id when another drop-off of the route has the same id and a
    matching transition. The labels "12345" and "12345-2" are distinct and
    both derive the id 12345 (any two non-numeric labels likewise both
    derive NaN); the second visit has no matching transition, yet both views
    report 1500 for it. *)
Lemma unmatched_visit_inherits_distance :
  let v0 := visitOf "12345" false "300" "-2" in
  let v1 := visitOf "12345-2" false "900" "-1" in
  let route := routeOf [v0; v1] [transitionOf "0" "300" 1500] None in
  let bookings := [bookingOf "12345" (placeOf 1 2) (placeOf 3 4);
                   bookingOf "12345-2" (placeOf 1 2) (placeOf 5 6)] in
  dropoffs route !! 1%nat = Some v1 /\
  List.filter (arrivesAt v1) (Route.transitions route) = [] /\
  getBookingIDFromShipment (Some v1) = Num 12345 /\
  getCumulativeDistances (dropoffs route) (Route.transitions route)
    !! getBookingIDFromShipment (Some v1)
  = Some {| DistanceInfo.visitIndex := 0; DistanceInfo.distanceMeters := 1500 |} /\
  (exists res records rec,
      createVisitsAPIResponse bookings [route] = Ok res /\
      ApiResponse.responde res = Some records /\
      records !! 2%nat = Some rec /\
      Legacy.posicion_en_ruta rec = 1 /\
      Legacy.distancia rec = 1500) /\
  (exists details rd d,
      getVisitsDetail parseInt bookings [route] false = Ok details /\
      details !! 0%nat = Some rd /\
      RouteDetail.visits rd !! 1%nat = Some d /\
      VisitDetail.distance d = 1500).
Proof.
  cbv zeta.
  split; [reflexivity |]. split; [reflexivity |]. split; [reflexivity |].
  split; [vm_compute; reflexivity |].
  split.
  - eexists _, _, _. split; [vm_compute; reflexivity |].
    split; [reflexivity |]. split; [reflexivity |]. split; reflexivity.
  - eexists _, _, _. split; [vm_compute; reflexivity |].
    split; [reflexivity |]. split; reflexivity.
Qed.

(** C4, amended: for a drop-off visit that no transition arrives at, and
    whose derived booking id no other drop-off of the route with a matching
    transition shares, the reconstructor records no entry under that id;
    the detailed view and the flat view (which holds the last route) then
    report distance 0 for the visit; and both views return, rather than
    raise, whenever every drop-off visit resolves to a booking. *)
Theorem missing_distance_is_zero
    (StringToNumber : string -> Number)
    (bookings : list Booking.t) (routes : list Route.t)
    (ri : nat) (route : Route.t) (i : nat) (visit : Visit.t) :
  routes !! ri = Some route ->
  dropoffs route !! i = Some visit ->
  List.filter (arrivesAt visit) (Route.transitions route) = [] ->
  (forall j other,
      dropoffs route !! j = Some other -> j <> i ->
      getBookingIDFromShipment (Some other) = getBookingIDFromShipment (Some visit) ->
      List.filter (arrivesAt other) (Route.transitions route) = []) ->
  getCumulativeDistances (dropoffs route) (Route.transitions route)
    !! getBookingIDFromShipment (Some visit) = None
  /\
  (forall details,
      getVisitsDetail StringToNumber bookings routes false = Ok details ->
      exists rd d,
        details !! ri = Some rd /\
        RouteDetail.visits rd !! i = Some d /\
        VisitDetail.booking_id d = getBookingIDFromShipment (Some visit) /\
        VisitDetail.distance d = 0)
  /\
  (forall res,
      S ri = length routes ->
      createVisitsAPIResponse bookings routes = Ok res ->
      exists records rec,
        ApiResponse.responde res = Some records /\
        records !! S i = Some rec /\
        Legacy.cod_cliente rec = getBookingIDFromShipment (Some visit) /\
        Legacy.distancia rec = 0)
  /\
  (allResolve bookings routes ->
   is_Ok (getVisitsDetail StringToNumber bookings routes false) /\
   is_Ok (createVisitsAPIResponse bookings routes)).
Proof.
  intros Hroute Hvisit Hnone Hothers.
  assert (Hkey : getCumulativeDistances (dropoffs route) (Route.transitions route)
                   !! getBookingIDFromShipment (Some visit) = None).
  { unfold getCumulativeDistances, forEach.
    apply distances_loop_lookup_None; [apply lookup_empty |].
    intros other Hin Hk. apply list_elem_of_lookup in Hin as [j Hj].
    destruct (decide (j = i)) as [-> | Hne].
    - rewrite Hvisit in Hj. injection Hj as <-. exact Hnone.
    - eapply Hothers; eassumption. }
  split; [exact Hkey |]. split; [| split].
  - intros details Hd.
    destruct (getVisitsDetail_lookup _ _ _ _ _ _ _ _ Hd Hroute Hvisit)
      as (rd & d & Hrd & Hdv & Hf).
    apply visitDetail_fields in Hf as (Hdist & Hid & _).
    exists rd, d. rewrite Hkey in Hdist. auto.
  - intros res Hlast Hres.
    assert (exists pre, routes = pre ++ [route] /\ length pre = ri) as (pre & -> & Hpre).
    { assert (Hl : last routes = Some route).
      { rewrite last_lookup. rewrite <- Hlast. simpl. exact Hroute. }
      apply last_Some in Hl as [pre ->]. exists pre. split; [reflexivity |].
      rewrite length_app in Hlast. simpl in Hlast. lia. }
    apply createVisitsAPIResponse_snoc in Hres as (records & Hrec & ->).
    apply routeRecords_inv in Hrec as (start & vs & -> & _ & Hvs).
    apply imapM_from_lookup in Hvs as [_ Hvs].
    destruct (Hvs _ _ Hvisit) as (rec & Hrec & Hf).
    apply legacyVisit_fields in Hf as (Hdist & Hid & _).
    exists (start :: vs), rec. rewrite Hkey in Hdist. simpl. auto.
  - intros Hall. split.
    + apply getVisitsDetail_is_Ok. exact Hall.
    + apply createVisitsAPIResponse_is_Ok. exact Hall.
Qed.

Lemma missing_distance_is_zero_witness :
  let v0 := visitOf "Booking 11" false "300" "-2" in
  let v1 := visitOf "Booking 12" false "900" "-1" in
  let route := routeOf [v0; v1] [transitionOf "0" "300" 1500] None in
  let bookings := [bookingOf "Booking 11" (placeOf 1 2) (placeOf 3 4);
                   bookingOf "Booking 12" (placeOf 1 2) (placeOf 5 6)] in
  getCumulativeDistances (dropoffs route) (Route.transitions route)
    !! getBookingIDFromShipment (Some v1) = None /\
  is_Ok (getVisitsDetail parseInt bookings [route] false) /\
  is_Ok (createVisitsAPIResponse bookings [route]).
Proof.
  cbv zeta.
  destruct (missing_distance_is_zero parseInt
              [bookingOf "Booking 11" (placeOf 1 2) (placeOf 3 4);
               bookingOf "Booking 12" (placeOf 1 2) (placeOf 5 6)]
              [routeOf [visitOf "Booking 11" false "300" "-2";
                        visitOf "Booking 12" false "900" "-1"]
                       [transitionOf "0" "300" 1500] None]
              0%nat
              (routeOf [visitOf "Booking 11" false "300" "-2";
                        visitOf "Booking 12" false "900" "-1"]
                       [transitionOf "0" "300" 1500] None)
              1%nat
              (visitOf "Booking 12" false "900" "-1"))
    as (Hkey & _ & _ & Hok).
  - reflexivity.
  - reflexivity.
  - reflexivity.
  - intros [|[|[|j]]] other Hj Hne Hk.
    + simpl in Hj. injection Hj as <-. vm_compute in Hk. discriminate Hk.
    + exfalso. apply Hne. reflexivity.
    + simpl in Hj. discriminate Hj.
    + simpl in Hj. discriminate Hj.
  - split; [exact Hkey |]. apply Hok.
    intros route visit Hr Hv.
    apply list_elem_of_singleton in Hr. subst route.
    simpl in Hv. apply elem_of_cons in Hv as [-> | Hv]; [exact I |].
    apply list_elem_of_singleton in Hv. subst visit. exact I.
Defined.

(** ** The flat legacy response *)

(** C5: when it returns, the flat view has status "Ok"; with no route the
    record list is absent; otherwise the list is that of the last route
    alone: a start record at position -1 numbered after that route
    (coordinates 0, or the origin of the first drop-off's booking when there
    is a drop-off), followed by one record per drop-off at positions 0, 1,
    ...; records of earlier routes do not appear. The view returns whenever
    every drop-off visit resolves to a booking. *)
Theorem createVisitsAPIResponse_last_route
    (bookings : list Booking.t) (routes : list Route.t) :
  (allResolve bookings routes -> is_Ok (createVisitsAPIResponse bookings routes))
  /\
  forall res,
    createVisitsAPIResponse bookings routes = Ok res ->
    ApiResponse.status res = "Ok" /\
    match last routes with
    | None => ApiResponse.responde res = None
    | Some route =>
        exists start records,
          ApiResponse.responde res = Some (start :: records) /\
          routeRecords bookings (pred (length routes)) route = Ok (start :: records) /\
          Legacy.posicion_en_ruta start = -1 /\
          Legacy.num_ruta start = Z.of_nat (length routes) /\
          match dropoffs route with
          | [] => Legacy.lat start = 0%Q /\ Legacy.lng start = 0%Q
          | first :: _ =>
              exists r,
                getReferenceBooking bookings first = Ok r /\
                Legacy.lat start = latitude (Reference.ref_booking_origin_coordinates r) /\
                Legacy.lng start = longitude (Reference.ref_booking_origin_coordinates r)
          end /\
          length records = length (dropoffs route) /\
          forall i visit,
            dropoffs route !! i = Some visit ->
            exists rec,
              records !! i = Some rec /\
              Legacy.posicion_en_ruta rec = Z.of_nat i /\
              Legacy.num_ruta rec = Z.of_nat (length routes) /\
              Legacy.cod_cliente rec = getBookingIDFromShipment (Some visit)
    end.
Proof.
  split; [apply createVisitsAPIResponse_is_Ok |].
  intros res Hres.
  destruct (last routes) as [route|] eqn:El.
  - apply last_Some in El as [pre ->].
    apply createVisitsAPIResponse_snoc in Hres as (records & Hrec & ->).
    split; [reflexivity |].
    assert (Hlen : pred (length (pre ++ [route])) = length pre).
    { rewrite length_app. simpl. lia. }
    assert (Hnum : Z.of_nat (length pre) + 1 = Z.of_nat (length (pre ++ [route]))).
    { rewrite length_app. simpl. lia. }
    rewrite Hlen.
    destruct (routeRecords_inv _ _ _ _ Hrec) as (start & vs & -> & Hstart & Hvs).
    exists start, vs. split; [reflexivity |]. split; [exact Hrec |].
    apply imapM_from_lookup in Hvs as [Hvlen Hvs].
    unfold startElementFor in Hstart.
    destruct (dropoffs route) as [|first rest] eqn:Ed.
    + injection Hstart as <-. simpl. rewrite <- Hnum.
      repeat split; try reflexivity; try assumption.
      intros i visit Hi. discriminate Hi.
    + apply bind_Ok_inv in Hstart as (r & Hr & Hstart). injection Hstart as <-.
      simpl. rewrite <- Hnum.
      split; [reflexivity |]. split; [reflexivity |].
      split; [exists r; auto |]. split; [exact Hvlen |].
      intros i visit Hi. destruct (Hvs _ _ Hi) as (rec & Hrec' & Hf).
      apply legacyVisit_fields in Hf as (_ & Hid & Hpos & Hn).
      exists rec. auto.
  - apply last_None in El. subst routes.
    injection Hres as <-. split; reflexivity.
Qed.

Lemma createVisitsAPIResponse_last_route_witness :
  let bookings := [bookingOf "Booking 11" (placeOf 1 2) (placeOf 3 4);
                   bookingOf "Booking 12" (placeOf 7 8) (placeOf 5 6)] in
  let r1 := routeOf [visitOf "Booking 11" true "0" "2";
                     visitOf "Booking 11" false "300" "-2"]
                    [transitionOf "0" "300" 1500] None in
  let r2 := routeOf [visitOf "Booking 12" true "0" "1";
                     visitOf "Booking 12" false "240" "-1"]
                    [transitionOf "0" "240" 900] None in
  exists res records,
    createVisitsAPIResponse bookings [r1; r2] = Ok res /\
    ApiResponse.status res = "Ok" /\
    ApiResponse.responde res = Some records /\
    map Legacy.num_ruta records = [2; 2] /\
    map Legacy.posicion_en_ruta records = [-1; 0] /\
    map Legacy.cod_cliente records = [Num 0; Num 12] /\
    map Legacy.distancia records = [0; 900].
Proof.
  cbv zeta.
  destruct (createVisitsAPIResponse_last_route
              [bookingOf "Booking 11" (placeOf 1 2) (placeOf 3 4);
               bookingOf "Booking 12" (placeOf 7 8) (placeOf 5 6)]
              [routeOf [visitOf "Booking 11" true "0" "2";
                        visitOf "Booking 11" false "300" "-2"]
                       [transitionOf "0" "300" 1500] None;
               routeOf [visitOf "Booking 12" true "0" "1";
                        visitOf "Booking 12" false "240" "-1"]
                       [transitionOf "0" "240" 900] None]) as [_ H].
  eexists _, _. split; [vm_compute; reflexivity |].
  split; [eapply H; vm_compute; reflexivity |].
  split; [reflexivity |]. repeat split; reflexivity.
Defined.

(** C10: with no route, the flat view is the object holding the status
    "Ok" alone: the record list is absent, not empty. In any result of the
    view the record list is absent exactly when there was no route, and it
    is never the empty list. *)
Theorem createVisitsAPIResponse_no_routes (bookings : list Booking.t) :
  createVisitsAPIResponse bookings [] =
  Ok {| ApiResponse.status := "Ok"; ApiResponse.responde := None |}
  /\
  forall routes res,
    createVisitsAPIResponse bookings routes = Ok res ->
    (ApiResponse.responde res = None <-> routes = []) /\
    ApiResponse.responde res <> Some [].
Proof.
  split; [reflexivity |].
  intros routes res Hres.
  destruct (last routes) as [route|] eqn:El.
  - apply last_Some in El as [pre ->].
    apply createVisitsAPIResponse_snoc in Hres as (records & Hrec & ->).
    apply routeRecords_inv in Hrec as (start & vs & -> & _).
    simpl. split; [split |]; try discriminate.
    intros H. destruct pre; discriminate H.
  - apply last_None in El. subst routes. injection Hres as <-.
    simpl. split; [split; reflexivity | discriminate].
Qed.

Lemma createVisitsAPIResponse_no_routes_witness :
  exists res,
    createVisitsAPIResponse
      [bookingOf "Booking 11" (placeOf 1 2) (placeOf 3 4)]
      [routeOf [visitOf "Booking 11" false "300" "-2"] [] None] = Ok res /\
    ApiResponse.responde res <> None /\
    ApiResponse.responde res <> Some [].
Proof.
  destruct (createVisitsAPIResponse_no_routes
              [bookingOf "Booking 11" (placeOf 1 2) (placeOf 3 4)]) as [_ H].
  eexists. split; [vm_compute; reflexivity |].
  match goal with
  | |- ApiResponse.responde ?r <> None /\ _ =>
      destruct (H [routeOf [visitOf "Booking 11" false "300" "-2"] [] None] r)
        as [Hiff Hne]; [vm_compute; reflexivity |]
  end.
  split; [| exact Hne].
  intros Hnone. apply Hiff in Hnone. discriminate Hnone.
Defined.

(** ** The summary view *)

Lemma summaryStep_app (out : list RouteSummary.t) (index : nat) (route : Route.t) :
  summaryStep out index route = out ++ summaryStep [] index route.
Proof. unfold summaryStep. destruct (Route.metrics route); [reflexivity |]. rewrite app_nil_r. reflexivity. Qed.

Lemma summaryStep_length (index : nat) (route : Route.t) :
  length (summaryStep [] index route) = if hasMetrics route then 1%nat else 0%nat.
Proof. unfold summaryStep, hasMetrics. destruct (Route.metrics route); reflexivity. Qed.

Lemma summary_loop_length (routes : list Route.t) :
  forall i out,
    length (forEach_from summaryStep i routes out) =
    (length out + length (List.filter hasMetrics routes))%nat.
Proof.
  induction routes as [|r routes IH]; intros i out; simpl; [lia |].
  rewrite IH, summaryStep_app, length_app, summaryStep_length.
  destruct (hasMetrics r); simpl; lia.
Qed.

Lemma summary_loop_elem (routes : list Route.t) (e : RouteSummary.t) :
  forall i out,
    e ∈ forEach_from summaryStep i routes out <->
    e ∈ out \/
    exists j route, routes !! j = Some route /\ summaryStep [] (i + j) route = [e].
Proof.
  induction routes as [|r routes IH]; intros i out; simpl.
  - split; [auto |]. intros [H | (j & route & Hj & _)]; [exact H | discriminate Hj].
  - rewrite IH, summaryStep_app, elem_of_app. split.
    + intros [[H | H] | (j & route & Hj & He)].
      * auto.
      * right. exists 0%nat, r. rewrite Nat.add_0_r. split; [reflexivity |].
        unfold summaryStep in *. destruct (Route.metrics r); simpl in *.
        -- apply list_elem_of_singleton in H. subst e. reflexivity.
        -- inversion H.
      * right. exists (S j), route. split; [exact Hj |].
        replace (i + S j)%nat with (S i + j)%nat by lia. exact He.
    + intros [H | (j & route & Hj & He)]; [auto |].
      destruct j as [|j]; simpl in Hj.
      * injection Hj as <-. rewrite Nat.add_0_r in He. rewrite He.
        left. right. apply list_elem_of_singleton. reflexivity.
      * right. exists j, route. split; [exact Hj |].
        replace (S i + j)%nat with (i + S j)%nat by lia. exact He.
Qed.

(** C6: [total_routes] is the length of the route array; a route without
    metrics contributes no entry and a route with metrics exactly its own,
    numbered from 1 by array position, so the entries are as many as the
    routes with metrics and may be fewer than [total_routes]; in every
    entry [total_stops] and [total_dropoffs] are both the number of
    non-pickup visits of its route. *)
Theorem buildOptimizationSummary_counts :
  (forall response : Response.t,
      Summary.total_routes (buildOptimizationSummary response)
      = length (Response.routes response) /\
      length (Summary.routes (buildOptimizationSummary response))
      = length (List.filter hasMetrics (Response.routes response)) /\
      (forall i route,
          Response.routes response !! i = Some route ->
          hasMetrics route = false ->
          forall e, e ∈ Summary.routes (buildOptimizationSummary response) ->
                    RouteSummary.route_number e <> Z.of_nat i + 1) /\
      (forall i route,
          Response.routes response !! i = Some route ->
          hasMetrics route = true ->
          exists e, e ∈ Summary.routes (buildOptimizationSummary response) /\
                    RouteSummary.route_number e = Z.of_nat i + 1) /\
      (forall e,
          e ∈ Summary.routes (buildOptimizationSummary response) ->
          exists i route,
            Response.routes response !! i = Some route /\
            hasMetrics route = true /\
            RouteSummary.route_number e = Z.of_nat i + 1 /\
            RouteSummary.total_stops e
            = length (List.filter (fun v => negb (Visit.isPickup v)) (Route.visits route)) /\
            RouteSummary.total_dropoffs e
            = length (List.filter (fun v => negb (Visit.isPickup v)) (Route.visits route))))
  /\
  (exists response : Response.t,
      length (Summary.routes (buildOptimizationSummary response))
      <> Summary.total_routes (buildOptimizationSummary response)).
Proof.
  split.
  - intros response.
    assert (Helem : forall e,
               e ∈ Summary.routes (buildOptimizationSummary response) ->
               exists i route m,
                 Response.routes response !! i = Some route /\
                 Route.metrics route = Some m /\
                 summaryStep [] i route = [e]).
    { intros e He. simpl in He. unfold forEach in He.
      apply summary_loop_elem in He as [He | (j & route & Hj & He)]; [inversion He |].
      simpl in He. exists j, route.
      destruct (Route.metrics route) as [m|] eqn:Em.
      - exists m. auto.
      - unfold summaryStep in He. rewrite Em in He. discriminate He. }
    split; [reflexivity |]. split; [| split; [| split]].
    + simpl. unfold forEach. rewrite summary_loop_length. reflexivity.
    + intros i route Hi Hm e He Hnum.
      destruct (Helem e He) as (j & route' & m & Hj & Hm' & Hstep).
      unfold summaryStep in Hstep. rewrite Hm' in Hstep. simpl in Hstep.
      injection Hstep as <-. simpl in Hnum.
      assert (j = i) by lia. subst j. rewrite Hi in Hj. injection Hj as <-.
      unfold hasMetrics in Hm. rewrite Hm' in Hm. discriminate Hm.
    + intros i route Hi Hm. unfold hasMetrics in Hm.
      destruct (Route.metrics route) as [m|] eqn:Em; [| discriminate Hm].
      eexists. split.
      * simpl. unfold forEach. apply summary_loop_elem. right.
        exists i, route. split; [exact Hi |]. simpl.
        unfold summaryStep. rewrite Em. reflexivity.
      * reflexivity.
    + intros e He.
      destruct (Helem e He) as (j & route & m & Hj & Hm & Hstep).
      exists j, route. unfold hasMetrics. rewrite Hm.
      unfold summaryStep in Hstep. rewrite Hm in Hstep. simpl in Hstep.
      injection Hstep as <-. simpl. unfold dropoffs. auto.
  - exists {| Response.routes :=
                [routeOf [visitOf "Booking 1" true "0" "2"; visitOf "Booking 1" false "300" "-2"]
                         [] None] |}.
    simpl. discriminate.
Qed.

Lemma buildOptimizationSummary_counts_witness :
  let response :=
    {| Response.routes :=
         [routeOf [visitOf "Booking 1" true "0" "2"; visitOf "Booking 1" false "300" "-2"]
                  [] None;
          routeOf [visitOf "Booking 2" true "0" "3"; visitOf "Booking 3" true "60" "1";
                   visitOf "Booking 2" false "400" "-3"; visitOf "Booking 3" false "900" "-1"]
                  [] (Some (metricsOf "780" "120" "900" 5400))] |} in
  Summary.total_routes (buildOptimizationSummary response) = 2%nat /\
  length (Summary.routes (buildOptimizationSummary response)) = 1%nat /\
  exists e, e ∈ Summary.routes (buildOptimizationSummary response) /\
            RouteSummary.route_number e = 2.
Proof.
  cbv zeta.
  destruct buildOptimizationSummary_counts as [H _].
  match goal with
  | |- Summary.total_routes (buildOptimizationSummary ?r) = _ /\ _ =>
      destruct (H r) as (Htotal & Hlen & _ & Hsome & _)
  end.
  split; [rewrite Htotal; reflexivity |].
  split; [rewrite Hlen; reflexivity |].
  apply (Hsome 1%nat _ eq_refl). reflexivity.
Defined.

(** ** Passengers along a route *)

(** C8, as stated, fails: a vehicle that carries four passengers, sets
    them down and then carries four more never holds more than four, yet
    the positive amounts sum to eight, above the capacity of seven. *)
Lemma getPassengersAlongRoute_exceeds_capacity :
  let route := routeOf [visitOf "Booking 1" true "0" "4";
                        visitOf "Booking 1" false "600" "-4";
                        visitOf "Booking 2" true "1200" "4";
                        visitOf "Booking 2" false "1800" "-4"] [] None in
  wellFormed Config.VEHICLE_CAPACITY route = true /\
  getPassengersAlongRoute (Some route) = Num 8 /\
  Config.VEHICLE_CAPACITY < 8.
Proof. cbv zeta. split; [reflexivity |]. split; reflexivity. Qed.

Lemma no_positive_filter (ds : list Number) :
  forallb (fun x => negb (gt0 x)) ds = true -> List.filter gt0 ds = [].
Proof.
  induction ds as [|d ds IH]; simpl; [reflexivity |].
  destruct (gt0 d); simpl; [discriminate | exact IH].
Qed.

(** While no drop-off has occurred, the running load is the sum of the
    positive amounts so far; the final sum is therefore a load the route
    attains. *)
Lemma positive_sum_bounded (capacity : Z) (ds : list Number) :
  forall load,
    0 <= load <= capacity ->
    loadWithin capacity load ds = true ->
    pickupsFirst ds = true ->
    exists total,
      fold_left add (List.filter gt0 ds) (Num load) = Num total /\
      load <= total <= capacity.
Proof.
  induction ds as [|d ds IH]; intros load Hload Hwithin Hfirst.
  - exists load. split; [reflexivity | lia].
  - destruct d as [|z]; [discriminate Hwithin |].
    cbn [loadWithin] in Hwithin.
    apply andb_true_iff in Hwithin as [Hrange Hwithin].
    apply andb_true_iff in Hrange as [Hlo Hhi].
    apply Z.leb_le in Hlo, Hhi.
    cbn [pickupsFirst isNegative] in Hfirst.
    change (List.filter gt0 (Num z :: ds))
      with (if 0 <? z then Num z :: List.filter gt0 ds else List.filter gt0 ds).
    destruct (Z.ltb_spec z 0) as [Hneg | Hneg].
    + destruct (Z.ltb_spec 0 z) as [Hpos | Hpos]; [lia |].
      rewrite (no_positive_filter _ Hfirst). exists load. split; [reflexivity | lia].
    + destruct (Z.ltb_spec 0 z) as [Hpos | Hpos].
      * cbn [fold_left add].
        destruct (IH (load + z)) as (total & Ht & Hb); try assumption; [lia |].
        exists total. split; [exact Ht | lia].
      * assert (z = 0) by lia. subst z.
        rewrite Z.add_0_r in Hwithin. apply IH; assumption.
Qed.

(** C8, amended: on a route whose running load stays between 0 and the
    vehicle capacity constant and on which no pickup follows a drop-off,
    the total passengers reported (the sum of the positive amounts) is a
    number between 0 and that capacity. *)
Theorem getPassengersAlongRoute_within_capacity (route : Route.t) :
  wellFormed Config.VEHICLE_CAPACITY route = true ->
  pickupsFirst (deltas route) = true ->
  exists total,
    getPassengersAlongRoute (Some route) = Num total /\
    0 <= total <= Config.VEHICLE_CAPACITY.
Proof.
  intros Hwf Hfirst. unfold getPassengersAlongRoute.
  apply (positive_sum_bounded Config.VEHICLE_CAPACITY (deltas route) 0);
    [unfold Config.VEHICLE_CAPACITY; lia | exact Hwf | exact Hfirst].
Qed.

Lemma getPassengersAlongRoute_within_capacity_witness :
  exists total,
    getPassengersAlongRoute
      (Some (routeOf [visitOf "Booking 1" true "0" "2";
                      visitOf "Booking 2" true "60" "3";
                      visitOf "Booking 1" false "600" "-2";
                      visitOf "Booking 2" false "900" "-3"] [] None)) = Num total /\
    0 <= total <= Config.VEHICLE_CAPACITY.
Proof.
  apply (getPassengersAlongRoute_within_capacity
           (routeOf [visitOf "Booking 1" true "0" "2";
                     visitOf "Booking 2" true "60" "3";
                     visitOf "Booking 1" false "600" "-2";
                     visitOf "Booking 2" false "900" "-3"] [] None));
    reflexivity.
Defined.

(** ** The request guard *)

Import Handler.

(** C7: a request that has a body whose [bookings] property is absent, is
    not an array or is an empty array is answered with status 400 and the
    message "At least one booking is required", and nothing else happens:
    the rest of the handler, where the solver is called, is not run. *)
Theorem optimizeRouteFunction_requires_booking
    (optimizeAndRespond : Value -> list Event) (req : Request) :
  truthy (body req) = true ->
  get (body req) "bookings" = VUndefined \/
  isArray (get (body req) "bookings") = false \/
  get (body req) "bookings" = VArray [] ->
  optimizeRouteFunction optimizeAndRespond req =
  [Log "Received optimization request";
   Send {| statusCode := 400;
           payload := VObject [("error", VString "At least one booking is required")] |}]
  /\ Forall (fun e => isSolverCall e = false) (optimizeRouteFunction optimizeAndRespond req).
Proof.
  intros Hbody Hbookings.
  assert (optimizeRouteFunction optimizeAndRespond req =
          [Log "Received optimization request";
           Send {| statusCode := 400;
                   payload := VObject [("error", VString "At least one booking is required")] |}])
    as ->.
  { unfold optimizeRouteFunction. rewrite Hbody. simpl.
    destruct Hbookings as [-> | [H | ->]]; [reflexivity | | reflexivity].
    rewrite H. simpl. rewrite orb_true_r. reflexivity. }
  split; [reflexivity |]. repeat constructor.
Qed.

Lemma optimizeRouteFunction_requires_booking_witness :
  optimizeRouteFunction (fun model => [SolverCall model])
    {| body := VObject [("bookings", VArray []);
                        ("vehicles", VArray [VObject [("vehicle_number", VString "V001")]])] |}
  = [Log "Received optimization request";
     Send {| statusCode := 400;
             payload := VObject [("error", VString "At least one booking is required")] |}].
Proof.
  apply (optimizeRouteFunction_requires_booking
           (fun model => [SolverCall model])
           {| body := VObject [("bookings", VArray []);
                               ("vehicles", VArray [VObject [("vehicle_number", VString "V001")]])] |}).
  - reflexivity.
  - right. right. reflexivity.
Defined.

(** A request without a body is rejected as well, under its own message. *)
Lemma optimizeRouteFunction_requires_body
    (optimizeAndRespond : Value -> list Event) (req : Request) :
  truthy (body req) = false ->
  optimizeRouteFunction optimizeAndRespond req =
  [Log "Received optimization request"; badRequest "Request body is required"].
Proof. intros H. unfold optimizeRouteFunction. rewrite H. reflexivity. Qed.

(** A request with bookings and vehicles reaches the rest of the handler. *)
Lemma optimizeRouteFunction_proceeds
    (optimizeAndRespond : Value -> list Event) (req : Request) b bs v vs :
  truthy (body req) = true ->
  get (body req) "bookings" = VArray (b :: bs) ->
  get (body req) "vehicles" = VArray (v :: vs) ->
  optimizeRouteFunction optimizeAndRespond req =
  Log "Received optimization request" :: optimizeAndRespond (body req).
Proof.
  intros H Hb Hv. unfold optimizeRouteFunction. rewrite H, Hb, Hv. reflexivity.
Qed.

(** ** Examples *)

Example parseInt_42 : parseInt "42" = Num 42. Proof. reflexivity. Qed.
Example parseInt_neg : parseInt "  -17abc" = Num (-17). Proof. reflexivity. Qed.
Example parseInt_hex : parseInt "0x1F" = Num 31. Proof. reflexivity. Qed.
Example parseInt_hex_empty : parseInt "0x" = NaN. Proof. reflexivity. Qed.
Example parseInt_empty : parseInt "" = NaN. Proof. reflexivity. Qed.
Example parseInt_word : parseInt "abc" = NaN. Proof. reflexivity. Qed.
Example trim_both : trim "  a b  " = "a b". Proof. reflexivity. Qed.
Example replace_first : replace "Booking Booking 4" "Booking" "" = " Booking 4".
Proof. reflexivity. Qed.
Example includes_mid : includes "My Booking 4" "Booking" = true. Proof. reflexivity. Qed.
Example toFixed_ex : div60_toFixed2 (Num 125) = "2.08". Proof. vm_compute. reflexivity. Qed.
Example toFixed_ex2 : div60_toFixed2 (Num 3600) = "60.00". Proof. vm_compute. reflexivity. Qed.
Example round_ex : roundDiv60 (Num 90) = Num 2 /\ roundDiv60 (Num 89) = Num 1.
Proof. split; reflexivity. Qed.

(** The scenario of one booking of two passengers on one vehicle. *)
Example summary_one_route :
  let route := routeOf [visitOf "Booking 1" true "0" "2"; visitOf "Booking 1" false "780" "-2"]
                       [transitionOf "0" "0" 0; transitionOf "0" "780" 5400]
                       (Some (metricsOf "780" "120" "900" 5400)) in
  let summary := buildOptimizationSummary {| Response.routes := [route] |} in
  Summary.total_routes summary = 1%nat /\
  map RouteSummary.total_passengers (Summary.routes summary) = [Num 2] /\
  map RouteSummary.vehicle_capacity (Summary.routes summary) = [7] /\
  map (fun r => Stats.total_travel_time_minutes (RouteSummary.stats r)) (Summary.routes summary)
  = ["13.00"].
Proof. cbv zeta. repeat split; vm_compute; reflexivity. Qed.

(** ** Further properties of lib/aux.js *)

Lemma roundDiv60_bounds (z : Z) :
  60 * ((z + 30) / 60) - 30 <= z < 60 * ((z + 30) / 60) + 30.
Proof.
  pose proof (Z.div_mod (z + 30) 60 ltac:(lia)).
  pose proof (Z.mod_pos_bound (z + 30) 60 ltac:(lia)). lia.
Qed.

(** X1: the travel time of a visit whose start time parses to [z] seconds
    is the whole number of minutes nearest to [z] (a half rounds up), so it
    is within half a minute of it and does not decrease when the start time
    grows; a start time that does not parse gives NaN, not -1. *)
Theorem getVisitTravelTime_nearest_minute (visit : Visit.t) :
  (forall z, parseInt (seconds (Visit.startTime visit)) = Num z ->
     exists m, getVisitTravelTime (Some visit) = Num m /\
               60 * m - 30 <= z < 60 * m + 30) /\
  (forall later z z' m m',
      parseInt (seconds (Visit.startTime visit)) = Num z ->
      parseInt (seconds (Visit.startTime later)) = Num z' ->
      z <= z' ->
      getVisitTravelTime (Some visit) = Num m ->
      getVisitTravelTime (Some later) = Num m' ->
      m <= m') /\
  (parseInt (seconds (Visit.startTime visit)) = NaN ->
   getVisitTravelTime (Some visit) = NaN).
Proof.
  unfold getVisitTravelTime. split; [| split].
  - intros z ->. eexists. split; [reflexivity |]. apply roundDiv60_bounds.
  - intros later z z' m m' -> -> Hle Hm Hm'. simpl in Hm, Hm'.
    injection Hm as <-. injection Hm' as <-.
    apply Z.div_le_mono; lia.
  - intros ->. reflexivity.
Qed.

Lemma getVisitTravelTime_nearest_minute_witness :
  getVisitTravelTime (Some (visitOf "Booking 1" false "90" "-1")) = Num 2 /\
  getVisitTravelTime (Some (visitOf "Booking 1" false "89" "-1")) = Num 1 /\
  getVisitTravelTime (Some (visitOf "Booking 1" false "soon" "-1")) = NaN.
Proof.
  destruct (getVisitTravelTime_nearest_minute (visitOf "Booking 1" false "90" "-1"))
    as (Hnear & _ & _).
  destruct (Hnear 90 eq_refl) as (m & Hm & Hb).
  split; [rewrite Hm; f_equal; lia |].
  split; [reflexivity |].
  apply (getVisitTravelTime_nearest_minute (visitOf "Booking 1" false "soon" "-1")).
  reflexivity.
Defined.

Lemma positiveSum_nonneg (ds : list Number) : 0 <= positiveSum ds.
Proof.
  induction ds as [|[|z] ds IH]; simpl; try lia.
  destruct (Z.ltb_spec 0 z); lia.
Qed.

Lemma fold_positive (ds : list Number) :
  forall a, fold_left add (List.filter gt0 ds) (Num a) = Num (a + positiveSum ds).
Proof.
  induction ds as [|[|z] ds IH]; intros a.
  - simpl. f_equal. lia.
  - simpl. apply IH.
  - change (List.filter gt0 (Num z :: ds))
      with (if 0 <? z then Num z :: List.filter gt0 ds else List.filter gt0 ds).
    change (positiveSum (Num z :: ds))
      with (if 0 <? z then z + positiveSum ds else positiveSum ds).
    destruct (0 <? z).
    + cbn [fold_left add]. rewrite IH. f_equal. lia.
    + apply IH.
Qed.

(** X2: the total passengers of a route is always a number, never NaN and
    never negative, whatever the amounts are: it is the sum of the amounts
    that parse to a positive integer; amounts that do not parse and
    non-positive amounts are ignored; an absent route gives 0. *)
Theorem getPassengersAlongRoute_positive_sum :
  (forall route : Route.t,
      getPassengersAlongRoute (Some route) = Num (positiveSum (deltas route)) /\
      0 <= positiveSum (deltas route)) /\
  getPassengersAlongRoute None = Num 0 /\
  (forall (route : Route.t) (visit : Visit.t),
      gt0 (parseInt (amount (passengers (Visit.loadDemands visit)))) = false ->
      getPassengersAlongRoute
        (Some {| Route.visits := Route.visits route ++ [visit];
                 Route.transitions := Route.transitions route;
                 Route.vehicleLabel := Route.vehicleLabel route;
                 Route.metrics := Route.metrics route;
                 Route.routePolyline := Route.routePolyline route |})
      = getPassengersAlongRoute (Some route)).
Proof.
  assert (H : forall route : Route.t,
             getPassengersAlongRoute (Some route) = Num (positiveSum (deltas route))).
  { intros route. unfold getPassengersAlongRoute. apply (fold_positive (deltas route) 0). }
  split; [| split; [reflexivity |]].
  - intros route. split; [apply H | apply positiveSum_nonneg].
  - intros route visit Hv. rewrite !H. f_equal.
    unfold deltas. simpl. rewrite map_app. simpl.
    generalize (map (fun v => parseInt (amount (passengers (Visit.loadDemands v))))
                    (Route.visits route)) as ds.
    intros ds. induction ds as [|d ds IH]; simpl.
    + destruct (parseInt _) as [|z]; [reflexivity |].
      simpl in Hv. rewrite Hv. reflexivity.
    + rewrite IH. reflexivity.
Qed.

Lemma getPassengersAlongRoute_positive_sum_witness :
  getPassengersAlongRoute
    (Some (routeOf [visitOf "Booking 1" true "0" "2";
                    visitOf "Booking 2" true "60" "many";
                    visitOf "Booking 1" false "600" "-2"] [] None)) = Num 2.
Proof.
  destruct getPassengersAlongRoute_positive_sum as (_ & _ & H).
  apply (H (routeOf [visitOf "Booking 1" true "0" "2";
                     visitOf "Booking 2" true "60" "many"] [] None)
           (visitOf "Booking 1" false "600" "-2")).
  reflexivity.
Defined.

Section DistanceTotals.
Variable transitions : list Transition.t.

Lemma distanceStep_total st index visit :
  fst (distanceStep transitions st index visit) = fst st + legDistance transitions visit.
Proof.
  unfold distanceStep, legDistance.
  destruct (head (List.filter (arrivesAt visit) transitions)); simpl; lia.
Qed.

(** The running total after a stretch of visits is the total before it
    plus the leg distances of the stretch. *)
Lemma distances_loop_total dropoff_visits :
  forall i st,
    fst (forEach_from (distanceStep transitions) i dropoff_visits st)
    = fst st + travelled transitions dropoff_visits.
Proof.
  induction dropoff_visits as [|v vs IH]; intros i st; simpl; [lia |].
  rewrite IH, distanceStep_total. lia.
Qed.

(** The entry under a key is left alone by visits that do not write it. *)
Lemma distances_loop_lookup_keep dropoff_visits (k : Number) :
  forall i st,
    (forall v, v ∈ dropoff_visits -> getBookingIDFromShipment (Some v) = k ->
               List.filter (arrivesAt v) transitions = []) ->
    snd (forEach_from (distanceStep transitions) i dropoff_visits st) !! k = snd st !! k.
Proof.
  induction dropoff_visits as [|v vs IH]; intros i st Hvs; simpl; [reflexivity |].
  rewrite IH.
  - unfold distanceStep.
    destruct (head (List.filter (arrivesAt v) transitions)) as [t|] eqn:E; [| reflexivity].
    simpl. apply lookup_insert_ne.
    intros Hk. rewrite (Hvs v) in E; [discriminate E | | exact Hk].
    apply elem_of_cons. left. reflexivity.
  - intros v' Hin. apply Hvs. apply elem_of_cons. right. exact Hin.
Qed.

End DistanceTotals.

Lemma distanceStep_matched transitions st index visit t :
  head (List.filter (arrivesAt visit) transitions) = Some t ->
  distanceStep transitions st index visit
  = (fst st + Transition.travelDistanceMeters t,
     <[getBookingIDFromShipment (Some visit) :=
         {| DistanceInfo.visitIndex := index;
            DistanceInfo.distanceMeters := fst st + Transition.travelDistanceMeters t |}]>
       (snd st)).
Proof. unfold distanceStep. intros ->. reflexivity. Qed.

Lemma travelled_snoc transitions visits visit :
  travelled transitions (visits ++ [visit])
  = travelled transitions visits + legDistance transitions visit.
Proof.
  induction visits as [|v vs IH]; simpl; [lia |]. rewrite IH. lia.
Qed.

(** X3: the entry that the reconstructor leaves under a booking id is that
    of the last drop-off visit with this id at which a transition arrives:
    it carries that visit's position and the sum of the leg distances of
    all drop-offs up to and including it (for each, the distance of the
    first transition arriving at it, 0 when there is none). *)
Theorem getCumulativeDistances_last_writer
    (dropoff_visits : list Visit.t) (transitions : list Transition.t)
    (i : nat) (visit : Visit.t) :
  dropoff_visits !! i = Some visit ->
  List.filter (arrivesAt visit) transitions <> [] ->
  (forall j later,
      dropoff_visits !! j = Some later -> (i < j)%nat ->
      getBookingIDFromShipment (Some later) = getBookingIDFromShipment (Some visit) ->
      List.filter (arrivesAt later) transitions = []) ->
  getCumulativeDistances dropoff_visits transitions
    !! getBookingIDFromShipment (Some visit)
  = Some {| DistanceInfo.visitIndex := i;
            DistanceInfo.distanceMeters :=
              travelled transitions (take (S i) dropoff_visits) |}.
Proof.
  intros Hi Hmatch Hlater.
  pose proof (take_drop_middle _ _ _ Hi) as Hsplit.
  assert (Hlen : length (take i dropoff_visits) = i).
  { apply length_take_le. apply lookup_lt_Some in Hi. lia. }
  assert (Htake : take (S i) dropoff_visits = take i dropoff_visits ++ [visit]).
  { erewrite take_S_r; [reflexivity | exact Hi]. }
  rewrite Htake, travelled_snoc.
  unfold getCumulativeDistances, forEach.
  rewrite <- Hsplit at 1.
  rewrite forEach_from_app. simpl. rewrite Hlen.
  rewrite distances_loop_lookup_keep.
  - destruct (head (List.filter (arrivesAt visit) transitions)) as [t|] eqn:E.
    + rewrite (distanceStep_matched _ _ _ _ _ E). simpl.
      rewrite lookup_insert_eq. f_equal. f_equal.
      rewrite distances_loop_total. simpl.
      unfold legDistance. rewrite E. lia.
    + exfalso. apply Hmatch.
      destruct (List.filter (arrivesAt visit) transitions); [reflexivity | discriminate E].
  - intros later Hin Hk.
    apply list_elem_of_lookup in Hin as [j Hj].
    apply (Hlater (S i + j)%nat later); [| lia | exact Hk].
    rewrite <- Hsplit.
    rewrite lookup_app_r by (rewrite Hlen; lia).
    rewrite Hlen. replace (S i + j - i)%nat with (S j) by lia. exact Hj.
Qed.

Lemma getCumulativeDistances_last_writer_witness :
  getCumulativeDistances
    [visitOf "Booking 1" false "100" "-2";
     visitOf "Booking 2" false "400" "-1";
     visitOf "Booking 3" false "900" "-3"]
    [transitionOf "0" "100" 700; transitionOf "150" "250" 1200; transitionOf "450" "450" 800]
    !! Num 2
  = Some {| DistanceInfo.visitIndex := 1; DistanceInfo.distanceMeters := 1900 |}.
Proof.
  apply (getCumulativeDistances_last_writer
           [visitOf "Booking 1" false "100" "-2";
            visitOf "Booking 2" false "400" "-1";
            visitOf "Booking 3" false "900" "-3"]
           [transitionOf "0" "100" 700; transitionOf "150" "250" 1200;
            transitionOf "450" "450" 800]
           1%nat (visitOf "Booking 2" false "400" "-1")).
  - reflexivity.
  - vm_compute. discriminate.
  - intros [|[|[|j]]] later Hj Hlt Hk; try lia.
    + simpl in Hj. injection Hj as <-. vm_compute in Hk. discriminate Hk.
    + simpl in Hj. discriminate Hj.
Defined.

Lemma filter_filter_implied {A : Type} (p q : A -> bool) (l : list A) :
  (forall x, p x = true -> q x = true) ->
  List.filter p (List.filter q l) = List.filter p l.
Proof.
  intros H. induction l as [|x l IH]; simpl; [reflexivity |].
  destruct (q x) eqn:Eq; simpl.
  - rewrite IH. reflexivity.
  - destruct (p x) eqn:Ep; [| exact IH].
    rewrite (H x Ep) in Eq. discriminate Eq.
Qed.

Lemma distances_loop_ext (ts ts' : list Transition.t) (dropoff_visits : list Visit.t) :
  (forall v, v ∈ dropoff_visits ->
             List.filter (arrivesAt v) ts' = List.filter (arrivesAt v) ts) ->
  forall i st,
    forEach_from (distanceStep ts') i dropoff_visits st
    = forEach_from (distanceStep ts) i dropoff_visits st.
Proof.
  induction dropoff_visits as [|v vs IH]; intros H i st; simpl; [reflexivity |].
  rewrite IH by (intros v' Hin; apply H; apply elem_of_cons; right; exact Hin).
  f_equal. unfold distanceStep. rewrite H; [reflexivity |].
  apply elem_of_cons. left. reflexivity.
Qed.

(** X4: only the transitions that arrive at a drop-off visit count: leaving
    out every transition that arrives at none of the drop-off visits (the
    legs that end at a pickup, for instance) does not change the result. *)
Theorem getCumulativeDistances_relevant_transitions
    (dropoff_visits : list Visit.t) (transitions : list Transition.t) :
  getCumulativeDistances dropoff_visits
    (List.filter (fun t => existsb (fun v => arrivesAt v t) dropoff_visits) transitions)
  = getCumulativeDistances dropoff_visits transitions.
Proof.
  unfold getCumulativeDistances, forEach. f_equal.
  apply distances_loop_ext. intros v Hin.
  apply filter_filter_implied. intros t Ht.
  apply existsb_exists. exists v. split; [| exact Ht].
  apply list_elem_of_In. exact Hin.
Qed.

(** X5: the matcher raises a TypeError exactly when the first booking of
    the visit's label has no pickup or no delivery, even if a later booking
    of the same label has both; so on bookings that all have a pickup and a
    delivery it either returns or raises the "No booking found" error. *)
Theorem getReferenceBooking_type_error (bookings : list Booking.t) (visit : Visit.t) :
  (getReferenceBooking bookings visit = Throw TypeError <->
   exists pre b post,
     bookings = pre ++ b :: post /\
     Forall (fun b' => ~ matches visit b') pre /\
     matches visit b /\
     (Booking.pickups b = [] \/ Booking.deliveries b = [])) /\
  (Forall (fun b => Booking.pickups b <> [] /\ Booking.deliveries b <> []) bookings ->
   is_Ok (getReferenceBooking bookings visit) \/
   getReferenceBooking bookings visit =
   Throw (Error ("No booking found with label: " +:+ Visit.shipmentLabel visit))).
Proof.
  assert (Hiff : getReferenceBooking bookings visit = Throw TypeError <->
                 exists pre b post,
                   bookings = pre ++ b :: post /\
                   Forall (fun b' => ~ matches visit b') pre /\
                   matches visit b /\
                   (Booking.pickups b = [] \/ Booking.deliveries b = [])).
  { unfold getReferenceBooking. split.
    - destruct (head (List.filter _ bookings)) as [b|] eqn:E; [| discriminate].
      apply head_filter_Some in E as (pre & post & Hl & Hpre & Hb).
      intros H. exists pre, b, post. split; [exact Hl |].
      split; [apply not_matches_eqb; exact Hpre |].
      split; [apply matches_eqb; exact Hb |].
      destruct (Booking.pickups b); [left; reflexivity |].
      destruct (Booking.deliveries b); [right; reflexivity | discriminate H].
    - intros (pre & b & post & -> & Hpre & Hb & Hempty).
      rewrite (head_filter_first _ pre post b);
        [| apply not_matches_eqb; exact Hpre | apply matches_eqb; exact Hb].
      destruct Hempty as [-> | ->]; [reflexivity |].
      destruct (Booking.pickups b); reflexivity. }
  split; [exact Hiff |].
  intros Hall.
  destruct (getReferenceBooking bookings visit) as [r | [msg |]] eqn:E.
  - left. exact I.
  - right.
    unfold getReferenceBooking in E.
    destruct (head (List.filter _ bookings)) as [b|]; [| symmetry; exact E].
    destruct (Booking.pickups b); [discriminate E |].
    destruct (Booking.deliveries b); discriminate E.
  - exfalso. destruct (proj1 Hiff eq_refl) as (pre & b & post & -> & _ & _ & Hempty).
    rewrite Forall_app, Forall_cons in Hall. destruct Hall as (_ & [Hp Hd] & _).
    destruct Hempty; contradiction.
Qed.

Lemma getReferenceBooking_type_error_witness :
  getReferenceBooking
    [{| Booking.label := "Booking 7"; Booking.pickups := [];
        Booking.deliveries := [placeOf 3 4] |};
     bookingOf "Booking 7" (placeOf 5 6) (placeOf 7 8)]
    (visitOf "Booking 7" false "0" "-1") = Throw TypeError.
Proof.
  apply getReferenceBooking_type_error.
  exists [], {| Booking.label := "Booking 7"; Booking.pickups := [];
                Booking.deliveries := [placeOf 3 4] |},
         [bookingOf "Booking 7" (placeOf 5 6) (placeOf 7 8)].
  split; [reflexivity |]. split; [constructor |]. split; [reflexivity |].
  left. reflexivity.
Defined.

Lemma filter_Permutation_bool {A : Type} (p : A -> bool) (l l' : list A) :
  Permutation l l' -> Permutation (List.filter p l) (List.filter p l').
Proof.
  induction 1 as [| x l l' _ IH | x y l | l l' l'' _ IH1 _ IH2]; simpl.
  - constructor.
  - destruct (p x); [constructor |]; exact IH.
  - destruct (p x), (p y); try reflexivity. constructor.
  - etransitivity; eassumption.
Qed.

Lemma filter_label_at_most_one (bookings : list Booking.t) (name : string) :
  NoDup (map Booking.label bookings) ->
  (length (List.filter (fun b => String.eqb (Booking.label b) name) bookings) <= 1)%nat.
Proof.
  induction bookings as [|b bs IH]; simpl; [lia |].
  intros Hnd. apply NoDup_cons in Hnd as [Hnotin Hnd].
  destruct (String.eqb (Booking.label b) name) eqn:E; [| apply IH; exact Hnd].
  apply String.eqb_eq in E. simpl.
  assert (List.filter (fun b0 => String.eqb (Booking.label b0) name) bs = []) as ->; [| simpl; lia].
  assert (Forall (fun b0 => String.eqb (Booking.label b0) name = false) bs) as H.
  { apply Forall_forall. intros b0 Hin. apply String.eqb_neq. intros Heq.
    apply Hnotin. rewrite E, <- Heq. apply list_elem_of_fmap. exists b0. auto. }
  clear -H. induction H as [|x l Hx _ IH]; simpl; [reflexivity |].
  rewrite Hx. exact IH.
Qed.

(** X6: when no two bookings have the same label, the order of the
    bookings does not matter to the matcher. *)
Theorem getReferenceBooking_order_irrelevant
    (bookings bookings' : list Booking.t) (visit : Visit.t) :
  NoDup (map Booking.label bookings) ->
  Permutation bookings bookings' ->
  getReferenceBooking bookings' visit = getReferenceBooking bookings visit.
Proof.
  intros Hnd Hperm.
  assert (List.filter (fun b => String.eqb (Booking.label b) (Visit.shipmentLabel visit)) bookings'
          = List.filter (fun b => String.eqb (Booking.label b) (Visit.shipmentLabel visit)) bookings)
    as Heq.
  { pose proof (filter_label_at_most_one bookings (Visit.shipmentLabel visit) Hnd) as Hlen.
    pose proof (filter_Permutation_bool
                  (fun b => String.eqb (Booking.label b) (Visit.shipmentLabel visit))
                  _ _ Hperm) as Hp.
    destruct (List.filter _ bookings) as [|b [|b' rest]].
    - apply Permutation_nil in Hp. exact Hp.
    - apply Permutation_length_1_inv in Hp. exact Hp.
    - simpl in Hlen. lia. }
  unfold getReferenceBooking. rewrite Heq. reflexivity.
Qed.

Lemma getReferenceBooking_order_irrelevant_witness :
  getReferenceBooking
    [bookingOf "Booking 8" (placeOf 5 6) (placeOf 7 8);
     bookingOf "Booking 7" (placeOf 1 2) (placeOf 3 4)]
    (visitOf "Booking 8" false "0" "-1")
  = getReferenceBooking
      [bookingOf "Booking 7" (placeOf 1 2) (placeOf 3 4);
       bookingOf "Booking 8" (placeOf 5 6) (placeOf 7 8)]
      (visitOf "Booking 8" false "0" "-1").
Proof.
  apply getReferenceBooking_order_irrelevant.
  - simpl. apply NoDup_cons. split; [| apply NoDup_singleton].
    intros H. apply list_elem_of_singleton in H. discriminate H.
  - apply perm_swap.
Defined.

Lemma bind_Throw_inv {A B : Type} (r : Result A) (k : A -> Result B) (e : Exception) :
  bind r k = Throw e -> r = Throw e \/ exists a, r = Ok a /\ k a = Throw e.
Proof.
  destruct r as [a|e']; simpl; [eauto |].
  intros H. injection H as ->. left. reflexivity.
Qed.

Lemma imapM_from_Throw {A B : Type} (f : nat -> A -> Result B) (l : list A) (e : Exception) :
  forall i : nat,
    imapM_from f i l = Throw e ->
    exists j x, l !! j = Some x /\ f (i + j)%nat x = Throw e.
Proof.
  induction l as [|x0 l IH]; intros i H; simpl in H; [discriminate H |].
  apply bind_Throw_inv in H as [H | (y & _ & H)].
  - exists 0%nat, x0. rewrite Nat.add_0_r. auto.
  - apply bind_Throw_inv in H as [H | (ys & _ & H)]; [| discriminate H].
    destruct (IH _ H) as (j & x & Hj & Hf).
    exists (S j), x. split; [exact Hj |].
    replace (i + S j)%nat with (S i + j)%nat by lia. exact Hf.
Qed.

Lemma forEachM_from_Throw {A St : Type} (f : St -> nat -> A -> Result St) (l : list A)
    (e : Exception) :
  forall (i : nat) (s : St),
    forEachM_from f i l s = Throw e ->
    exists j x s', l !! j = Some x /\ f s' (i + j)%nat x = Throw e.
Proof.
  induction l as [|x0 l IH]; intros i s H; simpl in H; [discriminate H |].
  apply bind_Throw_inv in H as [H | (s1 & _ & H)].
  - exists 0%nat, x0, s. rewrite Nat.add_0_r. auto.
  - destruct (IH _ _ H) as (j & x & s' & Hj & Hf).
    exists (S j), x, s'. split; [exact Hj |].
    replace (i + S j)%nat with (S i + j)%nat by lia. exact Hf.
Qed.

Section DetailFacts.
Variable StringToNumber : string -> Number.
Variable bookings : list Booking.t.

Lemma visitDetail_Throw m index pickup j visit e :
  visitDetail StringToNumber bookings m index pickup j visit = Throw e ->
  getReferenceBooking bookings visit = Throw e.
Proof.
  unfold visitDetail. intros H.
  apply bind_Throw_inv in H as [H | (r & _ & H)]; [exact H | discriminate H].
Qed.

Lemma legacyVisit_Throw m index j visit e :
  legacyVisit bookings m index j visit = Throw e ->
  getReferenceBooking bookings visit = Throw e.
Proof.
  unfold legacyVisit. intros H.
  apply bind_Throw_inv in H as [H | (r & _ & H)]; [exact H | discriminate H].
Qed.

Lemma visitDetail_inv m index pickup j visit d :
  visitDetail StringToNumber bookings m index pickup j visit = Ok d ->
  exists r,
    getReferenceBooking bookings visit = Ok r /\
    lat (VisitDetail.origin d) = latitude (Reference.ref_booking_origin_coordinates r) /\
    lng (VisitDetail.origin d) = longitude (Reference.ref_booking_origin_coordinates r) /\
    lat (VisitDetail.destination d)
    = latitude (Reference.ref_booking_destination_coordinates r) /\
    lng (VisitDetail.destination d)
    = longitude (Reference.ref_booking_destination_coordinates r) /\
    VisitDetail.travel_time d = getVisitTravelTime (Some visit) /\
    VisitDetail.pax_count d = getPassengersVisit StringToNumber visit pickup.
Proof.
  unfold visitDetail. intros H.
  apply bind_Ok_inv in H as (r & Hr & H). injection H as <-.
  exists r. simpl. repeat split; auto.
Qed.

Lemma routeDetail_inv pickup index route rd :
  routeDetail StringToNumber bookings pickup index route = Ok rd ->
  RouteDetail.vehicle rd = Route.vehicleLabel route /\
  RouteDetail.polyline rd = (points <$> Route.routePolyline route) /\
  imapM (visitDetail StringToNumber bookings
           (getCumulativeDistances (dropoffs route) (Route.transitions route))
           index pickup)
        (selectedVisits pickup route) = Ok (RouteDetail.visits rd).
Proof.
  unfold routeDetail. intros H.
  apply bind_Ok_inv in H as (vs & Hvs & H). injection H as <-. simpl.
  split; [reflexivity |]. split; [destruct (Route.routePolyline route); reflexivity |].
  exact Hvs.
Qed.

Lemma routeDetail_Throw pickup index route e :
  routeDetail StringToNumber bookings pickup index route = Throw e ->
  exists visit, visit ∈ selectedVisits pickup route /\
                getReferenceBooking bookings visit = Throw e.
Proof.
  unfold routeDetail. intros H.
  apply bind_Throw_inv in H as [H | (vs & _ & H)]; [| discriminate H].
  apply imapM_from_Throw in H as (j & visit & Hj & Hf).
  exists visit. split; [eapply list_elem_of_lookup_2; exact Hj |].
  eapply visitDetail_Throw. exact Hf.
Qed.

Lemma routeDetail_is_Ok_any pickup index route :
  (forall visit, visit ∈ selectedVisits pickup route ->
                 is_Ok (getReferenceBooking bookings visit)) ->
  is_Ok (routeDetail StringToNumber bookings pickup index route).
Proof.
  intros H. unfold routeDetail. apply is_Ok_bind; [| intros; exact I].
  apply imapM_from_is_Ok. intros j x Hj. apply visitDetail_is_Ok, H.
  eapply list_elem_of_lookup_2. exact Hj.
Qed.

Lemma routeRecords_Throw index route e :
  routeRecords bookings index route = Throw e ->
  exists visit, visit ∈ dropoffs route /\ getReferenceBooking bookings visit = Throw e.
Proof.
  unfold routeRecords. intros H.
  apply bind_Throw_inv in H as [H | (start & _ & H)].
  - unfold startElementFor in H. destruct (dropoffs route) as [|first rest]; [discriminate H |].
    apply bind_Throw_inv in H as [H | (r & _ & H)]; [| discriminate H].
    exists first. split; [apply elem_of_cons; left; reflexivity | exact H].
  - apply bind_Throw_inv in H as [H | (vs & _ & H)]; [| discriminate H].
    apply imapM_from_Throw in H as (j & visit & Hj & Hf).
    exists visit. split; [eapply list_elem_of_lookup_2; exact Hj |].
    eapply legacyVisit_Throw. exact Hf.
Qed.

End DetailFacts.

Lemma getVisitsDetail_inv
    (StringToNumber : string -> Number) (bookings : list Booking.t)
    (routes : list Route.t) (pickup : bool) (details : list RouteDetail.t) :
  getVisitsDetail StringToNumber bookings routes pickup = Ok details ->
  length details = length routes /\
  forall ri route,
    routes !! ri = Some route ->
    exists rd, details !! ri = Some rd /\
               routeDetail StringToNumber bookings pickup ri route = Ok rd.
Proof.
  intros Hd. apply imapM_from_lookup in Hd as [Hlen Hd].
  split; [exact Hlen |]. intros ri route Hr. destruct (Hd _ _ Hr) as (rd & Hrd & Hroute).
  exists rd. auto.
Qed.

Lemma getVisitsDetail_resolves
    (StringToNumber : string -> Number) (bookings : list Booking.t)
    (routes : list Route.t) (pickup : bool) :
  is_Ok (getVisitsDetail StringToNumber bookings routes pickup) ->
  forall route visit,
    route ∈ routes -> visit ∈ selectedVisits pickup route ->
    is_Ok (getReferenceBooking bookings visit).
Proof.
  intros Hok route visit Hr Hv.
  apply is_Ok_exists in Hok as [details Hd].
  apply list_elem_of_lookup in Hr as [ri Hri].
  apply list_elem_of_lookup in Hv as [i Hi].
  destruct (getVisitsDetail_inv _ _ _ _ _ Hd) as [_ Hroutes].
  destruct (Hroutes _ _ Hri) as (rd & _ & Hroute).
  apply routeDetail_inv in Hroute as (_ & _ & Hvs).
  apply imapM_from_lookup in Hvs as [_ Hvs].
  destruct (Hvs _ _ Hi) as (d & _ & Hf).
  apply visitDetail_inv in Hf as (r & Hr & _). rewrite Hr. exact I.
Qed.

Lemma getVisitsDetail_Throw
    (StringToNumber : string -> Number) (bookings : list Booking.t)
    (routes : list Route.t) (pickup : bool) (e : Exception) :
  getVisitsDetail StringToNumber bookings routes pickup = Throw e ->
  exists route visit,
    route ∈ routes /\ visit ∈ selectedVisits pickup route /\
    getReferenceBooking bookings visit = Throw e.
Proof.
  intros H. apply imapM_from_Throw in H as (j & route & Hj & Hf).
  apply routeDetail_Throw in Hf as (visit & Hin & Hv).
  exists route, visit. split; [eapply list_elem_of_lookup_2; exact Hj | auto].
Qed.

Lemma createVisitsAPIResponse_Throw (bookings : list Booking.t) (routes : list Route.t)
    (e : Exception) :
  createVisitsAPIResponse bookings routes = Throw e ->
  exists route visit,
    route ∈ routes /\ visit ∈ dropoffs route /\
    getReferenceBooking bookings visit = Throw e.
Proof.
  intros H. apply forEachM_from_Throw in H as (j & route & s' & Hj & Hf).
  unfold responseStep in Hf.
  apply bind_Throw_inv in Hf as [Hf | (recs & _ & Hf)]; [| discriminate Hf].
  apply routeRecords_Throw in Hf as (visit & Hin & Hv).
  exists route, visit. split; [eapply list_elem_of_lookup_2; exact Hj | auto].
Qed.

Lemma createVisitsAPIResponse_resolves (bookings : list Booking.t) (routes : list Route.t) :
  is_Ok (createVisitsAPIResponse bookings routes) -> allResolve bookings routes.
Proof.
  intros Hok route visit Hr Hv.
  destruct (getReferenceBooking bookings visit) as [r|e] eqn:E; [exact I |].
  exfalso.
  apply list_elem_of_lookup in Hr as [ri Hri].
  pose proof (take_drop_middle _ _ _ Hri) as Hsplit.
  unfold createVisitsAPIResponse, forEachM in Hok.
  rewrite <- Hsplit, forEachM_from_app in Hok.
  destruct (forEachM_from (responseStep bookings) 0 (take ri routes) _) as [s1|e1];
    [| exact Hok].
  simpl in Hok. unfold responseStep at 1 in Hok.
  destruct (routeRecords bookings _ route) as [recs|e2] eqn:Erec; [| exact Hok].
  apply routeRecords_inv in Erec as (start & vs & _ & Hstart & Hvs).
  apply imapM_from_lookup in Hvs as [_ Hvs].
  apply list_elem_of_lookup in Hv as [i Hi].
  destruct (Hvs _ _ Hi) as (rec & _ & Hf).
  unfold legacyVisit in Hf. rewrite E in Hf. discriminate Hf.
Qed.


(** X7: when the detailed view returns, it has one entry per route, in
    route order, with the route's vehicle label and polyline (absent when
    the route has none); the entry lists the selected visits (pickups or
    drop-offs) in order, each with the 1-based route number, its position
    among the selected visits, the derived booking id, the coordinates of
    the matched booking and the rounded travel time; the distance of a
    visit, pickup or drop-off, is read from the drop-off distances of the
    route under the visit's booking id, 0 when there is none. *)
Theorem getVisitsDetail_shape
    (StringToNumber : string -> Number) (bookings : list Booking.t)
    (routes : list Route.t) (pickup : bool) (details : list RouteDetail.t) :
  getVisitsDetail StringToNumber bookings routes pickup = Ok details ->
  length details = length routes /\
  forall ri route,
    routes !! ri = Some route ->
    exists rd,
      details !! ri = Some rd /\
      RouteDetail.vehicle rd = Route.vehicleLabel route /\
      RouteDetail.polyline rd = (points <$> Route.routePolyline route) /\
      length (RouteDetail.visits rd) = length (selectedVisits pickup route) /\
      forall i visit,
        selectedVisits pickup route !! i = Some visit ->
        exists d r,
          RouteDetail.visits rd !! i = Some d /\
          getReferenceBooking bookings visit = Ok r /\
          VisitDetail.route_number d = Z.of_nat ri + 1 /\
          VisitDetail.visit_index d = Z.of_nat i /\
          VisitDetail.booking_id d = getBookingIDFromShipment (Some visit) /\
          lat (VisitDetail.origin d)
          = latitude (Reference.ref_booking_origin_coordinates r) /\
          lng (VisitDetail.origin d)
          = longitude (Reference.ref_booking_origin_coordinates r) /\
          lat (VisitDetail.destination d)
          = latitude (Reference.ref_booking_destination_coordinates r) /\
          lng (VisitDetail.destination d)
          = longitude (Reference.ref_booking_destination_coordinates r) /\
          VisitDetail.travel_time d = getVisitTravelTime (Some visit) /\
          VisitDetail.distance d
          = distanceOrZero
              (getCumulativeDistances (dropoffs route) (Route.transitions route)
                 !! getBookingIDFromShipment (Some visit)).
Proof.
  intros Hd. apply imapM_from_lookup in Hd as [Hlen Hd].
  split; [exact Hlen |].
  intros ri route Hr. destruct (Hd _ _ Hr) as (rd & Hrd & Hroute). simpl in Hroute.
  apply routeDetail_inv in Hroute as (Hveh & Hpoly & Hvs).
  apply imapM_from_lookup in Hvs as [Hvlen Hvs].
  exists rd. repeat (split; [assumption |]).
  intros i visit Hi. destruct (Hvs _ _ Hi) as (d & Hdv & Hf). simpl in Hf.
  destruct (visitDetail_inv _ _ _ _ _ _ _ _ Hf) as (r & Hr' & Ho1 & Ho2 & Hd1 & Hd2 & Ht & _).
  apply visitDetail_fields in Hf as (Hdist & Hid & Hidx & Hnum).
  exists d, r. repeat (split; [assumption |]). exact Hdist.
Qed.

Lemma getVisitsDetail_shape_witness :
  exists details,
    getVisitsDetail parseInt
      [bookingOf "Booking 11" (placeOf 1 2) (placeOf 3 4)]
      [routeOf [visitOf "Booking 11" true "0" "2"; visitOf "Booking 11" false "300" "-2"]
               [transitionOf "0" "0" 0; transitionOf "0" "300" 1500] None]
      true = Ok details /\
    length details = 1%nat /\
    map (fun rd => map VisitDetail.distance (RouteDetail.visits rd)) details = [[1500]].
Proof.
  eexists. split; [vm_compute; reflexivity |].
  split; [| reflexivity].
  eapply (getVisitsDetail_shape parseInt
            [bookingOf "Booking 11" (placeOf 1 2) (placeOf 3 4)]
            [routeOf [visitOf "Booking 11" true "0" "2"; visitOf "Booking 11" false "300" "-2"]
                     [transitionOf "0" "0" 0; transitionOf "0" "300" 1500] None]
            true).
  vm_compute. reflexivity.
Defined.

(** X8: the detailed view returns exactly when every selected visit of
    every route resolves to a booking; otherwise it raises, with no partial
    result, the exception that the matcher raises for one of those visits. *)
Theorem getVisitsDetail_all_or_nothing
    (StringToNumber : string -> Number) (bookings : list Booking.t)
    (routes : list Route.t) (pickup : bool) :
  (is_Ok (getVisitsDetail StringToNumber bookings routes pickup) <->
   forall route visit,
     route ∈ routes -> visit ∈ selectedVisits pickup route ->
     is_Ok (getReferenceBooking bookings visit)) /\
  (forall e,
      getVisitsDetail StringToNumber bookings routes pickup = Throw e ->
      exists route visit,
        route ∈ routes /\ visit ∈ selectedVisits pickup route /\
        getReferenceBooking bookings visit = Throw e).
Proof.
  split; [| apply getVisitsDetail_Throw]. split.
  - apply getVisitsDetail_resolves.
  - intros Hall. apply imapM_from_is_Ok. intros j route Hj.
    apply routeDetail_is_Ok_any. intros visit. apply Hall.
    eapply list_elem_of_lookup_2. exact Hj.
Qed.

Lemma getVisitsDetail_all_or_nothing_witness :
  getVisitsDetail parseInt
    [bookingOf "Booking 11" (placeOf 1 2) (placeOf 3 4)]
    [routeOf [visitOf "Booking 11" false "300" "-2"] [] None;
     routeOf [visitOf "Booking 12" false "300" "-2"] [] None]
    false = Throw (Error "No booking found with label: Booking 12") /\
  exists route visit,
    visit ∈ selectedVisits false route /\
    getReferenceBooking [bookingOf "Booking 11" (placeOf 1 2) (placeOf 3 4)] visit
    = Throw (Error "No booking found with label: Booking 12").
Proof.
  assert (H : getVisitsDetail parseInt
                [bookingOf "Booking 11" (placeOf 1 2) (placeOf 3 4)]
                [routeOf [visitOf "Booking 11" false "300" "-2"] [] None;
                 routeOf [visitOf "Booking 12" false "300" "-2"] [] None]
                false = Throw (Error "No booking found with label: Booking 12"))
    by (vm_compute; reflexivity).
  split; [exact H |].
  destruct (getVisitsDetail_all_or_nothing parseInt
              [bookingOf "Booking 11" (placeOf 1 2) (placeOf 3 4)]
              [routeOf [visitOf "Booking 11" false "300" "-2"] [] None;
               routeOf [visitOf "Booking 12" false "300" "-2"] [] None]
              false) as [_ Hthrow].
  destruct (Hthrow _ H) as (route & visit & _ & Hv & He).
  exists route, visit. auto.
Defined.

(** X9: the flat view returns exactly when every drop-off visit of every
    route resolves to a booking, the routes whose records it discards
    included; otherwise it raises the exception that the matcher raises for
    one of those visits. *)
Theorem createVisitsAPIResponse_all_or_nothing
    (bookings : list Booking.t) (routes : list Route.t) :
  (is_Ok (createVisitsAPIResponse bookings routes) <-> allResolve bookings routes) /\
  (forall e,
      createVisitsAPIResponse bookings routes = Throw e ->
      exists route visit,
        route ∈ routes /\ visit ∈ dropoffs route /\
        getReferenceBooking bookings visit = Throw e).
Proof.
  split; [| apply createVisitsAPIResponse_Throw].
  split; [apply createVisitsAPIResponse_resolves | apply createVisitsAPIResponse_is_Ok].
Qed.

Lemma createVisitsAPIResponse_all_or_nothing_witness :
  createVisitsAPIResponse
    [bookingOf "Booking 12" (placeOf 1 2) (placeOf 3 4)]
    [routeOf [visitOf "Booking 11" false "300" "-2"] [] None;
     routeOf [visitOf "Booking 12" false "300" "-2"] [] None]
  = Throw (Error "No booking found with label: Booking 11") /\
  ~ allResolve
      [bookingOf "Booking 12" (placeOf 1 2) (placeOf 3 4)]
      [routeOf [visitOf "Booking 11" false "300" "-2"] [] None;
       routeOf [visitOf "Booking 12" false "300" "-2"] [] None].
Proof.
  assert (H : createVisitsAPIResponse
                [bookingOf "Booking 12" (placeOf 1 2) (placeOf 3 4)]
                [routeOf [visitOf "Booking 11" false "300" "-2"] [] None;
                 routeOf [visitOf "Booking 12" false "300" "-2"] [] None]
              = Throw (Error "No booking found with label: Booking 11"))
    by (vm_compute; reflexivity).
  split; [exact H |].
  intros Hall.
  apply (createVisitsAPIResponse_all_or_nothing
           [bookingOf "Booking 12" (placeOf 1 2) (placeOf 3 4)]
           [routeOf [visitOf "Booking 11" false "300" "-2"] [] None;
            routeOf [visitOf "Booking 12" false "300" "-2"] [] None]) in Hall.
  rewrite H in Hall. exact Hall.
Defined.

Lemma filter_partition_length {A : Type} (p : A -> bool) (l : list A) :
  (length (List.filter p l) + length (List.filter (fun x => negb (p x)) l))%nat = length l.
Proof.
  induction l as [|x l IH]; simpl; [reflexivity |].
  destruct (p x); simpl; lia.
Qed.

(** The entries pushed from position [i] on are numbered above [i], in
    increasing order. *)
Lemma summary_loop_sorted (routes : list Route.t) :
  forall i out,
    (forall j e, out !! j = Some e -> RouteSummary.route_number e <= Z.of_nat i) ->
    (forall j1 j2 e1 e2, out !! j1 = Some e1 -> out !! j2 = Some e2 -> (j1 < j2)%nat ->
                         RouteSummary.route_number e1 < RouteSummary.route_number e2) ->
    forall j1 j2 e1 e2,
      forEach_from summaryStep i routes out !! j1 = Some e1 ->
      forEach_from summaryStep i routes out !! j2 = Some e2 ->
      (j1 < j2)%nat ->
      RouteSummary.route_number e1 < RouteSummary.route_number e2.
Proof.
  induction routes as [|r routes IH]; intros i out Hbound Hsorted; simpl; [exact Hsorted |].
  apply IH.
  - intros j e. rewrite summaryStep_app. intros Hj.
    apply lookup_app_Some in Hj as [Hj | [_ Hj]].
    + specialize (Hbound _ _ Hj). lia.
    + unfold summaryStep in Hj. destruct (Route.metrics r); [| discriminate Hj].
      simpl in Hj. apply list_lookup_singleton_Some in Hj as [_ <-]. simpl. lia.
  - intros j1 j2 e1 e2. rewrite summaryStep_app. intros H1 H2 Hlt.
    apply lookup_app_Some in H1 as [H1 | [Hge1 H1]];
      apply lookup_app_Some in H2 as [H2 | [Hge2 H2]].
    + eapply Hsorted; eassumption.
    + specialize (Hbound _ _ H1).
      unfold summaryStep in H2. destruct (Route.metrics r); [| discriminate H2].
      simpl in H2. apply list_lookup_singleton_Some in H2 as [_ <-]. simpl. lia.
    + apply lookup_lt_Some in H2. lia.
    + unfold summaryStep in H1, H2. destruct (Route.metrics r); [| discriminate H1].
      simpl in H1, H2.
      apply list_lookup_singleton_Some in H1 as [Hz1 _].
      apply list_lookup_singleton_Some in H2 as [Hz2 _]. lia.
Qed.

(** X10: every entry of the summary belongs to a route that has metrics and
    carries its 1-based position, its vehicle label, the number of pickup
    visits and of non-pickup visits (which add up to the number of visits),
    the total passengers of the route, the capacity constant 7 whatever the
    vehicle, and the route's distance unchanged; the entries keep the order
    of the routes, so their route numbers increase strictly. *)
Theorem buildOptimizationSummary_entries (response : Response.t) :
  (forall e,
      e ∈ Summary.routes (buildOptimizationSummary response) ->
      exists i route m,
        Response.routes response !! i = Some route /\
        Route.metrics route = Some m /\
        RouteSummary.route_number e = Z.of_nat i + 1 /\
        RouteSummary.vehicle_label e = Route.vehicleLabel route /\
        (RouteSummary.total_pickups e + RouteSummary.total_dropoffs e)%nat
        = length (Route.visits route) /\
        RouteSummary.total_passengers e = Num (positiveSum (deltas route)) /\
        RouteSummary.vehicle_capacity e = 7 /\
        Stats.total_route_distance_mts (RouteSummary.stats e)
        = Metrics.travelDistanceMeters m /\
        Stats.max_route_time_minutes (RouteSummary.stats e) = 90) /\
  (forall j1 j2 e1 e2,
      Summary.routes (buildOptimizationSummary response) !! j1 = Some e1 ->
      Summary.routes (buildOptimizationSummary response) !! j2 = Some e2 ->
      (j1 < j2)%nat ->
      RouteSummary.route_number e1 < RouteSummary.route_number e2).
Proof.
  split.
  - intros e He. simpl in He. unfold forEach in He.
    apply summary_loop_elem in He as [He | (j & route & Hj & He)]; [inversion He |].
    simpl in He. unfold summaryStep in He.
    destruct (Route.metrics route) as [m|] eqn:Em; [| discriminate He].
    simpl in He. injection He as <-.
    exists j, route, m. simpl.
    split; [exact Hj |]. split; [exact Em |]. split; [reflexivity |].
    split; [reflexivity |].
    split; [unfold pickupVisits, dropoffs; apply filter_partition_length |].
    split; [apply (fold_positive (deltas route) 0) |].
    repeat split; reflexivity.
  - simpl. unfold forEach. apply summary_loop_sorted.
    + intros j e Hj. discriminate Hj.
    + intros j1 j2 e1 e2 H1. discriminate H1.
Qed.

Lemma buildOptimizationSummary_entries_witness :
  let response :=
    {| Response.routes :=
         [routeOf [visitOf "Booking 1" true "0" "2"; visitOf "Booking 1" false "300" "-2"]
                  [] None;
          routeOf [visitOf "Booking 2" true "0" "3"; visitOf "Booking 3" true "60" "1";
                   visitOf "Booking 2" false "400" "-3"; visitOf "Booking 3" false "900" "-1"]
                  [] (Some (metricsOf "780" "120" "900" 5400))] |} in
  exists e,
    Summary.routes (buildOptimizationSummary response) = [e] /\
    RouteSummary.route_number e = 2 /\
    RouteSummary.total_passengers e = Num 4 /\
    (RouteSummary.total_pickups e + RouteSummary.total_dropoffs e)%nat = 4%nat.
Proof.
  cbv zeta. eexists. split; [vm_compute; reflexivity |].
  match goal with
  | |- RouteSummary.route_number ?e = _ /\ _ =>
      destruct (buildOptimizationSummary_entries
                  {| Response.routes :=
                       [routeOf [visitOf "Booking 1" true "0" "2";
                                 visitOf "Booking 1" false "300" "-2"] [] None;
                        routeOf [visitOf "Booking 2" true "0" "3";
                                 visitOf "Booking 3" true "60" "1";
                                 visitOf "Booking 2" false "400" "-3";
                                 visitOf "Booking 3" false "900" "-1"]
                                [] (Some (metricsOf "780" "120" "900" 5400))] |})
        as [Hentries _];
      destruct (Hentries e) as (i & route & m & Hi & _ & Hnum & _ & Hsum & _)
  end.
  - vm_compute. apply elem_of_cons. left. reflexivity.
  - split; [reflexivity |]. split; reflexivity.
Defined.

(** ** Further properties of the request guard *)

(** X11: a request that has a body with at least one booking, whose
    [vehicles] property is absent, is not an array or is an empty array, is
    answered with status 400 and the message "At least one vehicle is
    required", and the rest of the handler, where the solver is called, is
    not run. *)
Theorem optimizeRouteFunction_requires_vehicle
    (optimizeAndRespond : Value -> list Event) (req : Request) b bs :
  truthy (body req) = true ->
  get (body req) "bookings" = VArray (b :: bs) ->
  get (body req) "vehicles" = VUndefined \/
  isArray (get (body req) "vehicles") = false \/
  get (body req) "vehicles" = VArray [] ->
  optimizeRouteFunction optimizeAndRespond req =
  [Log "Received optimization request";
   Send {| statusCode := 400;
           payload := VObject [("error", VString "At least one vehicle is required")] |}]
  /\ Forall (fun e => isSolverCall e = false) (optimizeRouteFunction optimizeAndRespond req).
Proof.
  intros Hbody Hbookings Hvehicles.
  assert (optimizeRouteFunction optimizeAndRespond req =
          [Log "Received optimization request";
           Send {| statusCode := 400;
                   payload := VObject [("error", VString "At least one vehicle is required")] |}])
    as ->.
  { unfold optimizeRouteFunction. rewrite Hbody, Hbookings. simpl.
    destruct Hvehicles as [-> | [H | ->]]; [reflexivity | | reflexivity].
    rewrite H. simpl. rewrite orb_true_r. reflexivity. }
  split; [reflexivity |]. repeat constructor.
Qed.

Lemma optimizeRouteFunction_requires_vehicle_witness :
  optimizeRouteFunction (fun model => [SolverCall model])
    {| body := VObject [("bookings", VArray [VObject [("job_id", VString "12345")]]);
                        ("vehicles", VString "V001")] |}
  = [Log "Received optimization request";
     Send {| statusCode := 400;
             payload := VObject [("error", VString "At least one vehicle is required")] |}].
Proof.
  apply (optimizeRouteFunction_requires_vehicle
           (fun model => [SolverCall model])
           {| body := VObject [("bookings", VArray [VObject [("job_id", VString "12345")]]);
                               ("vehicles", VString "V001")] |}
           (VObject [("job_id", VString "12345")]) []).
  - reflexivity.
  - reflexivity.
  - right. left. reflexivity.
Defined.

Lemma array_guard (v : Value) :
  negb (truthy v) || negb (isArray v) || lengthIsZero v = false ->
  exists x xs, v = VArray (x :: xs).
Proof.
  destruct v as [| | b | n | s | [|x xs] | props]; simpl;
    rewrite ?orb_true_r; try discriminate.
  intros _. eauto.
Qed.

(** X12: whatever the request, the handler either answers with one of the
    three 400 messages and does nothing else, or runs the rest of the
    handler on the body; it does the latter only for a body whose
    [bookings] and [vehicles] are both non-empty arrays. *)
Theorem optimizeRouteFunction_guarded
    (optimizeAndRespond : Value -> list Event) (req : Request) :
  (exists msg,
      optimizeRouteFunction optimizeAndRespond req
      = [Log "Received optimization request"; badRequest msg] /\
      (msg = "Request body is required" \/
       msg = "At least one booking is required" \/
       msg = "At least one vehicle is required"))
  \/
  (optimizeRouteFunction optimizeAndRespond req
   = Log "Received optimization request" :: optimizeAndRespond (body req) /\
   truthy (body req) = true /\
   (exists b bs, get (body req) "bookings" = VArray (b :: bs)) /\
   (exists v vs, get (body req) "vehicles" = VArray (v :: vs))).
Proof.
  unfold optimizeRouteFunction.
  destruct (truthy (body req)) eqn:Hbody; cbn [negb]; [| left; eauto].
  destruct (negb (truthy (get (body req) "bookings"))
            || negb (isArray (get (body req) "bookings"))
            || lengthIsZero (get (body req) "bookings")) eqn:Hb; [left; eauto |].
  destruct (negb (truthy (get (body req) "vehicles"))
            || negb (isArray (get (body req) "vehicles"))
            || lengthIsZero (get (body req) "vehicles")) eqn:Hv; [left; eauto 6 |].
  right. split; [reflexivity |]. split; [reflexivity |].
  split; apply array_guard; assumption.
Qed.

(** ** Decimal round trip of booking ids *)

Lemma allChars_impl (p q : ascii -> bool) (s : string) :
  (forall c, p c = true -> q c = true) -> allChars p s = true -> allChars q s = true.
Proof.
  intros H. induction s as [|c r IH]; simpl; [reflexivity |].
  intros Hc. apply andb_true_iff in Hc as [Hp Hr].
  rewrite (H c Hp), (IH Hr). reflexivity.
Qed.

Lemma minusOrDigit_not_space (c : ascii) :
  isMinusOrDigit c = true -> isWhiteSpace c = false.
Proof. destruct c as [[] [] [] [] [] [] [] []]; try reflexivity; discriminate. Qed.


Lemma digit_minusOrDigit (c : ascii) :
  isDecimalDigit c = true -> isMinusOrDigit c = true.
Proof. unfold isMinusOrDigit. intros ->. reflexivity. Qed.

Lemma trimStart_no_space (s : string) :
  allChars (fun c => negb (isWhiteSpace c)) s = true -> trimStart s = s.
Proof.
  destruct s as [|c r]; simpl; [reflexivity |].
  intros H. apply andb_true_iff in H as [Hc _].
  destruct (isWhiteSpace c); [discriminate Hc | reflexivity].
Qed.

Lemma trimEnd_no_space (s : string) :
  allChars (fun c => negb (isWhiteSpace c)) s = true -> trimEnd s = s.
Proof.
  induction s as [|c r IH]; simpl; [reflexivity |].
  intros H. apply andb_true_iff in H as [Hc Hr].
  rewrite (IH Hr). destruct r; [| reflexivity].
  destruct (isWhiteSpace c); [discriminate Hc | reflexivity].
Qed.

Lemma trim_no_space (s : string) :
  allChars (fun c => negb (isWhiteSpace c)) s = true -> trim s = s.
Proof.
  intros H. unfold trim. rewrite (trimStart_no_space _ H). apply trimEnd_no_space, H.
Qed.


Lemma stripSign_digit (c : ascii) (r : string) :
  isDecimalDigit c = true -> stripSign (String c r) = (1, String c r).
Proof. destruct c as [[] [] [] [] [] [] [] []]; try reflexivity; discriminate. Qed.

Lemma stripHexPrefix_digits (s : string) :
  allChars isDecimalDigit s = true -> stripHexPrefix s = (10, s).
Proof.
  destruct s as [|c [|x r]]; try reflexivity.
  - intros _. destruct c as [[] [] [] [] [] [] [] []]; reflexivity.
  - simpl. intros H. apply andb_true_iff in H as [_ H].
    apply andb_true_iff in H as [Hx _].
    destruct (Ascii.eqb c "0") eqn:E.
    + apply Ascii.eqb_eq in E. subst c.
      destruct x as [[] [] [] [] [] [] [] []]; try reflexivity; discriminate Hx.
    + destruct c as [[] [] [] [] [] [] [] []]; try reflexivity; discriminate E.
Qed.

Lemma pretty_N_char_digit (d : N) : isDecimalDigit (pretty_N_char d) = true.
Proof. unfold pretty_N_char. repeat case_match; reflexivity. Qed.

Lemma radixDigit_pretty_N_char (d : N) :
  (d < 10)%N -> radixDigit 10 (pretty_N_char d) = Some (Z.of_N d).
Proof.
  intros H.
  assert (d = 0 \/ d = 1 \/ d = 2 \/ d = 3 \/ d = 4 \/ d = 5 \/ d = 6 \/ d = 7 \/ d = 8
          \/ d = 9)%N as Hd by lia.
  repeat (destruct Hd as [-> | Hd]; [reflexivity |]). subst d. reflexivity.
Qed.

Lemma pretty_N_go_digits (x : N) :
  forall s, allChars isDecimalDigit s = true ->
            allChars isDecimalDigit (pretty_N_go x s) = true.
Proof.
  induction (N.lt_wf_0 x) as [x _ IH]. intros s Hs.
  destruct (N.eq_dec x 0%N) as [-> | Hx]; [exact Hs |].
  rewrite pretty_N_go_step by lia.
  apply IH; [apply N.div_lt; lia |].
  simpl. rewrite pretty_N_char_digit, Hs. reflexivity.
Qed.

Lemma pretty_N_go_nonempty (x : N) :
  forall s, s <> EmptyString -> pretty_N_go x s <> EmptyString.
Proof.
  induction (N.lt_wf_0 x) as [x _ IH]. intros s Hs.
  destruct (N.eq_dec x 0%N) as [-> | Hx]; [exact Hs |].
  rewrite pretty_N_go_step by lia.
  apply IH; [apply N.div_lt; lia | discriminate].
Qed.

(** Reading the digits that [pretty_N_go] writes appends them to the value
    read before. *)
Lemma digits_pretty_N_go (x : N) :
  (0 < x)%N ->
  exists k, 0 <= k /\
    forall s acc,
      digits 10 (pretty_N_go x s) acc
      = digits 10 s (Some (default 0 acc * 10 ^ k + Z.of_N x)).
Proof.
  induction (N.lt_wf_0 x) as [x _ IH]. intros Hx.
  pose proof (N.mod_lt x 10 ltac:(lia)) as Hmod.
  pose proof (N.div_mod x 10 ltac:(lia)) as Hdiv.
  destruct (N.eq_dec (x `div` 10)%N 0%N) as [Hq | Hq].
  - exists 1. split; [lia |]. intros s acc.
    rewrite pretty_N_go_step by lia. rewrite Hq. rewrite pretty_N_go_0.
    simpl. rewrite (radixDigit_pretty_N_char _ Hmod). f_equal. f_equal. lia.
  - destruct (IH (x `div` 10)%N) as (k & Hk & Hread); [apply N.div_lt; lia | lia |].
    exists (k + 1). split; [lia |]. intros s acc.
    rewrite pretty_N_go_step by lia. rewrite Hread.
    simpl. rewrite (radixDigit_pretty_N_char _ Hmod). f_equal. f_equal.
    rewrite Z.pow_add_r by lia. simpl default. lia.
Qed.

Lemma parseInt_digit_string (s : string) :
  allChars isDecimalDigit s = true ->
  parseInt s = match digits 10 s None with Some m => Num m | None => NaN end.
Proof.
  intros H. unfold parseInt.
  rewrite trimStart_no_space.
  - destruct s as [|c r].
    + reflexivity.
    + pose proof H as H'. simpl in H'. apply andb_true_iff in H' as [Hc _].
      rewrite (stripSign_digit _ _ Hc), (stripHexPrefix_digits _ H).
      destruct (digits 10 (String c r) None) as [m|]; [| reflexivity].
      f_equal. lia.
  - eapply allChars_impl; [| exact H].
    intros c Hc. rewrite (minusOrDigit_not_space c (digit_minusOrDigit c Hc)). reflexivity.
Qed.

Lemma pretty_positive_spec (p : positive) :
  allChars isDecimalDigit (pretty p) = true /\
  pretty p <> EmptyString /\
  digits 10 (pretty p) None = Some (Z.pos p).
Proof.
  unfold pretty, pretty_positive, pretty, pretty_N.
  destruct (decide (N.pos p = 0%N)) as [H | _]; [discriminate H |].
  split; [apply pretty_N_go_digits; reflexivity |].
  split.
  - rewrite pretty_N_go_step by lia. apply pretty_N_go_nonempty. discriminate.
  - destruct (digits_pretty_N_go (N.pos p)) as (k & _ & Hread); [lia |].
    rewrite Hread. simpl. reflexivity.
Qed.

(** The decimal text of an integer: no white space, no letter B, and
    [parseInt] reads the integer back. *)
Lemma pretty_Z_spec (z : Z) :
  allChars isMinusOrDigit (pretty z) = true /\ parseInt (pretty z) = Num z.
Proof.
  destruct z as [|p|p]; unfold pretty, pretty_Z.
  - split; reflexivity.
  - destruct (pretty_positive_spec p) as (Hd & _ & Hread).
    split; [eapply allChars_impl; [apply digit_minusOrDigit | exact Hd] |].
    rewrite (parseInt_digit_string _ Hd). rewrite Hread. reflexivity.
  - destruct (pretty_positive_spec p) as (Hd & Hne & Hread).
    change ("-" +:+ pretty p) with (String "-" (pretty p)).
    split.
    + simpl. eapply allChars_impl; [apply digit_minusOrDigit | exact Hd].
    + unfold parseInt. rewrite trimStart_fixed by reflexivity.
      simpl stripSign. cbv iota beta.
      rewrite (stripHexPrefix_digits _ Hd). rewrite Hread. reflexivity.
Qed.


Lemma token_label_id (z : Z) (visit : Visit.t) :
  Visit.shipmentLabel visit = "Booking " +:+ pretty z ->
  getBookingIDFromShipment (Some visit) = Num z.
Proof.
  destruct (pretty_Z_spec z) as [Hchars Hread].
  unfold getBookingIDFromShipment. intros ->.
  change ("Booking " +:+ pretty z)
    with (String "B" (String "o" (String "o" (String "k" (String "i" (String "n"
           (String "g" (String " " (pretty z))))))))).
  unfold Config.BOOKING_TOKEN.
  change (includes (String "B" (String "o" (String "o" (String "k" (String "i" (String "n"
           (String "g" (String " " (pretty z)))))))))  "Booking") with true.
  cbv iota.
  change (replace (String "B" (String "o" (String "o" (String "k" (String "i" (String "n"
           (String "g" (String " " (pretty z))))))))) "Booking" "")
    with (String " " (pretty z)).
  change (trim (String " " (pretty z))) with (trim (pretty z)).
  rewrite trim_no_space; [exact Hread |].
  eapply allChars_impl; [| exact Hchars].
  intros c Hc. rewrite (minusOrDigit_not_space c Hc). reflexivity.
Qed.



(** ** The request transformation *)

Import Transform.

Lemma transformRequestData_inv (req : RequestData.t) shipments vehicles :
  transformRequestData req = Ok (shipments, vehicles) ->
  exists stop route,
    numberOr (stopParameter req) 2 = Num stop /\ stop <> 0 /\
    numberOr (routeParameter req) 90 = Num route /\ route <> 0 /\
    imapM (transformBooking (Num stop)) (RequestData.bookings req) = Ok shipments /\
    vehicles = imap (transformVehicle (Num route)) (RequestData.vehicles req).
Proof.
  unfold transformRequestData. fold (stopParameter req). fold (routeParameter req).
  intros H. apply bind_Ok_inv in H as (ss & Hss & H). injection H as <- <-.
  assert (Hn : forall x d, d <> 0 -> exists z, numberOr x d = Num z /\ z <> 0).
  { intros [[|z]|] d Hd; simpl; eauto.
    destruct (Z.eqb_spec z 0); eauto. }
  destruct (Hn (stopParameter req) 2) as (stop & Hs & Hs0); [lia |].
  destruct (Hn (routeParameter req) 90) as (route & Hr & Hr0); [lia |].
  exists stop, route. rewrite Hs in Hss. rewrite Hr.
  repeat (split; [assumption || reflexivity |]). reflexivity.
Qed.


Lemma stringOr_cases (x : option string) (d : string) :
  (blank x -> stringOr x d = d) /\
  (forall s, x = Some s -> s <> EmptyString -> stringOr x d = s).
Proof.
  split.
  - intros [-> | ->]; reflexivity.
  - intros s -> Hs. simpl. destruct (String.eqb_spec s ""); [contradiction | reflexivity].
Qed.





Lemma append_token_inj (token a b : string) : token +:+ a = token +:+ b -> a = b.
Proof.
  induction token as [|c t IH]; [intros H; exact H |].
  change (String c t +:+ a) with (String c (t +:+ a)).
  change (String c t +:+ b) with (String c (t +:+ b)).
  intros H. injection H as H. apply IH, H.
Qed.

Lemma transformBooking_label stop i b s :
  transformBooking stop i b = Ok s ->
  Shipment.label s
  = stringOr (BookingIn.job_id b) ("Booking " +:+ pretty (Z.of_nat i + 1)).
Proof.
  unfold transformBooking. destruct (BookingIn.destination b); [| discriminate].
  intros H. injection H as <-. reflexivity.
Qed.

(** X16: a booking that has a non-empty job id is labelled with it; a
    booking without one, at position [i], is labelled "Booking " followed by
    [i + 1], and the booking id derived from a visit with that shipment
    label is [i + 1]. *)
Theorem transformRequestData_labels
    (req : RequestData.t) shipments vehicles (i : nat) (b : BookingIn.t) :
  transformRequestData req = Ok (shipments, vehicles) ->
  RequestData.bookings req !! i = Some b ->
  exists s,
    shipments !! i = Some s /\
    (forall id, BookingIn.job_id b = Some id -> id <> EmptyString ->
                Shipment.label s = id) /\
    (blank (BookingIn.job_id b) ->
     Shipment.label s = "Booking " +:+ pretty (Z.of_nat i + 1) /\
     forall visit,
       Visit.shipmentLabel visit = Shipment.label s ->
       getBookingIDFromShipment (Some visit) = Num (Z.of_nat i + 1)).
Proof.
  intros H Hb.
  apply transformRequestData_inv in H as (stop & route & _ & _ & _ & _ & Hss & _).
  apply imapM_from_lookup in Hss as [_ Hss].
  destruct (Hss _ _ Hb) as (s & Hs & Hf). simpl in Hf.
  apply transformBooking_label in Hf.
  destruct (stringOr_cases (BookingIn.job_id b) ("Booking " +:+ pretty (Z.of_nat i + 1)))
    as [Hblank Hid].
  exists s. split; [exact Hs |]. split.
  - intros id Hjob Hne. rewrite Hf. apply Hid; assumption.
  - intros Hbl. rewrite Hf, (Hblank Hbl). split; [reflexivity |].
    intros visit Hv. apply token_label_id. exact Hv.
Qed.

Lemma transformRequestData_labels_witness :
  exists s,
    Shipment.label s = "Booking 2" /\
    getBookingIDFromShipment (Some (visitOf "Booking 2" false "0" "-1")) = Num 2.
Proof.
  destruct (transformRequestData
              {| RequestData.bookings :=
                   [{| BookingIn.job_id := Some "12345"; BookingIn.pax_count := Num 2;
                       BookingIn.origin := None; BookingIn.origin_coordinates := None;
                       BookingIn.destination := Some {| latitude := 1; longitude := 2 |} |};
                    {| BookingIn.job_id := None; BookingIn.pax_count := Num 1;
                       BookingIn.origin := None; BookingIn.origin_coordinates := None;
                       BookingIn.destination := Some {| latitude := 3; longitude := 4 |} |}];
                 RequestData.vehicles := [];
                 RequestData.parameters := None |}) as [[ss vs]|e] eqn:E;
    [| vm_compute in E; discriminate E].
  destruct (transformRequestData_labels _ ss vs 1%nat
              {| BookingIn.job_id := None; BookingIn.pax_count := Num 1;
                 BookingIn.origin := None; BookingIn.origin_coordinates := None;
                 BookingIn.destination := Some {| latitude := 3; longitude := 4 |} |}
              E eq_refl) as (s & _ & _ & Hdefault).
  destruct (Hdefault (or_introl eq_refl)) as [Hlabel Hid].
  exists s. split; [rewrite Hlabel; vm_compute; reflexivity |].
  apply (Hid (visitOf "Booking 2" false "0" "-1")).
  rewrite Hlabel. vm_compute. reflexivity.
Defined.

(** X17: when no booking of the request has a job id, the labels of the
    shipments are pairwise distinct. *)
Theorem transformRequestData_default_labels_distinct
    (req : RequestData.t) shipments vehicles :
  transformRequestData req = Ok (shipments, vehicles) ->
  Forall (fun b => blank (BookingIn.job_id b)) (RequestData.bookings req) ->
  NoDup (map Shipment.label shipments).
Proof.
  intros H Hall.
  assert (Hlabel : forall i s,
             shipments !! i = Some s ->
             Shipment.label s = "Booking " +:+ pretty (Z.of_nat i + 1)).
  { intros i s Hs.
    apply transformRequestData_inv in H as (stop & route & _ & _ & _ & _ & Hss & _).
    apply imapM_from_lookup in Hss as [Hlen Hss].
    assert (exists b, RequestData.bookings req !! i = Some b) as [b Hb].
    { apply lookup_lt_is_Some. apply lookup_lt_Some in Hs. lia. }
    destruct (Hss _ _ Hb) as (s' & Hs' & Hf).
    rewrite Hs in Hs'. injection Hs' as <-. simpl in Hf.
    rewrite (transformBooking_label _ _ _ _ Hf).
    apply (proj1 (stringOr_cases _ _)). rewrite Forall_forall in Hall. apply Hall.
    eapply list_elem_of_lookup_2. exact Hb. }
  apply NoDup_alt. intros i j x Hi Hj.
  rewrite list_lookup_fmap in Hi, Hj.
  destruct (shipments !! i) as [si|] eqn:Ei; [| discriminate Hi].
  destruct (shipments !! j) as [sj|] eqn:Ej; [| discriminate Hj].
  simpl in Hi, Hj. injection Hi as Hi. injection Hj as Hj.
  rewrite (Hlabel _ _ Ei) in Hi. rewrite (Hlabel _ _ Ej) in Hj.
  rewrite <- Hj in Hi. apply append_token_inj in Hi.
  apply (inj pretty) in Hi. lia.
Qed.

Lemma transformRequestData_default_labels_distinct_witness :
  exists shipments vehicles,
    transformRequestData
      {| RequestData.bookings :=
           [{| BookingIn.job_id := None; BookingIn.pax_count := Num 2;
               BookingIn.origin := None; BookingIn.origin_coordinates := None;
               BookingIn.destination := Some {| latitude := 1; longitude := 2 |} |};
            {| BookingIn.job_id := Some ""; BookingIn.pax_count := Num 1;
               BookingIn.origin := None; BookingIn.origin_coordinates := None;
               BookingIn.destination := Some {| latitude := 3; longitude := 4 |} |}];
         RequestData.vehicles := [];
         RequestData.parameters := None |}
    = Ok (shipments, vehicles) /\
    NoDup (map Shipment.label shipments).
Proof.
  eexists _, _. split; [vm_compute; reflexivity |].
  eapply (transformRequestData_default_labels_distinct
            {| RequestData.bookings :=
                 [{| BookingIn.job_id := None; BookingIn.pax_count := Num 2;
                     BookingIn.origin := None; BookingIn.origin_coordinates := None;
                     BookingIn.destination := Some {| latitude := 1; longitude := 2 |} |};
                  {| BookingIn.job_id := Some ""; BookingIn.pax_count := Num 1;
                     BookingIn.origin := None; BookingIn.origin_coordinates := None;
                     BookingIn.destination := Some {| latitude := 3; longitude := 4 |} |}];
               RequestData.vehicles := [];
               RequestData.parameters := None |}).
  - vm_compute. reflexivity.
  - constructor; [left; reflexivity |]. constructor; [right; reflexivity | constructor].
Defined.

Lemma assoc_known (name : string) (c : LatLng) :
  In (name, c) knownLocations -> assoc name knownLocations = Some c.
Proof.
  intros [H | [H | []]]; injection H as <- <-; reflexivity.
Qed.

Lemma assoc_unknown {A : Type} (name : string) (table : list (string * A)) :
  ~ In name (map fst table) -> assoc name table = None.
Proof.
  induction table as [|[k v] rest IH]; simpl; [reflexivity |].
  intros H. destruct (String.eqb_spec k name) as [-> | _]; [exfalso; auto |].
  apply IH. auto.
Qed.

Lemma existsb_eqb_In (name : string) (names : list string) :
  existsb (String.eqb name) names = true <-> In name names.
Proof.
  rewrite existsb_exists. split.
  - intros (x & Hin & Heq). apply String.eqb_eq in Heq. subst x. exact Hin.
  - intros Hin. exists name. split; [exact Hin | apply String.eqb_refl].
Qed.

(** X18: where a shipment is picked up. An origin that names a terminal of
    the table decides the pickup location, and the booking's own origin
    coordinates are then ignored; an origin that is left out, or that is
    neither in the table nor a property name that every object inherits,
    gives the booking's origin coordinates, or no coordinates when there
    are none; an origin that is such an inherited name ("toString", ...)
    gives no coordinates even when the booking has origin coordinates. *)
Theorem transformRequestData_pickup_location
    (req : RequestData.t) shipments vehicles (i : nat) (b : BookingIn.t) :
  transformRequestData req = Ok (shipments, vehicles) ->
  RequestData.bookings req !! i = Some b ->
  exists s pickup,
    shipments !! i = Some s /\
    Shipment.pickups s = [pickup] /\
    (forall name c,
        BookingIn.origin b = Some name -> In (name, c) knownLocations ->
        Stop.arrivalLocation pickup = located c) /\
    (BookingIn.origin b = None \/
     (exists name, BookingIn.origin b = Some name /\
                   ~ In name (map fst knownLocations) /\ ~ In name inheritedNames) ->
     Stop.arrivalLocation pickup
     = match BookingIn.origin_coordinates b with
       | Some c => located c
       | None => unlocated
       end) /\
    (forall name,
        BookingIn.origin b = Some name ->
        ~ In name (map fst knownLocations) -> In name inheritedNames ->
        Stop.arrivalLocation pickup = unlocated).
Proof.
  intros H Hb.
  apply transformRequestData_inv in H as (stop & route & _ & _ & _ & _ & Hss & _).
  apply imapM_from_lookup in Hss as [_ Hss].
  destruct (Hss _ _ Hb) as (s & Hs & Hf). simpl in Hf.
  unfold transformBooking in Hf.
  destruct (BookingIn.destination b); [| discriminate Hf]. injection Hf as <-.
  eexists _, _. split; [exact Hs |]. split; [reflexivity |]. simpl.
  split; [| split].
  - intros name c -> Hin. unfold resolveLocation.
    rewrite (assoc_known name c Hin). reflexivity.
  - intros [-> | (name & -> & Hk & Hi)]; unfold resolveLocation.
    + destruct (BookingIn.origin_coordinates b); reflexivity.
    + rewrite (assoc_unknown name knownLocations Hk).
      destruct (existsb (String.eqb name) inheritedNames) eqn:E.
      * apply (existsb_eqb_In name inheritedNames) in E. contradiction.
      * destruct (BookingIn.origin_coordinates b); reflexivity.
  - intros name -> Hk Hi. unfold resolveLocation.
    rewrite (assoc_unknown name knownLocations Hk).
    apply (existsb_eqb_In name inheritedNames) in Hi. rewrite Hi. reflexivity.
Qed.

Lemma transformRequestData_pickup_location_witness :
  exists s pickup,
    Shipment.pickups s = [pickup] /\
    Stop.arrivalLocation pickup
    = located {| latitude := (-33.39733755598884)%Q;
                 longitude := (-70.79438713103244)%Q |}.
Proof.
  destruct (transformRequestData
              {| RequestData.bookings :=
                   [{| BookingIn.job_id := Some "12345"; BookingIn.pax_count := Num 2;
                       BookingIn.origin := Some "AMB Terminal 1";
                       BookingIn.origin_coordinates := Some {| latitude := 9; longitude := 9 |};
                       BookingIn.destination := Some {| latitude := 1; longitude := 2 |} |}];
                 RequestData.vehicles := [];
                 RequestData.parameters := None |}) as [[ss vs]|e] eqn:E;
    [| vm_compute in E; discriminate E].
  destruct (transformRequestData_pickup_location _ ss vs 0%nat
              {| BookingIn.job_id := Some "12345"; BookingIn.pax_count := Num 2;
                 BookingIn.origin := Some "AMB Terminal 1";
                 BookingIn.origin_coordinates := Some {| latitude := 9; longitude := 9 |};
                 BookingIn.destination := Some {| latitude := 1; longitude := 2 |} |}
              E eq_refl) as (s & pickup & _ & Hp & Hknown & _).
  exists s, pickup. split; [exact Hp |].
  apply (Hknown "AMB Terminal 1"); [reflexivity | left; reflexivity].
Defined.

(** ** The solver client and the solver call *)

Import Optimization.

Lemma envValue_isSet (env : gmap string string) (name : string) :
  (forall v, envValue env name = Some v <-> env !! name = Some v /\ v <> EmptyString) /\
  (envValue env name = None <-> ~ isSet env name).
Proof.
  unfold envValue, isSet. destruct (env !! name) as [v|].
  - destruct (String.eqb_spec v "") as [-> | Hne].
    + split.
      * intros v'. split; [discriminate |]. intros [H Hv]. injection H as <-. contradiction.
      * split; [| reflexivity]. intros _ (v' & H & Hv). injection H as <-. contradiction.
    + split.
      * intros v'. split.
        -- intros H. injection H as <-. auto.
        -- intros [H _]. exact H.
      * split; [discriminate |]. intros H. exfalso. apply H. eauto.
  - split.
    + intros v. split; [discriminate |]. intros [H _]. discriminate H.
    + split; [| reflexivity]. intros _ (v & H & _). discriminate H.
Qed.

Lemma createOptimizationClient_inv (env : gmap string string) (client : Client) :
  createOptimizationClient env = Ok client ->
  env !! "GOOGLE_PROJECT_ID" = Some (projectId (credentials client)) /\
  env !! "GOOGLE_CLIENT_EMAIL" = Some (client_email (credentials client)) /\
  (exists key, env !! "GOOGLE_PRIVATE_KEY" = Some key /\
               private_key (credentials client) = unescapeNewlines key) /\
  apiEndpoint client = "routeoptimization.googleapis.com".
Proof.
  destruct (envValue_isSet env "GOOGLE_PROJECT_ID") as [Hp1 _].
  destruct (envValue_isSet env "GOOGLE_CLIENT_EMAIL") as [He1 _].
  destruct (envValue_isSet env "GOOGLE_PRIVATE_KEY") as [Hk1 _].
  unfold createOptimizationClient.
  destruct (envValue env "GOOGLE_PROJECT_ID") as [p|]; [| discriminate].
  destruct (envValue env "GOOGLE_CLIENT_EMAIL") as [m|]; [| discriminate].
  destruct (envValue env "GOOGLE_PRIVATE_KEY") as [k|]; [| discriminate].
  intros H. injection H as <-. simpl.
  split; [apply Hp1; reflexivity |]. split; [apply He1; reflexivity |].
  split; [| reflexivity]. exists k. split; [apply Hk1; reflexivity | reflexivity].
Qed.

(** X19: the client is created exactly when the project id, the client
    email and the private key are all set (defined and not empty);
    otherwise the error names the first of them, in this order, that is
    not set. The client carries the project id and the email as they are,
    the private key with its escaped newlines decoded, and the fixed
    endpoint. *)
Theorem createOptimizationClient_checks (env : gmap string string) :
  (is_Ok (createOptimizationClient env) <->
   isSet env "GOOGLE_PROJECT_ID" /\ isSet env "GOOGLE_CLIENT_EMAIL" /\
   isSet env "GOOGLE_PRIVATE_KEY") /\
  (~ isSet env "GOOGLE_PROJECT_ID" ->
   createOptimizationClient env =
   Throw (Error "GOOGLE_PROJECT_ID environment variable is not set. Please set it before running the application.")) /\
  (isSet env "GOOGLE_PROJECT_ID" -> ~ isSet env "GOOGLE_CLIENT_EMAIL" ->
   createOptimizationClient env =
   Throw (Error "GOOGLE_CLIENT_EMAIL environment variable is not set. Please set it before running the application.")) /\
  (isSet env "GOOGLE_PROJECT_ID" -> isSet env "GOOGLE_CLIENT_EMAIL" ->
   ~ isSet env "GOOGLE_PRIVATE_KEY" ->
   createOptimizationClient env =
   Throw (Error "GOOGLE_PRIVATE_KEY environment variable is not set. Please set it before running the application.")) /\
  (forall client,
      createOptimizationClient env = Ok client ->
      env !! "GOOGLE_PROJECT_ID" = Some (projectId (credentials client)) /\
      env !! "GOOGLE_CLIENT_EMAIL" = Some (client_email (credentials client)) /\
      (exists key, env !! "GOOGLE_PRIVATE_KEY" = Some key /\
                   private_key (credentials client) = unescapeNewlines key) /\
      apiEndpoint client = "routeoptimization.googleapis.com").
Proof.
  destruct (envValue_isSet env "GOOGLE_PROJECT_ID") as [Hp1 Hp2].
  destruct (envValue_isSet env "GOOGLE_CLIENT_EMAIL") as [He1 He2].
  destruct (envValue_isSet env "GOOGLE_PRIVATE_KEY") as [Hk1 Hk2].
  unfold createOptimizationClient.
  destruct (envValue env "GOOGLE_PROJECT_ID") as [p|] eqn:Ep.
  2:{ pose proof (proj1 Hp2 eq_refl) as Hn.
      split; [split; [intros [] | intros (H & _); contradiction] |].
      split; [reflexivity |]. split; [intros H; contradiction |].
      split; [intros H; contradiction |]. intros client H. discriminate H. }
  assert (isSet env "GOOGLE_PROJECT_ID") as Hp.
  { exists p. apply Hp1. reflexivity. }
  destruct (envValue env "GOOGLE_CLIENT_EMAIL") as [m|] eqn:Em.
  2:{ pose proof (proj1 He2 eq_refl) as Hn.
      split; [split; [intros [] | intros (_ & H & _); contradiction] |].
      split; [intros H; contradiction |]. split; [reflexivity |].
      split; [intros _ H; contradiction |]. intros client H. discriminate H. }
  assert (isSet env "GOOGLE_CLIENT_EMAIL") as He.
  { exists m. apply He1. reflexivity. }
  destruct (envValue env "GOOGLE_PRIVATE_KEY") as [k|] eqn:Ek.
  2:{ pose proof (proj1 Hk2 eq_refl) as Hn.
      split; [split; [intros [] | intros (_ & _ & H); contradiction] |].
      split; [intros H; contradiction |]. split; [intros _ H; contradiction |].
      split; [reflexivity |]. intros client H. discriminate H. }
  assert (isSet env "GOOGLE_PRIVATE_KEY") as Hk.
  { exists k. apply Hk1. reflexivity. }
  split; [split; [auto | intros _; exact I] |].
  split; [intros H; contradiction |]. split; [intros _ H; contradiction |].
  split; [intros _ _ H; contradiction |].
  intros client H. apply createOptimizationClient_inv.
  unfold createOptimizationClient. rewrite Ep, Em, Ek. exact H.
Qed.

Lemma createOptimizationClient_checks_witness :
  createOptimizationClient
    (<["GOOGLE_PROJECT_ID" := "demo"]> (<["GOOGLE_CLIENT_EMAIL" := ""]> ∅))
  = Throw (Error "GOOGLE_CLIENT_EMAIL environment variable is not set. Please set it before running the application.").
Proof.
  apply createOptimizationClient_checks.
  - exists "demo". split; [reflexivity | discriminate].
  - intros (v & Hv & Hne). vm_compute in Hv. injection Hv as <-. apply Hne. reflexivity.
Defined.

Lemma unescape_escape (rest : string) :
  unescapeNewlines (String "\" (String "n" rest)) = String "010" (unescapeNewlines rest).
Proof. reflexivity. Qed.

Lemma unescape_other (c : ascii) (rest : string) :
  c <> "\"%char ->
  unescapeNewlines (String c rest) = String c (unescapeNewlines rest).
Proof.
  intros H.
  destruct c as [[] [] [] [] [] [] [] []]; try reflexivity. exfalso. apply H. reflexivity.
Qed.

Lemma unescape_backslash (d : ascii) (rest : string) :
  d <> "n"%char ->
  unescapeNewlines (String "\" (String d rest))
  = String "\" (unescapeNewlines (String d rest)).
Proof.
  intros H.
  destruct d as [[] [] [] [] [] [] [] []]; try reflexivity. exfalso. apply H. reflexivity.
Qed.

Lemma includes_escape_cons (c : ascii) (u : string) :
  includes (String c u) "\n" = (Ascii.eqb c "\" && startsWith_n u) || includes u "\n".
Proof.
  change (includes (String c u) "\n")
    with (if (if Ascii.ascii_dec "\" c then String.prefix "n" u else false)
          then true else includes u "\n").
  destruct (Ascii.ascii_dec "\" c) as [<- | Hne].
  - simpl Ascii.eqb. cbv iota. simpl andb.
    destruct u as [|d u']; [reflexivity |].
    change (String.prefix "n" (String d u'))
      with (if Ascii.ascii_dec "n" d then String.prefix "" u' else false).
    simpl startsWith_n.
    destruct (Ascii.ascii_dec "n" d) as [<- | Hd].
    + destruct u'; reflexivity.
    + assert (Ascii.eqb d "n" = false) as ->; [| reflexivity].
      apply Ascii.eqb_neq. congruence.
  - assert (Ascii.eqb c "\" = false) as ->; [| reflexivity].
    apply Ascii.eqb_neq. congruence.
Qed.

Lemma unescape_first (s : string) :
  startsWith_n (unescapeNewlines s) = startsWith_n s.
Proof.
  destruct s as [|c r]; [reflexivity |].
  destruct (Ascii.ascii_dec c "\") as [-> | Hc].
  - destruct r as [|d r']; [reflexivity |].
    destruct (Ascii.ascii_dec d "n") as [-> | Hd]; [reflexivity |].
    rewrite (unescape_backslash _ _ Hd). reflexivity.
  - rewrite (unescape_other _ _ Hc). reflexivity.
Qed.

Lemma unescape_no_escape_bounded (n : nat) :
  forall s, (String.length s <= n)%nat -> includes (unescapeNewlines s) "\n" = false.
Proof.
  induction n as [|n IH]; intros s Hlen.
  - destruct s; [reflexivity | simpl in Hlen; lia].
  - destruct s as [|c r]; [reflexivity |]. simpl in Hlen.
    destruct (Ascii.ascii_dec c "\") as [-> | Hc].
    + destruct r as [|d r']; [reflexivity |]. simpl in Hlen.
      destruct (Ascii.ascii_dec d "n") as [-> | Hd].
      * rewrite unescape_escape, includes_escape_cons.
        rewrite (IH r') by lia. reflexivity.
      * rewrite (unescape_backslash _ _ Hd), includes_escape_cons.
        rewrite unescape_first. simpl startsWith_n.
        assert (Ascii.eqb d "n" = false) as -> by (apply Ascii.eqb_neq; exact Hd).
        rewrite (IH (String d r')) by (simpl; lia). reflexivity.
    + rewrite (unescape_other _ _ Hc), includes_escape_cons.
      assert (Ascii.eqb c "\" = false) as -> by (apply Ascii.eqb_neq; exact Hc).
      rewrite (IH r) by lia. reflexivity.
Qed.

Lemma unescape_fixed_bounded (n : nat) :
  forall s, (String.length s <= n)%nat -> includes s "\n" = false -> unescapeNewlines s = s.
Proof.
  induction n as [|n IH]; intros s Hlen Hs.
  - destruct s; [reflexivity | simpl in Hlen; lia].
  - destruct s as [|c r]; [reflexivity |]. simpl in Hlen.
    rewrite includes_escape_cons in Hs. apply orb_false_iff in Hs as [Hhead Hrest].
    destruct (Ascii.ascii_dec c "\") as [-> | Hc].
    + destruct r as [|d r']; [reflexivity |].
      simpl in Hhead. apply Ascii.eqb_neq in Hhead.
      rewrite (unescape_backslash _ _ Hhead). f_equal. apply IH; [lia | exact Hrest].
    + rewrite (unescape_other _ _ Hc). f_equal. apply IH; [lia | exact Hrest].
Qed.

(** X20: decoding the private key leaves no backslash followed by the
    letter n in it; a key without such a pair is unchanged; and decoding
    twice is decoding once. The private key that the client receives
    therefore has none. *)
Theorem unescapeNewlines_decodes :
  (forall key,
      includes (unescapeNewlines key) "\n" = false /\
      (includes key "\n" = false -> unescapeNewlines key = key) /\
      unescapeNewlines (unescapeNewlines key) = unescapeNewlines key) /\
  (forall env client,
      createOptimizationClient env = Ok client ->
      includes (private_key (credentials client)) "\n" = false).
Proof.
  assert (H1 : forall key, includes (unescapeNewlines key) "\n" = false).
  { intros key. apply (unescape_no_escape_bounded (String.length key)). lia. }
  assert (H2 : forall key, includes key "\n" = false -> unescapeNewlines key = key).
  { intros key. apply (unescape_fixed_bounded (String.length key)). lia. }
  split.
  - intros key. split; [apply H1 |]. split; [apply H2 |]. apply H2, H1.
  - intros env client H.
    destruct (createOptimizationClient_inv env client H) as (_ & _ & (key & _ & ->) & _).
    apply H1.
Qed.

Lemma unescapeNewlines_decodes_witness :
  unescapeNewlines "-----BEGIN KEY-----
MIIB
-----END KEY-----" = "-----BEGIN KEY-----
MIIB
-----END KEY-----" /\
  String.length (unescapeNewlines "BEGIN\nMIIB\\nEND") = 15%nat.
Proof.
  split; [| reflexivity].
  apply unescapeNewlines_decodes. reflexivity.
Defined.

(** X21: the time format keeps the whole seconds of a date and drops the
    rest, rounding down also before the epoch: for a date of [ms]
    milliseconds the seconds [s] satisfy [1000 s <= ms < 1000 s + 1000];
    a later date never gets fewer seconds; an invalid date gives NaN. *)
Theorem dateToGoogleFormat_floor :
  (forall ms, exists s,
      seconds (dateToGoogleFormat (Num ms)) = Num s /\
      1000 * s <= ms < 1000 * s + 1000) /\
  (forall ms ms' s s',
      ms <= ms' ->
      seconds (dateToGoogleFormat (Num ms)) = Num s ->
      seconds (dateToGoogleFormat (Num ms')) = Num s' ->
      s <= s') /\
  seconds (dateToGoogleFormat NaN) = NaN.
Proof.
  split; [| split; [| reflexivity]].
  - intros ms. exists (ms / 1000). split; [reflexivity |].
    pose proof (Z.div_mod ms 1000 ltac:(lia)).
    pose proof (Z.mod_pos_bound ms 1000 ltac:(lia)). lia.
  - intros ms ms' s s' Hle Hs Hs'. simpl in Hs, Hs'.
    injection Hs as <-. injection Hs' as <-. apply Z.div_le_mono; lia.
Qed.

Lemma dateToGoogleFormat_floor_witness :
  seconds (dateToGoogleFormat (Num (-1))) = Num (-1) /\
  seconds (dateToGoogleFormat (Num 1999)) = Num 1.
Proof.
  destruct dateToGoogleFormat_floor as (Hfloor & Hmono & _).
  destruct (Hfloor (-1)) as (s & Hs & Hb).
  split; [rewrite Hs; f_equal; lia |].
  destruct (Hfloor 1999) as (s' & Hs' & Hb').
  rewrite Hs'. f_equal. lia.
Defined.

Section SolverFacts.
Variables Shipment Vehicle : Type.
Variable asBooking : Shipment -> Booking.t.
Variable StringToNumber : string -> Number.
Variable optimizeTours :
  Client -> Request Shipment Vehicle -> CallOptions -> Result Response.t.

Lemma attempt_cases {A : Type} (context : string) (client : Client)
    (request : Request Shipment Vehicle) (views : Response.t -> Result A) :
  (forall a,
      snd (attempt Shipment Vehicle optimizeTours context client request views) = Ok a ->
      fst (attempt Shipment Vehicle optimizeTours context client request views)
      = [OptimizeTours client request callOptions] /\
      exists response,
        optimizeTours client request callOptions = Ok response /\ views response = Ok a) /\
  (forall e,
      snd (attempt Shipment Vehicle optimizeTours context client request views) = Throw e ->
      fst (attempt Shipment Vehicle optimizeTours context client request views)
      = [OptimizeTours client request callOptions; ConsoleError context e] /\
      (optimizeTours client request callOptions = Throw e \/
       exists response,
         optimizeTours client request callOptions = Ok response /\
         views response = Throw e)).
Proof.
  unfold attempt.
  destruct (optimizeTours client request callOptions) as [response|e0] eqn:Es; simpl.
  - destruct (views response) as [a0|e0] eqn:Ev; simpl; split.
    + intros a H. injection H as <-. split; [reflexivity | eauto].
    + intros e H. discriminate H.
    + intros a H. discriminate H.
    + intros e H. injection H as <-. split; [reflexivity | eauto].
  - split.
    + intros a H. discriminate H.
    + intros e H. injection H as <-. split; [reflexivity | auto].
Qed.

(** The request that [optimizeRoute] builds. *)
Lemma optimizeRoute_unfold env now bookings vehicles options client :
  createOptimizationClient env = Ok client ->
  exists request,
    optimizeRoute Shipment Vehicle asBooking StringToNumber optimizeTours
      env now bookings vehicles options
    = attempt Shipment Vehicle optimizeTours "Error in route optimization:" client request
        (fun response =>
           bind (getVisitsDetail StringToNumber (map asBooking bookings)
                   (Response.routes response) (pickupFlag options)) (fun visits_detail =>
           bind (createVisitsAPIResponse (map asBooking bookings)
                   (Response.routes response)) (fun visits_api_response =>
           Ok {| Output.response := response;
                 Output.routes := Response.routes response;
                 Output.visits_detail := visits_detail;
                 Output.visits_api_response := visits_api_response;
                 Output.summary := buildOptimizationSummary response |}))) /\
    parent request = parentOf env /\
    Optimization.shipments (model request) = bookings /\
    Optimization.vehicles (model request) = vehicles /\
    globalStartTime (model request)
    = Some (dateToGoogleFormat (default (Num now) (Options.startDate options))) /\
    globalEndTime (model request)
    = Some (dateToGoogleFormat
              (default (newDate (add (default (Num now) (Options.startDate options))
                                     (Num 86400000)))
                       (Options.endDate options))) /\
    populateTransitionPolylines request = true /\
    populatePolylines request = true /\
    considerRoadTraffic request = default false (Options.considerRoadTraffic options).
Proof.
  intros Hc. unfold optimizeRoute. rewrite Hc.
  eexists. split; [reflexivity |]. simpl. repeat split; reflexivity.
Qed.


End SolverFacts.

Section SolverResults.
Variables Shipment Vehicle : Type.
Variable asBooking : Shipment -> Booking.t.
Variable StringToNumber : string -> Number.
Variable optimizeTours :
  Client -> Request Shipment Vehicle -> CallOptions -> Result Response.t.

Lemma attempt_disciplined {A : Type} (heading : string) (client : Client)
    (request : Request Shipment Vehicle) (views : Response.t -> Result A) :
  disciplined (Ok client) heading
    (attempt Shipment Vehicle optimizeTours heading client request views).
Proof.
  exists request.
  destruct (attempt_cases Shipment Vehicle optimizeTours heading client request views)
    as [Hok Hthrow].
  split.
  - intros H. apply is_Ok_exists in H as [a Ha]. apply (Hok a Ha).
  - intros e He. apply (Hthrow e He).
Qed.

(** X23: each of [optimizeRoute], [optimizeRouteWithModel] and
    [optimizeRoutesAPI] does nothing but raise the credential error when a
    credential is missing, calls the solver exactly once otherwise, and
    after a failure of the solver or of the views logs the exception once
    and raises it again; on success nothing is logged. *)
Theorem solver_call_discipline env now bookings vehicles model options :
  disciplined (createOptimizationClient env) "Error in route optimization:"
    (optimizeRoute Shipment Vehicle asBooking StringToNumber optimizeTours
       env now bookings vehicles options) /\
  disciplined (createOptimizationClient env) "Error in route optimization with model:"
    (optimizeRouteWithModel Shipment Vehicle asBooking StringToNumber optimizeTours
       env model options) /\
  disciplined (createOptimizationClient env) "Error in API route optimization:"
    (optimizeRoutesAPI Shipment Vehicle asBooking StringToNumber optimizeTours
       env now bookings vehicles options).
Proof.
  unfold optimizeRoute, optimizeRouteWithModel, optimizeRoutesAPI.
  destruct (createOptimizationClient env) as [client|e].
  - split; [| split]; apply attempt_disciplined.
  - split; [| split]; reflexivity.
Qed.


End SolverResults.

Lemma solver_call_discipline_witness :
  optimizeRoute Booking.t unit (fun b => b) parseInt
    (fun _ _ _ => Throw (Error "DEADLINE_EXCEEDED"))
    (<["GOOGLE_PROJECT_ID" := "demo"]> ∅) 0 [] [] 
    {| Options.startDate := None; Options.endDate := None;
       Options.considerRoadTraffic := None; Options.includePickups := None |}
  = ([], Throw (Error "GOOGLE_CLIENT_EMAIL environment variable is not set. Please set it before running the application.")).
Proof.
  destruct (solver_call_discipline Booking.t unit (fun b => b) parseInt
              (fun _ _ _ => Throw (Error "DEADLINE_EXCEEDED"))
              (<["GOOGLE_PROJECT_ID" := "demo"]> ∅) 0 [] []
              {| shipments := []; Optimization.vehicles := [];
                 globalStartTime := None; globalEndTime := None |}
              {| Options.startDate := None; Options.endDate := None;
                 Options.considerRoadTraffic := None; Options.includePickups := None |})
    as (H & _ & _).
  exact H.
Defined.





Section SolverReturns.
Variables Shipment Vehicle : Type.
Variable asBooking : Shipment -> Booking.t.
Variable StringToNumber : string -> Number.
Variable optimizeTours :
  Client -> Request Shipment Vehicle -> CallOptions -> Result Response.t.

Lemma getReferenceBooking_labelled (bookings : list Booking.t) (visit : Visit.t) :
  Forall (fun b => Booking.pickups b <> [] /\ Booking.deliveries b <> []) bookings ->
  (exists b, b ∈ bookings /\ Booking.label b = Visit.shipmentLabel visit) ->
  is_Ok (getReferenceBooking bookings visit).
Proof.
  intros Hwf (b & Hb & Hlabel). unfold getReferenceBooking.
  destruct (head (List.filter _ bookings)) as [r|] eqn:Eh.
  - apply head_filter_Some in Eh as (pre & post & -> & _ & _).
    rewrite Forall_forall in Hwf.
    destruct (Hwf r) as [Hp Hd].
    { apply elem_of_app. right. apply elem_of_cons. left. reflexivity. }
    destruct (Booking.pickups r) as [|p ps]; [contradiction |].
    destruct (Booking.deliveries r) as [|d ds]; [contradiction |].
    exact I.
  - apply head_filter_None in Eh. rewrite Forall_forall in Eh.
    specialize (Eh b Hb). simpl in Eh. rewrite Hlabel, String.eqb_refl in Eh.
    discriminate Eh.
Qed.

(** X25: [optimizeRoute] returns, having called the solver once and logged
    nothing, whenever the solver answers, every shipment has a pickup and
    a delivery, and every visit of the answer carries the label of one of
    the shipments; the result holds the solver's answer. *)
Theorem optimizeRoute_returns env now bookings vehicles options client request rest
    response :
  fst (optimizeRoute Shipment Vehicle asBooking StringToNumber optimizeTours
         env now bookings vehicles options)
  = OptimizeTours client request callOptions :: rest ->
  optimizeTours client request callOptions = Ok response ->
  Forall (fun s => Booking.pickups (asBooking s) <> [] /\
                   Booking.deliveries (asBooking s) <> []) bookings ->
  (forall route visit,
      route ∈ Response.routes response -> visit ∈ Route.visits route ->
      exists s, s ∈ bookings /\ Booking.label (asBooking s) = Visit.shipmentLabel visit) ->
  exists out,
    optimizeRoute Shipment Vehicle asBooking StringToNumber optimizeTours
      env now bookings vehicles options
    = ([OptimizeTours client request callOptions], Ok out) /\
    Output.response out = response /\
    Output.routes out = Response.routes response.
Proof.
  intros Hfst Hresp Hwf Hecho.
  destruct (createOptimizationClient env) as [client0|e0] eqn:Ec.
  2:{ unfold optimizeRoute in Hfst. rewrite Ec in Hfst. discriminate Hfst. }
  destruct (optimizeRoute_unfold Shipment Vehicle asBooking StringToNumber optimizeTours
              env now bookings vehicles options client0 Ec) as (request0 & Hrun & _).
  rewrite Hrun in Hfst |- *.
  assert (client0 = client /\ request0 = request) as [-> ->].
  { unfold attempt in Hfst. destruct (bind _ _); simpl in Hfst;
      injection Hfst as <- <-; auto. }
  assert (Hall : forall route visit,
             route ∈ Response.routes response -> visit ∈ Route.visits route ->
             is_Ok (getReferenceBooking (map asBooking bookings) visit)).
  { intros route visit Hr Hv. apply getReferenceBooking_labelled.
    - rewrite Forall_forall. intros b Hb.
      apply list_elem_of_fmap in Hb as (s & -> & Hs).
      rewrite Forall_forall in Hwf. apply (Hwf s Hs).
    - destruct (Hecho route visit Hr Hv) as (s & Hs & Hlabel).
      exists (asBooking s). split; [| exact Hlabel].
      apply list_elem_of_fmap. exists s. auto. }
  assert (Hsel : forall pickup route visit,
             visit ∈ selectedVisits pickup route -> visit ∈ Route.visits route).
  { intros pickup route visit. unfold selectedVisits, pickupVisits, dropoffs.
    destruct pickup; intros H; apply list_elem_of_In in H; apply filter_In in H as [H _];
      apply list_elem_of_In; exact H. }
  assert (Hvd : is_Ok (getVisitsDetail StringToNumber (map asBooking bookings)
                         (Response.routes response) (pickupFlag options))).
  { apply imapM_from_is_Ok. intros j route Hj.
    apply routeDetail_is_Ok_any. intros visit Hv.
    apply (Hall route visit); [eapply list_elem_of_lookup_2; exact Hj |].
    eapply Hsel. exact Hv. }
  assert (Hapi : is_Ok (createVisitsAPIResponse (map asBooking bookings)
                          (Response.routes response))).
  { apply createVisitsAPIResponse_is_Ok. intros route visit Hr Hv.
    apply (Hall route visit Hr). apply (Hsel false). exact Hv. }
  apply is_Ok_exists in Hvd as [vd Hvd]. apply is_Ok_exists in Hapi as [api Hapi].
  unfold attempt. rewrite Hresp. simpl. rewrite Hvd. simpl. rewrite Hapi. simpl.
  eexists. split; [reflexivity |]. split; reflexivity.
Qed.

(** X26: [optimizeRoute] is [optimizeRouteWithModel] on the model that it
    builds from its shipments, its vehicles and the two dates: both send
    the same request to the solver and give the same result or raise the
    same exception; only the heading of the logged error differs. *)
Theorem optimizeRoute_as_model env now bookings vehicles options :
  let startDate := default (Num now) (Options.startDate options) in
  let endDate := default (newDate (add startDate (Num 86400000))) (Options.endDate options) in
  let model := {| shipments := bookings;
                  Optimization.vehicles := vehicles;
                  globalStartTime := Some (dateToGoogleFormat startDate);
                  globalEndTime := Some (dateToGoogleFormat endDate) |} in
  snd (optimizeRoute Shipment Vehicle asBooking StringToNumber optimizeTours
         env now bookings vehicles options)
  = snd (optimizeRouteWithModel Shipment Vehicle asBooking StringToNumber optimizeTours
           env model options) /\
  List.filter isOptimizeTours
    (fst (optimizeRoute Shipment Vehicle asBooking StringToNumber optimizeTours
            env now bookings vehicles options))
  = List.filter isOptimizeTours
      (fst (optimizeRouteWithModel Shipment Vehicle asBooking StringToNumber optimizeTours
              env model options)) /\
  (forall e,
      snd (optimizeRoute Shipment Vehicle asBooking StringToNumber optimizeTours
             env now bookings vehicles options) = Throw e ->
      is_Ok (createOptimizationClient env) ->
      last (fst (optimizeRoute Shipment Vehicle asBooking StringToNumber optimizeTours
                   env now bookings vehicles options))
      = Some (ConsoleError "Error in route optimization:" e) /\
      last (fst (optimizeRouteWithModel Shipment Vehicle asBooking StringToNumber
                   optimizeTours env model options))
      = Some (ConsoleError "Error in route optimization with model:" e)).
Proof.
  intros startDate endDate model.
  unfold optimizeRoute, optimizeRouteWithModel.
  destruct (createOptimizationClient env) as [client|e0].
  2:{ split; [reflexivity |]. split; [reflexivity |]. intros e _ H. destruct H. }
  subst model endDate startDate. cbn [shipments].
  change (24 * 60 * 60 * 1000) with 86400000.
  unfold attempt.
  match goal with
  | |- context [bind ?r ?k] => destruct (bind r k) as [out|e1]
  end; simpl.
  - split; [reflexivity |]. split; [reflexivity |]. intros e H. discriminate H.
  - split; [reflexivity |]. split; [reflexivity |].
    intros e H _. injection H as <-. split; reflexivity.
Qed.

(** X27: [optimizeRoutesAPI] sends the request of [optimizeRoute] with the
    transition polylines switched off and road traffic considered unless
    the options say otherwise; when the solver gives both requests the
    same answer and [optimizeRoute] returns, [optimizeRoutesAPI] returns
    the same response and the same detailed view. *)
Theorem optimizeRoutesAPI_agrees env now bookings vehicles options client request rest :
  fst (optimizeRoute Shipment Vehicle asBooking StringToNumber optimizeTours
         env now bookings vehicles options)
  = OptimizeTours client request callOptions :: rest ->
  exists request' rest',
    fst (optimizeRoutesAPI Shipment Vehicle asBooking StringToNumber optimizeTours
           env now bookings vehicles options)
    = OptimizeTours client request' callOptions :: rest' /\
    parent request' = parent request /\
    model request' = model request /\
    populatePolylines request' = populatePolylines request /\
    populateTransitionPolylines request' = false /\
    considerRoadTraffic request' = default true (Options.considerRoadTraffic options) /\
    (optimizeTours client request' callOptions = optimizeTours client request callOptions ->
     forall out,
       snd (optimizeRoute Shipment Vehicle asBooking StringToNumber optimizeTours
              env now bookings vehicles options) = Ok out ->
       snd (optimizeRoutesAPI Shipment Vehicle asBooking StringToNumber optimizeTours
              env now bookings vehicles options)
       = Ok {| ApiOutput.response := Output.response out;
               ApiOutput.visits_detail := Output.visits_detail out |}).
Proof.
  unfold optimizeRoute, optimizeRoutesAPI.
  destruct (createOptimizationClient env) as [client0|e0]; [| discriminate].
  unfold attempt. intros Hfst.
  match type of Hfst with
  | context [bind (optimizeTours client0 ?r _) _] =>
      assert (client0 = client /\ r = request) as [-> Hreq]
  end.
  { destruct (bind _ _); simpl in Hfst; injection Hfst as <- <-; auto. }
  clear Hfst.
  match goal with
  | |- context [bind (optimizeTours client ?r' callOptions) ?k] =>
      exists r';
      exists (match bind (optimizeTours client r' callOptions) k with
              | Ok _ => []
              | Throw e => [ConsoleError "Error in API route optimization:" e]
              end)
  end.
  split.
  { match goal with |- context [bind ?r ?k] => destruct (bind r k) end; reflexivity. }
  rewrite <- Hreq. cbn [parent model populatePolylines populateTransitionPolylines
                         considerRoadTraffic].
  split; [reflexivity |]. split; [reflexivity |]. split; [reflexivity |].
  split; [reflexivity |]. split; [reflexivity |].
  intros Hsame out. rewrite Hsame.
  match goal with
  | |- context [optimizeTours client ?r callOptions] =>
      destruct (optimizeTours client r callOptions) as [response|e]
  end; simpl; [| discriminate].
  destruct (getVisitsDetail _ _ _ _) as [vd|e]; simpl; [| discriminate].
  destruct (createVisitsAPIResponse _ _) as [api|e]; simpl; [| discriminate].
  intros H. injection H as <-. reflexivity.
Qed.

End SolverReturns.

Import Utils.

Section GroupByFacts.
Context {A : Type} (groupKeyOf : A -> string).

Lemma itemsOf_snoc (name : string) (pre : list A) (item : A) :
  itemsOf groupKeyOf name (pre ++ [item])
  = itemsOf groupKeyOf name pre
    ++ (if String.eqb (groupKeyOf item) name then [item] else []).
Proof. unfold itemsOf. rewrite List.filter_app. reflexivity. Qed.

Lemma itemsOf_nonempty (name : string) (array : list A) :
  itemsOf groupKeyOf name array <> [] <->
  exists item, item ∈ array /\ groupKeyOf item = name.
Proof.
  unfold itemsOf. split.
  - destruct (List.filter _ array) as [|x g] eqn:E; [contradiction |]. intros _.
    assert (Hx : In x (List.filter (fun item => String.eqb (groupKeyOf item) name) array))
      by (rewrite E; left; reflexivity).
    apply filter_In in Hx as [Hin Hkey]. exists x.
    split; [apply list_elem_of_In; exact Hin | apply String.eqb_eq; exact Hkey].
  - intros (item & Hin & Hkey) Hnil.
    assert (Hx : In item (List.filter (fun item => String.eqb (groupKeyOf item) name) array)).
    { apply filter_In. split; [apply list_elem_of_In; exact Hin |].
      apply String.eqb_eq. exact Hkey. }
    rewrite Hnil in Hx. destruct Hx.
Qed.

Lemma insert_group_lookup (acc : gmap string (list A)) (key name : string) (g : list A) :
  (<[key := g]> acc : gmap string (list A)) !! name
  = if String.eqb key name then Some g else acc !! name.
Proof.
  destruct (String.eqb_spec key name) as [<- | Hne].
  - apply lookup_insert_eq.
  - apply lookup_insert_ne. exact Hne.
Qed.

(** The loop invariant: after the items [pre], none of them filed under an
    inherited name, the accumulator holds under each name the items of
    [pre] filed under it, and no empty group. *)
Lemma groupBy_loop (rest : list A) :
  forall (pre : list A) (acc : gmap string (list A)),
    Forall (fun item => inherited (groupKeyOf item) = false) pre ->
    (forall name,
        acc !! name
        = match itemsOf groupKeyOf name pre with [] => None | g => Some g end) ->
    match reduceM (groupStep groupKeyOf) rest acc with
    | Ok groups =>
        Forall (fun item => inherited (groupKeyOf item) = false) rest /\
        forall name,
          groups !! name
          = match itemsOf groupKeyOf name (pre ++ rest) with [] => None | g => Some g end
    | Throw e =>
        e = TypeError /\ Exists (fun item => inherited (groupKeyOf item) = true) rest
    end.
Proof.
  induction rest as [|item rest IH]; intros pre acc Hpre Hacc.
  - simpl. split; [constructor |]. intros name. rewrite app_nil_r. apply Hacc.
  - cbn [reduceM].
    assert (Hnext : forall g,
               inherited (groupKeyOf item) = false ->
               g = itemsOf groupKeyOf (groupKeyOf item) pre ++ [item] ->
               match reduceM (groupStep groupKeyOf) rest (<[groupKeyOf item := g]> acc) with
               | Ok groups =>
                   Forall (fun item => inherited (groupKeyOf item) = false) (item :: rest) /\
                   forall name,
                     groups !! name
                     = match itemsOf groupKeyOf name (pre ++ item :: rest) with
                       | [] => None
                       | g => Some g
                       end
               | Throw e =>
                   e = TypeError /\
                   Exists (fun item => inherited (groupKeyOf item) = true) (item :: rest)
               end).
    { intros g Hclean Hg.
      specialize (IH (pre ++ [item]) (<[groupKeyOf item := g]> acc)).
      rewrite <- app_assoc in IH. cbn [app] in IH.
      assert (Hpre' : Forall (fun item => inherited (groupKeyOf item) = false) (pre ++ [item])).
      { apply Forall_app. split; [exact Hpre | constructor; [exact Hclean | constructor]]. }
      assert (Hinv : forall name,
                 (<[groupKeyOf item := g]> acc : gmap string (list A)) !! name
                 = match itemsOf groupKeyOf name (pre ++ [item]) with
                   | [] => None
                   | g => Some g
                   end).
      { intros name. rewrite insert_group_lookup, itemsOf_snoc.
        destruct (String.eqb_spec (groupKeyOf item) name) as [<- | Hne].
        - rewrite Hg. destruct (itemsOf groupKeyOf (groupKeyOf item) pre); reflexivity.
        - rewrite app_nil_r. apply Hacc. }
      specialize (IH Hpre' Hinv).
      destruct (reduceM (groupStep groupKeyOf) rest _) as [groups|e].
      - destruct IH as [Hrest Hgroups]. split; [| exact Hgroups].
        constructor; [exact Hclean | exact Hrest].
      - destruct IH as [He Hex]. split; [exact He |]. apply Exists_cons_tl. exact Hex. }
    unfold groupStep at 1.
    pose proof (Hacc (groupKeyOf item)) as Hhere.
    destruct (acc !! groupKeyOf item) as [group|] eqn:Eg; cbn [bind].
    + assert (Hgroup : group = itemsOf groupKeyOf (groupKeyOf item) pre /\
                       itemsOf groupKeyOf (groupKeyOf item) pre <> []).
      { destruct (itemsOf groupKeyOf (groupKeyOf item) pre);
          [discriminate Hhere | split; [congruence | discriminate]]. }
      destruct Hgroup as [-> Hne].
      apply Hnext; [| reflexivity].
      apply itemsOf_nonempty in Hne as (x & Hx & Hkey).
      rewrite Forall_forall in Hpre. rewrite <- Hkey. apply (Hpre x Hx).
    + destruct (inherited (groupKeyOf item)) eqn:Ei; cbn [bind].
      * split; [reflexivity |]. apply Exists_cons_hd. exact Ei.
      * apply Hnext; [reflexivity |].
        destruct (itemsOf groupKeyOf (groupKeyOf item) pre); [reflexivity | discriminate Hhere].
Qed.

(** X28: [groupBy] raises, a TypeError, exactly when some item is filed
    under a name that the empty object literal inherits (such as
    "constructor" or "toString"); otherwise it returns an object that holds
    under each name the items filed under it, in the order of the array,
    and no property for a name that no item is filed under. *)
Theorem groupBy_groups (array : list A) :
  (is_Ok (groupBy groupKeyOf array) <->
   Forall (fun item => inherited (groupKeyOf item) = false) array) /\
  (forall e, groupBy groupKeyOf array = Throw e -> e = TypeError) /\
  (forall groups,
      groupBy groupKeyOf array = Ok groups ->
      forall name,
        match groups !! name with
        | Some group =>
            group <> [] /\
            group = List.filter (fun item => String.eqb (groupKeyOf item) name) array
        | None => forall item, item ∈ array -> groupKeyOf item <> name
        end).
Proof.
  pose proof (groupBy_loop array [] ∅ (List.Forall_nil _)) as H.
  cbn [app] in H. fold (groupBy groupKeyOf array) in H.
  assert (H0 : forall name : string,
             (∅ : gmap string (list A)) !! name
             = match itemsOf groupKeyOf name [] with [] => None | g => Some g end)
    by (intros name; apply lookup_empty).
  specialize (H H0).
  destruct (groupBy groupKeyOf array) as [groups|e].
  - destruct H as [Hclean Hgroups]. split; [split; [intros _; exact Hclean | intros _; exact I] |].
    split; [intros e He; discriminate He |].
    intros groups' Heq name. injection Heq as <-. rewrite Hgroups.
    destruct (itemsOf groupKeyOf name array) as [|x g] eqn:E.
    + intros item Hin Hkey.
      assert (Hne : itemsOf groupKeyOf name array <> [])
        by (apply itemsOf_nonempty; exists item; auto).
      apply Hne, E.
    + split; [discriminate | symmetry; exact E].
  - destruct H as [-> Hex]. split.
    + split; [intros [] |]. intros Hall. exfalso.
      apply Exists_exists in Hex as (x & Hx & Hi).
      rewrite Forall_forall in Hall.
      rewrite (Hall x Hx) in Hi. discriminate Hi.
    + split; [intros e He; injection He as <-; reflexivity |].
      intros groups He. discriminate He.
Qed.

End GroupByFacts.

Lemma optimizeRoute_returns_witness :
  exists out,
    optimizeRoute Booking.t unit (fun b => b) parseInt
      (fun _ _ _ =>
         Ok {| Response.routes :=
                 [routeOf [visitOf "Booking 2" true "0" "2";
                           visitOf "Booking 2" false "120" "-2"] [] None] |})
      (<["GOOGLE_PROJECT_ID" := "demo"]>
         (<["GOOGLE_CLIENT_EMAIL" := "svc@demo"]>
            (<["GOOGLE_PRIVATE_KEY" := "k"]> ∅)))
      0 [bookingOf "Booking 2" (placeOf 1 2) (placeOf 3 4)] [tt]
      {| Options.startDate := None; Options.endDate := None;
         Options.considerRoadTraffic := None; Options.includePickups := Some true |}
    = ([OptimizeTours
          {| credentials := {| projectId := "demo"; client_email := "svc@demo";
                               private_key := "k" |};
             apiEndpoint := "routeoptimization.googleapis.com" |}
          {| parent := "projects/demo";
             model := {| shipments := [bookingOf "Booking 2" (placeOf 1 2) (placeOf 3 4)];
                         Optimization.vehicles := [tt];
                         globalStartTime := Some {| Optimization.seconds := Num 0 |};
                         globalEndTime := Some {| Optimization.seconds := Num 86400 |} |};
             populateTransitionPolylines := true;
             populatePolylines := true;
             considerRoadTraffic := false |}
          callOptions], Ok out).
Proof.
  destruct (optimizeRoute_returns Booking.t unit (fun b => b) parseInt
              (fun _ _ _ =>
                 Ok {| Response.routes :=
                         [routeOf [visitOf "Booking 2" true "0" "2";
                                   visitOf "Booking 2" false "120" "-2"] [] None] |})
              (<["GOOGLE_PROJECT_ID" := "demo"]>
                 (<["GOOGLE_CLIENT_EMAIL" := "svc@demo"]>
                    (<["GOOGLE_PRIVATE_KEY" := "k"]> ∅)))
              0 [bookingOf "Booking 2" (placeOf 1 2) (placeOf 3 4)] [tt]
              {| Options.startDate := None; Options.endDate := None;
                 Options.considerRoadTraffic := None; Options.includePickups := Some true |}
              {| credentials := {| projectId := "demo"; client_email := "svc@demo";
                                   private_key := "k" |};
                 apiEndpoint := "routeoptimization.googleapis.com" |}
              {| parent := "projects/demo";
                 model := {| shipments := [bookingOf "Booking 2" (placeOf 1 2) (placeOf 3 4)];
                             Optimization.vehicles := [tt];
                             globalStartTime := Some {| Optimization.seconds := Num 0 |};
                             globalEndTime := Some {| Optimization.seconds := Num 86400 |} |};
                 populateTransitionPolylines := true;
                 populatePolylines := true;
                 considerRoadTraffic := false |}
              []
              {| Response.routes :=
                   [routeOf [visitOf "Booking 2" true "0" "2";
                             visitOf "Booking 2" false "120" "-2"] [] None] |})
    as (out & Hrun & _).
  - vm_compute. reflexivity.
  - reflexivity.
  - constructor; [| constructor]. split; discriminate.
  - intros route visit Hr Hv. exists (bookingOf "Booking 2" (placeOf 1 2) (placeOf 3 4)).
    split; [apply elem_of_cons; left; reflexivity |].
    cbn [Response.routes] in Hr. apply list_elem_of_singleton in Hr. subst route.
    cbn [routeOf Route.visits] in Hv.
    apply elem_of_cons in Hv as [-> | Hv]; [reflexivity |].
    apply list_elem_of_singleton in Hv. subst visit. reflexivity.
  - exists out. exact Hrun.
Defined.

Lemma optimizeRoute_as_model_witness :
  snd (optimizeRoute Booking.t unit (fun b => b) parseInt
         (fun _ _ _ => Throw (Error "DEADLINE_EXCEEDED"))
         (<["GOOGLE_PROJECT_ID" := "demo"]>
            (<["GOOGLE_CLIENT_EMAIL" := "svc@demo"]>
               (<["GOOGLE_PRIVATE_KEY" := "k"]> ∅)))
         1500 [] [tt]
         {| Options.startDate := None; Options.endDate := None;
            Options.considerRoadTraffic := None; Options.includePickups := None |})
  = snd (optimizeRouteWithModel Booking.t unit (fun b => b) parseInt
           (fun _ _ _ => Throw (Error "DEADLINE_EXCEEDED"))
           (<["GOOGLE_PROJECT_ID" := "demo"]>
              (<["GOOGLE_CLIENT_EMAIL" := "svc@demo"]>
                 (<["GOOGLE_PRIVATE_KEY" := "k"]> ∅)))
           {| shipments := []; Optimization.vehicles := [tt];
              globalStartTime := Some {| Optimization.seconds := Num 1 |};
              globalEndTime := Some {| Optimization.seconds := Num 86401 |} |}
           {| Options.startDate := None; Options.endDate := None;
              Options.considerRoadTraffic := None; Options.includePickups := None |}).
Proof.
  exact (proj1 (optimizeRoute_as_model Booking.t unit (fun b => b) parseInt
                  (fun _ _ _ => Throw (Error "DEADLINE_EXCEEDED"))
                  (<["GOOGLE_PROJECT_ID" := "demo"]>
                     (<["GOOGLE_CLIENT_EMAIL" := "svc@demo"]>
                        (<["GOOGLE_PRIVATE_KEY" := "k"]> ∅)))
                  1500 [] [tt]
                  {| Options.startDate := None; Options.endDate := None;
                     Options.considerRoadTraffic := None;
                     Options.includePickups := None |})).
Defined.

Lemma groupBy_groups_witness :
  exists groups,
    groupBy fst [("a", 1); ("b", 2); ("a", 3)] = Ok groups /\
    groups !! "a" = Some [("a", 1); ("a", 3)].
Proof.
  destruct (groupBy fst [("a", 1); ("b", 2); ("a", 3)]) as [groups|e] eqn:E;
    [| vm_compute in E; discriminate E].
  pose proof (proj2 (proj2 (groupBy_groups fst [("a", 1); ("b", 2); ("a", 3)]))
                groups E "a") as H.
  exists groups. split; [reflexivity |].
  destruct (groups !! "a") as [g|].
  - destruct H as [_ ->]. reflexivity.
  - exfalso. apply (H ("a", 1)); [apply elem_of_cons; left; reflexivity | reflexivity].
Defined.


Lemma optimizeRoutesAPI_agrees_witness :
  exists out,
    snd (optimizeRoute Booking.t unit (fun b => b) parseInt
           (fun _ _ _ =>
              Ok {| Response.routes :=
                      [routeOf [visitOf "Booking 2" false "120" "-2"] [] None] |})
           (<["GOOGLE_PROJECT_ID" := "demo"]>
              (<["GOOGLE_CLIENT_EMAIL" := "svc@demo"]>
                 (<["GOOGLE_PRIVATE_KEY" := "k"]> ∅)))
           0 [bookingOf "Booking 2" (placeOf 1 2) (placeOf 3 4)] [tt]
           {| Options.startDate := None; Options.endDate := None;
              Options.considerRoadTraffic := None; Options.includePickups := None |})
    = Ok out /\
    snd (optimizeRoutesAPI Booking.t unit (fun b => b) parseInt
           (fun _ _ _ =>
              Ok {| Response.routes :=
                      [routeOf [visitOf "Booking 2" false "120" "-2"] [] None] |})
           (<["GOOGLE_PROJECT_ID" := "demo"]>
              (<["GOOGLE_CLIENT_EMAIL" := "svc@demo"]>
                 (<["GOOGLE_PRIVATE_KEY" := "k"]> ∅)))
           0 [bookingOf "Booking 2" (placeOf 1 2) (placeOf 3 4)] [tt]
           {| Options.startDate := None; Options.endDate := None;
              Options.considerRoadTraffic := None; Options.includePickups := None |})
    = Ok {| ApiOutput.response := Output.response out;
            ApiOutput.visits_detail := Output.visits_detail out |}.
Proof.
  destruct (snd (optimizeRoute Booking.t unit (fun b => b) parseInt
                   (fun _ _ _ =>
                      Ok {| Response.routes :=
                              [routeOf [visitOf "Booking 2" false "120" "-2"] [] None] |})
                   (<["GOOGLE_PROJECT_ID" := "demo"]>
                      (<["GOOGLE_CLIENT_EMAIL" := "svc@demo"]>
                         (<["GOOGLE_PRIVATE_KEY" := "k"]> ∅)))
                   0 [bookingOf "Booking 2" (placeOf 1 2) (placeOf 3 4)] [tt]
                   {| Options.startDate := None; Options.endDate := None;
                      Options.considerRoadTraffic := None;
                      Options.includePickups := None |})) as [out|e] eqn:Erun;
    [| vm_compute in Erun; discriminate Erun].
  destruct (optimizeRoutesAPI_agrees Booking.t unit (fun b => b) parseInt
              (fun _ _ _ =>
                 Ok {| Response.routes :=
                         [routeOf [visitOf "Booking 2" false "120" "-2"] [] None] |})
              (<["GOOGLE_PROJECT_ID" := "demo"]>
                 (<["GOOGLE_CLIENT_EMAIL" := "svc@demo"]>
                    (<["GOOGLE_PRIVATE_KEY" := "k"]> ∅)))
              0 [bookingOf "Booking 2" (placeOf 1 2) (placeOf 3 4)] [tt]
              {| Options.startDate := None; Options.endDate := None;
                 Options.considerRoadTraffic := None; Options.includePickups := None |}
              {| credentials := {| projectId := "demo"; client_email := "svc@demo";
                                   private_key := "k" |};
                 apiEndpoint := "routeoptimization.googleapis.com" |}
              {| parent := "projects/demo";
                 model := {| shipments := [bookingOf "Booking 2" (placeOf 1 2) (placeOf 3 4)];
                             Optimization.vehicles := [tt];
                             globalStartTime := Some {| Optimization.seconds := Num 0 |};
                             globalEndTime := Some {| Optimization.seconds := Num 86400 |} |};
                 populateTransitionPolylines := true;
                 populatePolylines := true;
                 considerRoadTraffic := false |}
              [])
    as (request' & rest' & _ & _ & _ & _ & _ & _ & Hsame).
  - vm_compute. reflexivity.
  - exists out. split; [reflexivity |]. apply Hsame; [reflexivity | exact Erun].
Defined.
